(** * nightlife-mcp: API-key admission and quota enforcement

    A shallow embedding of the request-admission gateway of nightlife-mcp:

    - [Sql]: the tables and PL/pgSQL functions of
      [supabase/migrations/20260219094000_mcp_api_keys.sql] and
      [supabase/migrations/20260219124000_mcp_api_request_function_fix_conflict_target.sql]
      ([consume_mcp_api_request], [revoke_user_api_key]);
    - [Auth]: [src/auth/authorize.ts] and [src/auth/apiKeys.ts];
    - [Http]: the [/mcp] middleware and handlers of [src/http.ts].

    Tables are explicit state; a PL/pgSQL function is a function from the
    database before the call to either a raised exception (the transaction
    is rolled back, the caller keeps the old database) or the returned row
    together with the database after the call. *)

From Stdlib Require Import ZArith String Ascii List Bool Lia.
From Stdlib Require Import DecimalString.
From stdpp Require Import base option gmap strings list.

Local Open Scope string_scope.
Local Open Scope Z_scope.

(** ** PostgreSQL side *)

Module Sql.

(** [uuid] values are kept as their text form. *)
Definition uuid := string.

(** [timestamptz]: microseconds since the Unix epoch (UTC). *)
Definition timestamptz := Z.

(** [date]: days since the Unix epoch. *)
Definition date := Z.

(** Upper end of PostgreSQL's [integer] (int4). *)
Definition int4_max : Z := 2147483647.

Definition usec_per_minute : Z := 60000000.
Definition usec_per_day : Z := 86400000000.

(** [(p_now AT TIME ZONE 'UTC')::date] *)
Definition utc_date (p_now : timestamptz) : date := p_now / usec_per_day.

(** [date_trunc('minute', p_now)] *)
Definition date_trunc_minute (p_now : timestamptz) : timestamptz :=
  p_now - p_now mod usec_per_minute.

(** A row of [public.mcp_api_keys] ([user_id] is added by the self-service
    migration; [metadata] is kept as its JSON text). *)
Record mcp_api_keys_row := {
  id : uuid;
  key_name : option string;
  key_prefix : string;
  key_hash : string;
  tier : string;
  status : string;
  daily_quota : option Z;
  per_minute_quota : option Z;
  metadata : string;
  created_at : timestamptz;
  updated_at : timestamptz;
  last_used_at : option timestamptz;
  user_id : option uuid
}.

(** The non-key columns of [mcp_api_usage_daily] and [mcp_api_usage_minute];
    the primary key [(api_key_id, window)] is the key of the map. *)
Record usage_row := {
  request_count : Z;
  usage_updated_at : timestamptz
}.

Record Db := {
  mcp_api_keys : list mcp_api_keys_row;
  mcp_api_usage_daily : gmap (uuid * date) usage_row;
  mcp_api_usage_minute : gmap (uuid * timestamptz) usage_row
}.

(** The table constraints of the migration. *)
Definition quota_check (q : option Z) : Prop :=
  match q with None => True | Some n => 0 <= n end.

Definition keys_row_check (k : mcp_api_keys_row) : Prop :=
  (tier k = "free" \/ tier k = "starter" \/ tier k = "enterprise") /\
  (status k = "active" \/ status k = "revoked") /\
  quota_check (daily_quota k) /\ quota_check (per_minute_quota k).

(** Outcome of a PL/pgSQL call: a value, or a raised exception. *)
Inductive sql_result (A : Type) : Type :=
| SqlOk (a : A)
| SqlRaise (message : string).
Arguments SqlOk {A} a.
Arguments SqlRaise {A} message.

#[global] Instance sql_ret : MRet sql_result := fun A a => SqlOk a.

#[global] Instance sql_bind : MBind sql_result := fun A B f m =>
  match m with
  | SqlOk a => f a
  | SqlRaise e => SqlRaise e
  end.

(** [request_count + 1] on an [integer] column. *)
Definition int4_succ (n : Z) : sql_result Z :=
  if n + 1 <=? int4_max then SqlOk (n + 1) else SqlRaise "integer out of range".

(** [SET last_used_at = ...] and the [BEFORE UPDATE] trigger
    [set_mcp_api_keys_updated_at], which stamps [updated_at = now()]. *)
Definition set_mcp_api_keys_updated_at (now : timestamptz) (k : mcp_api_keys_row)
  : mcp_api_keys_row :=
  {| id := id k; key_name := key_name k; key_prefix := key_prefix k;
     key_hash := key_hash k; tier := tier k; status := status k;
     daily_quota := daily_quota k; per_minute_quota := per_minute_quota k;
     metadata := metadata k; created_at := created_at k;
     updated_at := now;
     last_used_at := last_used_at k; user_id := user_id k |}.

Definition set_last_used_at (t : timestamptz) (k : mcp_api_keys_row) : mcp_api_keys_row :=
  {| id := id k; key_name := key_name k; key_prefix := key_prefix k;
     key_hash := key_hash k; tier := tier k; status := status k;
     daily_quota := daily_quota k; per_minute_quota := per_minute_quota k;
     metadata := metadata k; created_at := created_at k;
     updated_at := updated_at k;
     last_used_at := Some t; user_id := user_id k |}.

Definition set_status (s : string) (k : mcp_api_keys_row) : mcp_api_keys_row :=
  {| id := id k; key_name := key_name k; key_prefix := key_prefix k;
     key_hash := key_hash k; tier := tier k; status := s;
     daily_quota := daily_quota k; per_minute_quota := per_minute_quota k;
     metadata := metadata k; created_at := created_at k;
     updated_at := updated_at k;
     last_used_at := last_used_at k; user_id := user_id k |}.

(** [UPDATE public.mcp_api_keys SET ... WHERE cond]: every matching row is
    rewritten and passes through the trigger. *)
Definition update_keys (now : timestamptz) (cond : mcp_api_keys_row -> bool)
    (set : mcp_api_keys_row -> mcp_api_keys_row) (tbl : list mcp_api_keys_row)
  : list mcp_api_keys_row :=
  (fun k => if cond k then set_mcp_api_keys_updated_at now (set k) else k) <$> tbl.

(** [FOUND] after that [UPDATE]. *)
Definition update_found (cond : mcp_api_keys_row -> bool) (tbl : list mcp_api_keys_row)
  : bool :=
  existsb cond tbl.

(** [SELECT * INTO v_key FROM public.mcp_api_keys WHERE key_hash = p_key_hash LIMIT 1] *)
Definition select_key_by_hash (p_key_hash : string) (tbl : list mcp_api_keys_row)
  : option mcp_api_keys_row :=
  find (fun k => String.eqb (key_hash k) p_key_hash) tbl.

Section Usage.
(** The two usage tables have the same shape; [W] is the type of the
    window column ([usage_date] or [minute_start]). *)
Context {W : Type} `{Countable W}.

(** [INSERT ... VALUES (id, w, 1, p_now) ON CONFLICT ... DO UPDATE SET
    request_count = request_count + 1, updated_at = EXCLUDED.updated_at
    RETURNING request_count INTO v]: the branch for a [NULL] quota. *)
Definition upsert_unconditional (key : uuid * W) (p_now : timestamptz)
    (tbl : gmap (uuid * W) usage_row)
  : sql_result (option Z * gmap (uuid * W) usage_row) :=
  match tbl !! key with
  | None =>
      SqlOk (Some 1, <[key := {| request_count := 1; usage_updated_at := p_now |}]> tbl)
  | Some r =>
      c ← int4_succ (request_count r);
      SqlOk (Some c, <[key := {| request_count := c; usage_updated_at := p_now |}]> tbl)
  end.

(** The same statement with [WHERE request_count < quota] on the
    [DO UPDATE]: when the existing row fails the condition nothing is
    written, [RETURNING] yields no row and the target variable is [NULL]. *)
Definition upsert_below_quota (quota : Z) (key : uuid * W) (p_now : timestamptz)
    (tbl : gmap (uuid * W) usage_row)
  : sql_result (option Z * gmap (uuid * W) usage_row) :=
  match tbl !! key with
  | None =>
      SqlOk (Some 1, <[key := {| request_count := 1; usage_updated_at := p_now |}]> tbl)
  | Some r =>
      if request_count r <? quota then
        c ← int4_succ (request_count r);
        SqlOk (Some c, <[key := {| request_count := c; usage_updated_at := p_now |}]> tbl)
      else SqlOk (None, tbl)
  end.

(** [SELECT request_count INTO v FROM usage WHERE api_key_id = .. AND window = ..] *)
Definition select_request_count (key : uuid * W) (tbl : gmap (uuid * W) usage_row)
  : option Z :=
  request_count <$> tbl !! key.

(** The [IF quota IS NULL THEN ... ELSE ... END IF] around the two
    statements: the first component is the target variable
    ([v_minute_count] or [v_daily_count]) after the statement. The
    [IF v IS NULL] test that follows the conditional statement is written
    once, in [consume_mcp_api_request]; after the unconditional statement
    the variable is never [NULL]. *)
Definition check_window (quota : option Z) (key : uuid * W) (p_now : timestamptz)
    (tbl : gmap (uuid * W) usage_row)
  : sql_result (option Z * gmap (uuid * W) usage_row) :=
  match quota with
  | None => upsert_unconditional key p_now tbl
  | Some q => upsert_below_quota q key p_now tbl
  end.
End Usage.

(** The row type of [consume_mcp_api_request]'s [RETURNS TABLE]. *)
Record consume_row := {
  allowed : bool;
  reason : string;
  api_key_id : option uuid;
  r_key_name : option string;
  r_tier : option string;
  r_daily_quota : option Z;
  daily_count : option Z;
  r_per_minute_quota : option Z;
  minute_count : option Z
}.

Definition with_minute (tbl : gmap (uuid * timestamptz) usage_row) (db : Db) : Db :=
  {| mcp_api_keys := mcp_api_keys db;
     mcp_api_usage_daily := mcp_api_usage_daily db;
     mcp_api_usage_minute := tbl |}.

Definition with_daily (tbl : gmap (uuid * date) usage_row) (db : Db) : Db :=
  {| mcp_api_keys := mcp_api_keys db;
     mcp_api_usage_daily := tbl;
     mcp_api_usage_minute := mcp_api_usage_minute db |}.

Definition with_keys (tbl : list mcp_api_keys_row) (db : Db) : Db :=
  {| mcp_api_keys := tbl;
     mcp_api_usage_daily := mcp_api_usage_daily db;
     mcp_api_usage_minute := mcp_api_usage_minute db |}.

(** [public.consume_mcp_api_request(p_key_hash, p_now)]. [now] is the
    transaction timestamp seen by the [updated_at] trigger. *)
Definition consume_mcp_api_request (now : timestamptz)
    (p_key_hash : string) (p_now : timestamptz) (db : Db)
  : sql_result (consume_row * Db) :=
  match select_key_by_hash p_key_hash (mcp_api_keys db) with
  | None =>
      SqlOk ({| allowed := false; reason := "invalid_key";
                api_key_id := None; r_key_name := None; r_tier := None;
                r_daily_quota := None; daily_count := None;
                r_per_minute_quota := None; minute_count := None |}, db)
  | Some v_key =>
      if negb (String.eqb (status v_key) "active") then
        SqlOk ({| allowed := false; reason := "revoked_key";
                  api_key_id := Some (id v_key); r_key_name := key_name v_key;
                  r_tier := Some (tier v_key);
                  r_daily_quota := daily_quota v_key; daily_count := None;
                  r_per_minute_quota := per_minute_quota v_key;
                  minute_count := None |}, db)
      else
        let v_day := utc_date p_now in
        let v_minute := date_trunc_minute p_now in
        '(v_minute_count, minute_tbl) ←
          check_window (per_minute_quota v_key) (id v_key, v_minute) p_now
            (mcp_api_usage_minute db);
        let db1 := with_minute minute_tbl db in
        match v_minute_count with
        | None =>
            SqlOk ({| allowed := false; reason := "minute_limit_exceeded";
                      api_key_id := Some (id v_key); r_key_name := key_name v_key;
                      r_tier := Some (tier v_key);
                      r_daily_quota := daily_quota v_key; daily_count := None;
                      r_per_minute_quota := per_minute_quota v_key;
                      minute_count :=
                        select_request_count (id v_key, v_minute)
                          (mcp_api_usage_minute db1) |}, db1)
        | Some _ =>
            '(v_daily_count, daily_tbl) ←
              check_window (daily_quota v_key) (id v_key, v_day) p_now
                (mcp_api_usage_daily db1);
            let db2 := with_daily daily_tbl db1 in
            match v_daily_count with
            | None =>
                SqlOk ({| allowed := false; reason := "daily_limit_exceeded";
                          api_key_id := Some (id v_key); r_key_name := key_name v_key;
                          r_tier := Some (tier v_key);
                          r_daily_quota := daily_quota v_key;
                          daily_count :=
                            select_request_count (id v_key, v_day)
                              (mcp_api_usage_daily db2);
                          r_per_minute_quota := per_minute_quota v_key;
                          minute_count := v_minute_count |}, db2)
            | Some _ =>
                let db3 :=
                  with_keys
                    (update_keys now (fun k => String.eqb (id k) (id v_key))
                       (set_last_used_at p_now) (mcp_api_keys db2)) db2 in
                SqlOk ({| allowed := true; reason := "ok";
                          api_key_id := Some (id v_key); r_key_name := key_name v_key;
                          r_tier := Some (tier v_key);
                          r_daily_quota := daily_quota v_key;
                          daily_count := v_daily_count;
                          r_per_minute_quota := per_minute_quota v_key;
                          minute_count := v_minute_count |}, db3)
            end
        end
  end.

(** The [WHERE] of the revoking [UPDATE]:
    [id = p_key_id AND user_id = v_user_id AND status = 'active']
    (a [NULL] [user_id] equals nothing). *)
Definition revoke_cond (p_key_id v_user_id : uuid) (k : mcp_api_keys_row) : bool :=
  String.eqb (id k) p_key_id
  && match user_id k with
     | Some u => String.eqb u v_user_id
     | None => false
     end
  && String.eqb (status k) "active".

(** [public.revoke_user_api_key(p_key_id)]; [auth_uid] is the value of
    [auth.uid()] for the calling session and [now] the transaction
    timestamp seen by the [updated_at] trigger. *)
Definition revoke_user_api_key (auth_uid : option uuid) (now : timestamptz)
    (p_key_id : uuid) (db : Db)
  : sql_result (bool * Db) :=
  match auth_uid with
  | None => SqlRaise "Not authenticated"
  | Some v_user_id =>
      let v_updated := update_found (revoke_cond p_key_id v_user_id) (mcp_api_keys db) in
      SqlOk (v_updated,
             with_keys
               (update_keys now (revoke_cond p_key_id v_user_id)
                  (set_status "revoked") (mcp_api_keys db)) db)
  end.

(** A sequence of [consume_mcp_api_request] calls, each in its own
    transaction and given as (transaction timestamp, [p_key_hash],
    [p_now]): a call that raises leaves the database as it was. The
    result lists the outcome of every call in order. *)
Fixpoint consume_all (calls : list (timestamptz * string * timestamptz)) (db : Db)
  : list (sql_result consume_row) * Db :=
  match calls with
  | [] => ([], db)
  | (now, p_key_hash, p_now) :: rest =>
      match consume_mcp_api_request now p_key_hash p_now db with
      | SqlOk (row, db') =>
          let '(rows, db'') := consume_all rest db' in (SqlOk row :: rows, db'')
      | SqlRaise e =>
          let '(rows, db'') := consume_all rest db in (SqlRaise e :: rows, db'')
      end
  end.

Definition admitted (r : sql_result consume_row) : bool :=
  match r with
  | SqlOk row => allowed row
  | SqlRaise _ => false
  end.

(** Number of admitted calls in a list of outcomes. *)
Definition count_admitted (rs : list (sql_result consume_row)) : nat :=
  length (List.filter admitted rs).

(** The key row [p_key_hash] selects is active, has id [kid] and the given
    two quotas. *)
Definition selects_active (p_key_hash : string) (kid : uuid)
    (quota_minute quota_day : option Z) (db : Db) : Prop :=
  exists k,
    select_key_by_hash p_key_hash (mcp_api_keys db) = Some k
    /\ id k = kid /\ status k = "active"
    /\ per_minute_quota k = quota_minute /\ daily_quota k = quota_day.

(** Every call of the list presents [p_key_hash] at an instant of the
    minute starting at [m] on day [d]. *)
Definition calls_in_window (p_key_hash : string) (m : timestamptz) (d : date)
    (calls : list (timestamptz * string * timestamptz)) : Prop :=
  Forall (fun '(_, h, p_now) =>
            h = p_key_hash /\ date_trunc_minute p_now = m /\ utc_date p_now = d)
    calls.

(** The count a window currently stands at: an absent row counts as 0. *)
Definition current_count {W : Type} `{Countable W} (key : uuid * W)
    (tbl : gmap (uuid * W) usage_row) : Z :=
  default 0 (select_request_count key tbl).

(** [n] successive quota checks on one window of one usage table (each in
    its own transaction): the number admitted and the table afterwards. *)
Fixpoint window_calls {W : Type} `{Countable W} (quota : option Z) (key : uuid * W)
    (p_now : timestamptz) (n : nat) (tbl : gmap (uuid * W) usage_row)
  : nat * gmap (uuid * W) usage_row :=
  match n with
  | O => (O, tbl)
  | S n' =>
      match check_window quota key p_now tbl with
      | SqlOk (Some _, tbl') =>
          let '(a, t) := window_calls quota key p_now n' tbl' in (S a, t)
      | SqlOk (None, tbl') => window_calls quota key p_now n' tbl'
      | SqlRaise _ => window_calls quota key p_now n' tbl
      end
  end.

End Sql.

(** ** Self-service key management

    [create_user_api_key] of the self-service migration, with the
    PostgreSQL built-ins it calls, and a driver for runs of key
    operations. *)

Module SqlKeys.
Import Sql.

(** The base64 alphabet of [encode(..., 'base64')]. *)
Definition base64_alphabet : string :=
  "ABCDEFGHIJKLMNOPQRSTUVWXYZabcdefghijklmnopqrstuvwxyz0123456789+/".

Definition base64_char (i : Z) : ascii :=
  match String.get (Z.to_nat i) base64_alphabet with
  | Some c => c
  | None => "="%char
  end.

Definition byte_value (b : ascii) : Z := Z.of_nat (nat_of_ascii b).

(** [encode(bytes, 'base64')] for fewer than 57 bytes, where PostgreSQL
    inserts no line break: three bytes give four characters, a remainder
    of one or two bytes is padded with [=]. *)
Fixpoint encode_base64 (bytes : list ascii) : string :=
  match bytes with
  | b0 :: b1 :: b2 :: rest =>
      let x0 := byte_value b0 in
      let x1 := byte_value b1 in
      let x2 := byte_value b2 in
      String (base64_char (x0 / 4))
        (String (base64_char ((x0 mod 4) * 16 + x1 / 16))
           (String (base64_char ((x1 mod 16) * 4 + x2 / 64))
              (String (base64_char (x2 mod 64)) (encode_base64 rest))))
  | [b0; b1] =>
      let x0 := byte_value b0 in
      let x1 := byte_value b1 in
      String (base64_char (x0 / 4))
        (String (base64_char ((x0 mod 4) * 16 + x1 / 16))
           (String (base64_char ((x1 mod 16) * 4)) "="))
  | [b0] =>
      let x0 := byte_value b0 in
      String (base64_char (x0 / 4)) (String (base64_char ((x0 mod 4) * 16)) "==")
  | [] => ""
  end.

(** [replace(s, '=', '')] *)
Fixpoint remove_padding (s : string) : string :=
  match s with
  | EmptyString => EmptyString
  | String c t => if Ascii.eqb c "=" then remove_padding t else String c (remove_padding t)
  end.

(** [translate(s, '+/', '-_')] *)
Fixpoint translate_url_safe (s : string) : string :=
  match s with
  | EmptyString => EmptyString
  | String c t =>
      String (if Ascii.eqb c "+" then "-"%char
              else if Ascii.eqb c "/" then "_"%char else c)
        (translate_url_safe t)
  end.

(** Letters, digits, [-] and [_]: the characters of a URL-safe key. *)
Definition is_url_safe (c : ascii) : bool :=
  let n := nat_of_ascii c in
  ((65 <=? n) && (n <=? 90) || (97 <=? n) && (n <=? 122)
   || (48 <=? n) && (n <=? 57) || (n =? 45) || (n =? 95))%nat.

Fixpoint all_url_safe (s : string) : bool :=
  match s with
  | EmptyString => true
  | String c t => is_url_safe c && all_url_safe t
  end.

(** [left(s, n)] for a non-negative [n] *)
Definition left (s : string) (n : nat) : string := String.substring 0 n s.

(** SQL [trim(s)]: spaces, and only spaces, removed from both ends. *)
Fixpoint ltrim (s : string) : string :=
  match s with
  | EmptyString => EmptyString
  | String c t => if Ascii.eqb c " " then ltrim t else s
  end.

Fixpoint rtrim (s : string) : string :=
  match s with
  | EmptyString => EmptyString
  | String c t =>
      match rtrim t with
      | EmptyString => if Ascii.eqb c " " then EmptyString else String c EmptyString
      | t' => String c t'
      end
  end.

Definition btrim (s : string) : string := rtrim (ltrim s).

(** [COALESCE(NULLIF(trim(p_key_name), ''), 'My API Key')] *)
Definition default_key_name (p_key_name : option string) : string :=
  match p_key_name with
  | None => "My API Key"
  | Some n => if String.eqb (btrim n) "" then "My API Key" else btrim n
  end.

(** ['nlt_' || translate(replace(encode(gen_random_bytes(24), 'base64'), '=', ''), '+/', '-_')] *)
Definition make_raw_key (random_bytes : list ascii) : string :=
  "nlt_" ++ translate_url_safe (remove_padding (encode_base64 random_bytes)).

(** [SELECT count( * ) FROM mcp_api_keys WHERE user_id = v_user_id AND status = 'active'] *)
Definition is_active_key_of (v_user_id : uuid) (k : mcp_api_keys_row) : bool :=
  match user_id k with
  | Some u => String.eqb u v_user_id
  | None => false
  end
  && String.eqb (status k) "active".

Definition count_active_keys (v_user_id : uuid) (tbl : list mcp_api_keys_row) : Z :=
  Z.of_nat (length (List.filter (is_active_key_of v_user_id) tbl)).

(** The row [create_user_api_key] returns. *)
Record created_key := {
  c_key_id : uuid;
  c_raw_key : string;
  c_key_name : string;
  c_key_prefix : string
}.

(** [INSERT INTO public.mcp_api_keys ... RETURNING id]: the primary key
    and the [UNIQUE] constraint on [key_hash] are checked, the row goes to
    the end of the table. *)
Definition insert_key (row : mcp_api_keys_row) (tbl : list mcp_api_keys_row)
  : sql_result (list mcp_api_keys_row) :=
  if existsb (fun k => String.eqb (id k) (id row)) tbl then
    SqlRaise "duplicate key value violates unique constraint mcp_api_keys_pkey"
  else if existsb (fun k => String.eqb (key_hash k) (key_hash row)) tbl then
    SqlRaise "duplicate key value violates unique constraint mcp_api_keys_key_hash_key"
  else SqlOk (tbl ++ [row])%list.

(** [public.create_user_api_key(p_key_name)]. [auth_uid] is [auth.uid()],
    [now] the transaction timestamp ([now()], the column defaults),
    [new_id] the value of [gen_random_uuid()], [random_bytes] that of
    [gen_random_bytes(24)], and [digest_hex s] is
    [encode(digest(s, 'sha256'), 'hex')]. *)
Definition create_user_api_key (digest_hex : string -> string)
    (auth_uid : option uuid) (now : timestamptz) (new_id : uuid)
    (random_bytes : list ascii) (p_key_name : option string) (db : Db)
  : sql_result (created_key * Db) :=
  match auth_uid with
  | None => SqlRaise "Not authenticated"
  | Some v_user_id =>
      let v_active_count := count_active_keys v_user_id (mcp_api_keys db) in
      if 3 <=? v_active_count then
        SqlRaise "Maximum of 3 active API keys allowed. Revoke an existing key first."
      else
        let v_raw_key := make_raw_key random_bytes in
        let v_key_hash := digest_hex v_raw_key in
        let v_key_prefix := left v_raw_key 8 in
        let v_key_name := default_key_name p_key_name in
        tbl ← insert_key
                 {| id := new_id; key_name := Some v_key_name;
                    key_prefix := v_key_prefix; key_hash := v_key_hash;
                    tier := "free"; status := "active";
                    daily_quota := Some 100; per_minute_quota := Some 20;
                    metadata := "{}"; created_at := now; updated_at := now;
                    last_used_at := None; user_id := Some v_user_id |}
                 (mcp_api_keys db);
        SqlOk ({| c_key_id := new_id; c_raw_key := v_raw_key;
                  c_key_name := v_key_name; c_key_prefix := v_key_prefix |},
               with_keys tbl db)
  end.




End SqlKeys.

(** ** JavaScript strings

    Strings are sequences of code units below 256 (what Node hands over
    for header values); the built-ins used by the gateway are written out
    for that range. *)

Module Js.

(** White space of [String.prototype.trim] among the code units below 256. *)
Definition is_white_space (c : ascii) : bool :=
  let n := nat_of_ascii c in
  ((9 <=? n) && (n <=? 13) || (n =? 32) || (n =? 160))%nat.

Fixpoint trimStart (s : string) : string :=
  match s with
  | EmptyString => EmptyString
  | String c t => if is_white_space c then trimStart t else s
  end.

Fixpoint trimEnd (s : string) : string :=
  match s with
  | EmptyString => EmptyString
  | String c t =>
      match trimEnd t with
      | EmptyString => if is_white_space c then EmptyString else String c EmptyString
      | t' => String c t'
      end
  end.

Definition trim (s : string) : string := trimEnd (trimStart s).

Definition lower_char (c : ascii) : ascii :=
  let n := nat_of_ascii c in
  if ((65 <=? n) && (n <=? 90)
      || (192 <=? n) && (n <=? 222) && negb (n =? 215))%nat
  then ascii_of_nat (n + 32) else c.

Fixpoint toLowerCase (s : string) : string :=
  match s with
  | EmptyString => EmptyString
  | String c t => String (lower_char c) (toLowerCase t)
  end.

(** [hay.includes(needle)] *)
Fixpoint includes (hay needle : string) : bool :=
  String.prefix needle hay
  || match hay with
     | EmptyString => false
     | String _ t => includes t needle
     end.

(** [s.slice(0, n)] *)
Definition slice0 (n : nat) (s : string) : string := String.substring 0 n s.

(** Truthiness of a string: only the empty string is falsy. *)
Definition truthy (s : string) : bool := negb (String.eqb s "").

(** [o || d] for an optional string [o]. *)
Definition or_default (o : option string) (d : string) : string :=
  match o with
  | Some s => if truthy s then s else d
  | None => d
  end.

(** [String(n)] for an integer-valued number below 10^21 in absolute value. *)
Definition string_of_number (n : Z) : string := NilZero.string_of_int (Z.to_int n).

End Js.

(** ** Authorization ([src/auth]) *)

Module Auth.

(** The row the RPC answers with, as TypeScript sees it. *)
Record ConsumeRpcRow := {
  allowed : bool;
  reason : string;
  api_key_id : option string;
  key_name : option string;
  tier : option string;
  daily_quota : option Z;
  daily_count : option Z;
  per_minute_quota : option Z;
  minute_count : option Z
}.

Inductive KeySource := db | env.

Record ApiKeyContext := {
  keyId : string;
  keyName : option string;
  ctx_tier : string;
  fingerprint : string;
  source : KeySource;
  dailyQuota : option Z;
  dailyCount : option Z;
  minuteQuota : option Z;
  minuteCount : option Z;
  dailyRemaining : option Z;
  minuteRemaining : option Z
}.

Record ApiAuthError := {
  httpStatus : Z;
  jsonRpcCode : Z;
  message : string;
  retryAfterSec : option Z
}.

Inductive AuthResult :=
| AuthOk (context : ApiKeyContext)
| AuthErr (error : ApiAuthError).

(** The [{ data, error }] pair a [supabase.rpc] call resolves to. [data] is
    [None] when it is not an array; [error_message] is the error's
    [message] field, [None] when that field is absent. *)
Record PostgrestError := { error_message : option string }.

Record RpcResponse := {
  data : option (list ConsumeRpcRow);
  error : option PostgrestError
}.

Definition remaining (quota count : option Z) : option Z :=
  match quota, count with
  | Some q, Some c => Some (Z.max 0 (q - c))
  | _, _ => None
  end.

Definition normalizeTier (value : option string) : string :=
  let raw := Js.toLowerCase (Js.trim (Js.or_default value "")) in
  if negb (Js.truthy raw) then "free" else raw.

Definition invalid_api_key : ApiAuthError :=
  {| httpStatus := 403; jsonRpcCode := -32003;
     message := "Invalid API key."; retryAfterSec := None |}.

Definition mapRpcRejection (reason : string) : ApiAuthError :=
  if String.eqb reason "invalid_key" || String.eqb reason "revoked_key" then
    {| httpStatus := 403; jsonRpcCode := -32003;
       message := "Invalid API key."; retryAfterSec := None |}
  else if String.eqb reason "minute_limit_exceeded" then
    {| httpStatus := 429; jsonRpcCode := -32029;
       message := "Per-minute rate limit exceeded."; retryAfterSec := Some 60 |}
  else if String.eqb reason "daily_limit_exceeded" then
    {| httpStatus := 429; jsonRpcCode := -32029;
       message := "Daily API quota exceeded."; retryAfterSec := Some 3600 |}
  else
    {| httpStatus := 403; jsonRpcCode := -32003;
       message := "Invalid API key."; retryAfterSec := None |}.

Definition isRpcMissing (errorMessage : string) : bool :=
  Js.includes errorMessage "Could not find the function"
  || Js.includes errorMessage "does not exist"
  || Js.includes errorMessage "function public.consume_mcp_api_request".

Definition backend_unavailable : ApiAuthError :=
  {| httpStatus := 500; jsonRpcCode := -32603;
     message :=
       "API key validation backend is unavailable. Run DB migration for consume_mcp_api_request().";
     retryAfterSec := None |}.

(** [crypto.timingSafeEqual] on two buffers of the same length: every
    byte pair is compared, the differences are accumulated. *)
Fixpoint timingSafeEqual_acc (a b : string) (diff : bool) : bool :=
  match a, b with
  | String x a', String y b' =>
      timingSafeEqual_acc a' b' (diff || negb (Ascii.eqb x y))
  | _, _ => negb diff
  end.

Definition timingSafeEqual (a b : string) : bool := timingSafeEqual_acc a b false.

Definition isApiKeyAllowed (candidate : string) (allowedKeys : list string) : bool :=
  existsb
    (fun key =>
       if negb (Nat.eqb (String.length key) (String.length candidate)) then false
       else timingSafeEqual candidate key)
    allowedKeys.

Section WithHash.
(** [createHash("sha256").update(key).digest("hex")] of [node:crypto]. *)
Variable hashApiKey : string -> string.

Definition keyFingerprint (key : string) : string :=
  let digest := hashApiKey key in
  Js.slice0 12 digest.

Definition buildEnvContext (apiKey : string) : ApiKeyContext :=
  {| keyId := "env"; keyName := Some "env-fallback"; ctx_tier := "free";
     fingerprint := keyFingerprint apiKey; source := env;
     dailyQuota := None; dailyCount := None;
     minuteQuota := None; minuteCount := None;
     dailyRemaining := None; minuteRemaining := None |}.

(** The tail of [authorizeApiKey], reached when the database is not
    used or the RPC is missing and the fallback is allowed. *)
Definition envFallback (apiKey : string) (allowEnvFallback : bool)
    (envKeys : list string) : AuthResult :=
  if allowEnvFallback && isApiKeyAllowed apiKey envKeys then
    AuthOk (buildEnvContext apiKey)
  else AuthErr invalid_api_key.

(** [authorizeApiKey(options)]. [supabase] answers the one call
    [rpc("consume_mcp_api_request", { p_key_hash, p_now })]; [nowIso] is
    [new Date().toISOString()]. *)
Definition authorizeApiKey (supabase : string -> string -> RpcResponse)
    (nowIso : string) (apiKey : string) (useDbKeys allowEnvFallback : bool)
    (envKeys : list string) : AuthResult :=
  if useDbKeys then
    let keyHash := hashApiKey apiKey in
    let resp := supabase keyHash nowIso in
    match error resp with
    | None =>
        let row :=
          match data resp with
          | Some rows => head rows
          | None => None
          end in
        match row with
        | None => AuthErr invalid_api_key
        | Some row =>
            if negb (allowed row) then AuthErr (mapRpcRejection (reason row))
            else
              AuthOk
                {| keyId := Js.or_default (api_key_id row) "unknown";
                   keyName := key_name row;
                   ctx_tier := normalizeTier (tier row);
                   fingerprint := keyFingerprint apiKey;
                   source := db;
                   dailyQuota := daily_quota row;
                   dailyCount := daily_count row;
                   minuteQuota := per_minute_quota row;
                   minuteCount := minute_count row;
                   dailyRemaining := remaining (daily_quota row) (daily_count row);
                   minuteRemaining :=
                     remaining (per_minute_quota row) (minute_count row) |}
        end
    | Some err =>
        let errorMessage := Js.or_default (error_message err) "" in
        if negb allowEnvFallback || negb (isRpcMissing errorMessage) then
          AuthErr backend_unavailable
        else envFallback apiKey allowEnvFallback envKeys
    end
  else envFallback apiKey allowEnvFallback envKeys.
End WithHash.

End Auth.

(** ** HTTP transport ([src/http.ts]) *)

Module Http.

(** The fields of [AppConfig] the [/mcp] routes read. *)
Record AppConfig := {
  mcpHttpRequireApiKey : bool;
  mcpHttpUseDbKeys : bool;
  mcpHttpAllowEnvKeyFallback : bool;
  mcpHttpApiKeys : list string
}.

(** A header as Node presents it: one string or an array of strings. *)
Inductive HeaderValue :=
| HString (s : string)
| HArray (l : list string).

Inductive Method := POST | GET | DELETE.

(** A request, by what the [/mcp] routes read from it: the credential
    [extractApiKeyFromHeaders(req.headers)] finds, the [mcp-session-id]
    header, whether the body is an initialize request, and the fields the
    auth middleware attaches. *)
Record RequestWithAuth := {
  method : Method;
  credential : option string;
  session_header : option HeaderValue;
  isInitializeRequestBody : bool;
  apiKey : option string;
  apiKeyFingerprint : option string;
  apiKeyId : option string;
  apiKeyTier : option string;
  apiKeySource : option Auth.KeySource
}.

(** [SessionContext]; [server] and [transport] are handles of SDK objects. *)
Record SessionContext := {
  server : nat;
  transport : nat;
  s_apiKeyFingerprint : string;
  s_apiKeyId : string;
  s_apiKeyTier : string;
  createdAt : Z
}.

(** What a route does with a request. *)
Inductive Outcome :=
| SendJsonRpcError (status code : Z) (message : string)
    (** [sendJsonRpcError(res, status, code, message)] *)
| TransportHandleRequest (sessionId : string) (session : SessionContext)
    (** [context.transport.handleRequest(req, res, ...)] on an open session *)
| ConnectNewTransport
    (** a fresh server and transport are created and handed the request *).

(** The response: headers set with [res.setHeader], in order, and the outcome. *)
Record Response := {
  headers : list (string * string);
  outcome : Outcome
}.

Definition getSessionId (req : RequestWithAuth) : option string :=
  match session_header req with
  | Some (HString raw) =>
      if (0 <? String.length (Js.trim raw))%nat then Some (Js.trim raw) else None
  | Some (HArray raw) =>
      match find (fun value => (0 <? String.length (Js.trim value))%nat) raw with
      | Some first => if Js.truthy first then Some (Js.trim first) else None
      | None => None
      end
  | None => None
  end.

Definition source_name (s : Auth.KeySource) : string :=
  match s with
  | Auth.db => "db"
  | Auth.env => "env"
  end.

(** [if (x !== null) res.setHeader(name, String(x))] *)
Definition header_if_present (name : string) (x : option Z) : list (string * string) :=
  match x with
  | Some n => [(name, Js.string_of_number n)]
  | None => []
  end.

(** The rate-limit and key headers of an admitted request. *)
Definition admission_headers (context : Auth.ApiKeyContext) : list (string * string) :=
  header_if_present "X-RateLimit-Daily-Limit" (Auth.dailyQuota context)
  ++ header_if_present "X-RateLimit-Daily-Remaining" (Auth.dailyRemaining context)
  ++ header_if_present "X-RateLimit-Minute-Limit" (Auth.minuteQuota context)
  ++ header_if_present "X-RateLimit-Minute-Remaining" (Auth.minuteRemaining context)
  ++ [("X-API-Key-Tier", Auth.ctx_tier context);
      ("X-API-Key-Source", source_name (Auth.source context))].

(** [res.getHeader(name)] on a list of set headers: the last one set wins. *)
Definition get_header (name : string) (hs : list (string * string)) : option string :=
  snd <$> find (fun h => String.eqb (fst h) name) (rev hs).

Section Routes.
Variable hashApiKey : string -> string.
Variable config : AppConfig.
Variable supabase : string -> string -> Auth.RpcResponse.

(** [app.use("/mcp", ...)]: either the middleware answers itself
    ([inl]), or it calls [next()] with the request it decorated and the
    headers it set ([inr]). *)
Definition mcp_auth (nowIso : string) (req : RequestWithAuth)
  : Response + (RequestWithAuth * list (string * string)) :=
  if negb (mcpHttpRequireApiKey config) then inr (req, [])
  else
    match credential req with
    | None =>
        inl {| headers := [("WWW-Authenticate", "Bearer")];
               outcome := SendJsonRpcError 401 (-32001) "API key required." |}
    | Some key =>
        if negb (Js.truthy key) then
          inl {| headers := [("WWW-Authenticate", "Bearer")];
                 outcome := SendJsonRpcError 401 (-32001) "API key required." |}
        else
        match Auth.authorizeApiKey hashApiKey supabase nowIso key
                (mcpHttpUseDbKeys config) (mcpHttpAllowEnvKeyFallback config)
                (mcpHttpApiKeys config) with
        | Auth.AuthErr err =>
            inl {| headers :=
                     match Auth.retryAfterSec err with
                     | Some n =>
                         if negb (n =? 0)
                         then [("Retry-After", Js.string_of_number n)] else []
                     | None => []
                     end;
                   outcome :=
                     SendJsonRpcError (Auth.httpStatus err) (Auth.jsonRpcCode err)
                       (Auth.message err) |}
        | Auth.AuthOk context =>
            inr ({| method := method req;
                    credential := credential req;
                    session_header := session_header req;
                    isInitializeRequestBody := isInitializeRequestBody req;
                    apiKey := Some key;
                    apiKeyFingerprint := Some (Auth.fingerprint context);
                    apiKeyId := Some (Auth.keyId context);
                    apiKeyTier := Some (Auth.ctx_tier context);
                    apiKeySource := Some (Auth.source context) |},
                 admission_headers context)
        end
    end.

(** The guard shared by the three session routes:
    [config.mcpHttpRequireApiKey && req.apiKeyFingerprint &&
     context.apiKeyFingerprint !== req.apiKeyFingerprint] *)
Definition fingerprint_mismatch (context : SessionContext) (req : RequestWithAuth)
  : bool :=
  mcpHttpRequireApiKey config
  && match apiKeyFingerprint req with
     | Some f => Js.truthy f && negb (String.eqb (s_apiKeyFingerprint context) f)
     | None => false
     end.

(** The part of a route that runs once a session id is present. *)
Definition on_session (sessions : gmap string SessionContext)
    (sessionId : string) (req : RequestWithAuth) : Outcome :=
  match sessions !! sessionId with
  | None => SendJsonRpcError 404 (-32004) "Unknown session ID."
  | Some context =>
      if fingerprint_mismatch context req then
        SendJsonRpcError 403 (-32003) "Session not valid for this API key."
      else TransportHandleRequest sessionId context
  end.

(** [app.post("/mcp", ...)] *)
Definition post_mcp (sessions : gmap string SessionContext) (req : RequestWithAuth)
  : Outcome :=
  match getSessionId req with
  | Some sessionId => on_session sessions sessionId req
  | None =>
      if negb (isInitializeRequestBody req) then
        SendJsonRpcError 400 (-32000)
          "Initialize request required when no session ID is present."
      else ConnectNewTransport
  end.

(** [app.get("/mcp", ...)] and [app.delete("/mcp", ...)] *)
Definition get_mcp (sessions : gmap string SessionContext) (req : RequestWithAuth)
  : Outcome :=
  match getSessionId req with
  | None => SendJsonRpcError 400 (-32000) "Session ID header is required."
  | Some sessionId => on_session sessions sessionId req
  end.

Definition delete_mcp := get_mcp.

(** The [onsessioninitialized] callback of the transport a POST without
    session id creates: it records the session under the id the SDK
    generated. *)
Definition onsessioninitialized (req : RequestWithAuth) (server transport : nat)
    (now : Z) (newSessionId : string) (sessions : gmap string SessionContext)
  : gmap string SessionContext :=
  <[newSessionId :=
      {| server := server; transport := transport;
         s_apiKeyFingerprint := Js.or_default (apiKeyFingerprint req) "anonymous";
         s_apiKeyId := Js.or_default (apiKeyId req) "anonymous";
         s_apiKeyTier := Js.or_default (apiKeyTier req) "free";
         createdAt := now |}]> sessions.

(** A request to [/mcp]: the auth middleware, then the route of its method. *)
Definition serve_mcp (nowIso : string) (sessions : gmap string SessionContext)
    (req : RequestWithAuth) : Response :=
  match mcp_auth nowIso req with
  | inl resp => resp
  | inr (req', hs) =>
      {| headers := hs;
         outcome :=
           match method req' with
           | POST => post_mcp sessions req'
           | GET => get_mcp sessions req'
           | DELETE => delete_mcp sessions req'
           end |}
  end.
End Routes.

End Http.

(** ** Credential extraction ([src/auth/apiKeys.ts]) *)

Module ApiKeys.

(** The value found under a header name in [Record<string, unknown>]: a
    string, an array (an element that is not a string is [None]), or
    anything else, [undefined] included. *)
Inductive JsHeader :=
| HdrString (s : string)
| HdrArray (items : list (option string))
| HdrOther.

Definition headerValue (raw : JsHeader) : option string :=
  match raw with
  | HdrString s =>
      let trimmed := Js.trim s in
      if (0 <? String.length trimmed)%nat then Some trimmed else None
  | HdrArray items =>
      match find (fun value =>
                    match value with
                    | Some v => (0 <? String.length (Js.trim v))%nat
                    | None => false
                    end) items with
      | Some (Some first) => Some (Js.trim first)
      | _ => None
      end
  | HdrOther => None
  end.

(** A string is clean at the front when it is empty or starts with a
    character that is not white space. *)
Definition clean_front (s : string) : Prop :=
  match s with
  | EmptyString => True
  | String c _ => Js.is_white_space c = false
  end.

Fixpoint all_white_space (s : string) : bool :=
  match s with
  | EmptyString => true
  | String c t => Js.is_white_space c && all_white_space t
  end.

Fixpoint no_white_space (s : string) : bool :=
  match s with
  | EmptyString => true
  | String c t => negb (Js.is_white_space c) && no_white_space t
  end.

(** Case-insensitive match of an ASCII letter of the pattern (flag [i]). *)
Definition upper_ascii (c : ascii) : ascii :=
  let n := nat_of_ascii c in
  if ((97 <=? n) && (n <=? 122))%nat then ascii_of_nat (n - 32) else c.

(** The literal part of a pattern under flag [i], matched at the start of
    [s]: the rest of [s] when it matches. *)
Fixpoint match_ci_prefix (pat s : string) : option string :=
  match pat with
  | EmptyString => Some s
  | String p pat' =>
      match s with
      | String c s' =>
          if Ascii.eqb (upper_ascii c) (upper_ascii p) then match_ci_prefix pat' s'
          else None
      | EmptyString => None
      end
  end.

(** [.] matches anything but a line terminator. *)
Definition is_line_terminator (c : ascii) : bool :=
  let n := nat_of_ascii c in ((n =? 10) || (n =? 13))%nat.

Fixpoint no_line_terminator (s : string) : bool :=
  match s with
  | EmptyString => true
  | String c t => negb (is_line_terminator c) && no_line_terminator t
  end.

(** [(.+)$] at the current position: the rest of the input, when it is
    not empty and has no line terminator. *)
Definition dot_plus_end (s : string) : option string :=
  if Js.truthy s && no_line_terminator s then Some s else None.

(** [\s+(.+)$] after a first white space has been consumed: the greedy
    [\s+] takes further white space first and gives it back when the rest
    does not match. *)
Fixpoint spaces_then_group (s : string) : option string :=
  match s with
  | String c t =>
      if Js.is_white_space c then
        match spaces_then_group t with
        | Some g => Some g
        | None => dot_plus_end s
        end
      else dot_plus_end s
  | EmptyString => None
  end.

(** [/^Bearer\s+(.+)$/i.exec(authHeader)]: the capture group. *)
Definition bearer_exec (authHeader : string) : option string :=
  match match_ci_prefix "Bearer" authHeader with
  | Some (String c t) => if Js.is_white_space c then spaces_then_group t else None
  | _ => None
  end.

Definition extractApiKeyFromHeaders (headers : gmap string JsHeader) : option string :=
  let xApiKey := headerValue (default HdrOther (headers !! "x-api-key")) in
  match (match xApiKey with
         | Some k => if Js.truthy k then Some k else None
         | None => None
         end) with
  | Some k => Some k
  | None =>
      match headerValue (default HdrOther (headers !! "authorization")) with
      | None => None
      | Some authHeader =>
          if negb (Js.truthy authHeader) then None
          else
            match bearer_exec authHeader with
            | None => None
            | Some group =>
                let token := Js.trim group in
                if Js.truthy token then Some token else None
            end
      end
  end.

End ApiKeys.

(** ** Server start-up, session clean-up and counters

    The remaining pieces of [main] in [src/http.ts], the environment
    parsing of [loadConfig] and the HTTP counters of the metrics module. *)

Module Server.
Import Http.

(** [value.trim().toLowerCase() !== "false"] on a variable with default
    ["true"]. *)
Definition env_flag (value : option string) : bool :=
  negb (String.eqb (Js.toLowerCase (Js.trim (default "true" value))) "false").

(** [s.split(",")] *)
Fixpoint split_comma_acc (cur : string) (s : string) : list string :=
  match s with
  | EmptyString => [cur]
  | String c t =>
      if Ascii.eqb c "," then cur :: split_comma_acc "" t
      else split_comma_acc (cur ++ String c "") t
  end.

Definition split_comma (s : string) : list string := split_comma_acc "" s.

(** [(parsed.MCP_HTTP_API_KEYS || "").split(",").map(trim).filter(nonempty)] *)
Definition parse_api_keys (value : option string) : list string :=
  List.filter (fun v => (0 <? String.length v)%nat)
    (map Js.trim (split_comma (Js.or_default value ""))).

(** The variables of the environment the [/mcp] routes depend on. *)
Record Env := {
  MCP_HTTP_REQUIRE_API_KEY : option string;
  MCP_HTTP_USE_DB_KEYS : option string;
  MCP_HTTP_ALLOW_ENV_KEY_FALLBACK : option string;
  MCP_HTTP_API_KEYS : option string
}.

(** The part of [loadConfig(env)] that fills [AppConfig]'s key fields. *)
Definition loadConfig (env : Env) : AppConfig :=
  {| mcpHttpRequireApiKey := env_flag (MCP_HTTP_REQUIRE_API_KEY env);
     mcpHttpUseDbKeys := env_flag (MCP_HTTP_USE_DB_KEYS env);
     mcpHttpAllowEnvKeyFallback := env_flag (MCP_HTTP_ALLOW_ENV_KEY_FALLBACK env);
     mcpHttpApiKeys := parse_api_keys (MCP_HTTP_API_KEYS env) |}.

(** The check at the top of [main]: the error it throws, if any. *)
Definition startup_error (config : AppConfig) : option string :=
  if mcpHttpRequireApiKey config
     && negb (mcpHttpUseDbKeys config)
     && (length (mcpHttpApiKeys config) =? 0)%nat
  then Some "MCP_HTTP_REQUIRE_API_KEY=true but no key source is configured."
  else None.

(** [cleanupSession(sessionId)] on the session table (the transport and
    the server of the session are closed besides). *)
Definition cleanupSession (sessionId : string) (sessions : gmap string SessionContext)
  : gmap string SessionContext :=
  match sessions !! sessionId with
  | None => sessions
  | Some _ => delete sessionId sessions
  end.

(** A request as it arrives: the middleware fields unset, the credential
    the one its headers carry. *)
Definition incoming (m : Method) (headers : gmap string ApiKeys.JsHeader)
    (session : option HeaderValue) (isInitialize : bool) : RequestWithAuth :=
  {| method := m;
     credential := ApiKeys.extractApiKeyFromHeaders headers;
     session_header := session;
     isInitializeRequestBody := isInitialize;
     apiKey := None; apiKeyFingerprint := None; apiKeyId := None;
     apiKeyTier := None; apiKeySource := None |}.

(** The HTTP counters of the metrics module. *)
Record HttpCounter := {
  requests : Z;
  byMethod : gmap string Z;
  byStatusClass : gmap string Z;
  auth_success : Z;
  auth_denied : Z
}.

Definition httpCounter_initial : HttpCounter :=
  {| requests := 0; byMethod := ∅; byStatusClass := ∅;
     auth_success := 0; auth_denied := 0 |}.

(** [(record[key] || 0) + 1] stored back under [key]. *)
Definition bump (key : string) (record : gmap string Z) : gmap string Z :=
  <[key := (match record !! key with
            | Some n => if n =? 0 then 0 else n
            | None => 0
            end) + 1]> record.

(** [`${Math.floor(statusCode / 100)}xx`] *)
Definition statusClass (statusCode : Z) : string :=
  Js.string_of_number (statusCode / 100) ++ "xx".

Section Metrics.
(** [String.prototype.toUpperCase]. Its results hold no lower-case
    letter, so they never name a property inherited from
    [Object.prototype], and reading [byMethod[method]] is a lookup among
    the keys stored so far. *)
Variable toUpperCase : string -> string.

Definition recordHttpRequest (method : string) (statusCode : Z) (c : HttpCounter)
  : HttpCounter :=
  {| requests := requests c + 1;
     byMethod := bump (toUpperCase method) (byMethod c);
     byStatusClass := bump (statusClass statusCode) (byStatusClass c);
     auth_success := auth_success c;
     auth_denied := auth_denied c |}.

(** The counters after a run of finished requests. *)
Definition recordHttpRequests (reqs : list (string * Z)) (c : HttpCounter) : HttpCounter :=
  fold_left (fun acc '(m, st) => recordHttpRequest m st acc) reqs c.
End Metrics.

(** Sum of the values of a counter record. *)
Definition total (record : gmap string Z) : Z :=
  map_fold (fun _ n acc => n + acc) 0 record.

End Server.

(** ** Concrete inputs used in the examples *)

Module Samples.
Import Sql.

(** A key row and a database around it. *)
Definition sample_key (quota_day quota_minute : option Z) (st : string)
  : mcp_api_keys_row :=
  {| id := "7d0c"; key_name := Some "claude-desktop"; key_prefix := "nlt_abcd";
     key_hash := "5e88"; tier := "starter"; status := st;
     daily_quota := quota_day; per_minute_quota := quota_minute;
     metadata := "{}"; created_at := 0; updated_at := 0;
     last_used_at := None; user_id := Some "u-1" |}.

Definition sample_db (quota_day quota_minute : option Z) (st : string)
    (day_rows : list (uuid * date * Z)) (minute_rows : list (uuid * timestamptz * Z))
  : Db :=
  {| mcp_api_keys := [sample_key quota_day quota_minute st];
     mcp_api_usage_daily :=
       list_to_map
         (map (fun '(k, w, c) => ((k, w), {| request_count := c; usage_updated_at := 0 |}))
            day_rows);
     mcp_api_usage_minute :=
       list_to_map
         (map (fun '(k, w, c) => ((k, w), {| request_count := c; usage_updated_at := 0 |}))
            minute_rows) |}.

(** 2026-02-19 09:40:00 UTC and the following instants, in microseconds. *)
Definition t0 : timestamptz := 1771494000000000.

(** What a list of call outcomes decided: for each call whether it was
    allowed, the reason and the reported daily count. *)
Definition decisions (rs : list (sql_result consume_row))
  : list (option (bool * string * option Z)) :=
  map (fun r =>
         match r with
         | SqlOk row => Some (allowed row, reason row, daily_count row)
         | SqlRaise _ => None
         end) rs.

(** A stand-in for the SHA-256 hex digest in the examples: 64 hexadecimal
    characters, different for the two keys used. *)
Definition sample_hash (key : string) : string :=
  if String.eqb key "nlt_tenant_a_0123456789"
  then "a1a1a1a1a1a1a1a1a1a1a1a1a1a1a1a1a1a1a1a1a1a1a1a1a1a1a1a1a1a1a1a1"
  else "b2b2b2b2b2b2b2b2b2b2b2b2b2b2b2b2b2b2b2b2b2b2b2b2b2b2b2b2b2b2b2b2".

(** A backend that fails every call with the given message. *)
Definition failing_backend (msg : string) : string -> string -> Auth.RpcResponse :=
  fun _ _ =>
    {| Auth.data := None;
       Auth.error := Some {| Auth.error_message := Some msg |} |}.

(** A backend that answers every call with the given row. *)
Definition answering_backend (row : Auth.ConsumeRpcRow)
  : string -> string -> Auth.RpcResponse :=
  fun _ _ => {| Auth.data := Some [row]; Auth.error := None |}.

Definition sample_rpc_row (ok : bool) (why : string) (quota_day count_day : option Z)
    (quota_minute count_minute : option Z) : Auth.ConsumeRpcRow :=
  {| Auth.allowed := ok; Auth.reason := why;
     Auth.api_key_id := Some "7d0c"; Auth.key_name := Some "claude-desktop";
     Auth.tier := Some "starter";
     Auth.daily_quota := quota_day; Auth.daily_count := count_day;
     Auth.per_minute_quota := quota_minute; Auth.minute_count := count_minute |}.

Definition sample_config : Http.AppConfig :=
  {| Http.mcpHttpRequireApiKey := true;
     Http.mcpHttpUseDbKeys := true;
     Http.mcpHttpAllowEnvKeyFallback := true;
     Http.mcpHttpApiKeys := ["nlt_tenant_a_0123456789"] |}.

Definition sample_request (m : Http.Method) (key : string) (session : option string)
  : Http.RequestWithAuth :=
  {| Http.method := m;
     Http.credential := Some key;
     Http.session_header := Http.HString <$> session;
     Http.isInitializeRequestBody := false;
     Http.apiKey := None; Http.apiKeyFingerprint := None; Http.apiKeyId := None;
     Http.apiKeyTier := None; Http.apiKeySource := None |}.

Definition sample_session (fp : string) : Http.SessionContext :=
  {| Http.server := 1; Http.transport := 1;
     Http.s_apiKeyFingerprint := fp; Http.s_apiKeyId := "7d0c";
     Http.s_apiKeyTier := "starter"; Http.createdAt := 0 |}.

End Samples.

(** * Properties *)

(** ** The quota counter and [consume_mcp_api_request] *)

Module SqlFacts.
Import Sql Samples.

Example utc_date_t0 : utc_date t0 = 20503.
Proof. reflexivity. Qed.

Example date_trunc_minute_t0 : date_trunc_minute (t0 + 12345678) = t0.
Proof. reflexivity. Qed.

Section Counter.
Context {W : Type} `{Countable W}.
Implicit Types (tbl : gmap (uuid * W) usage_row) (key : uuid * W).

Lemma int4_succ_ok n : n + 1 <= int4_max -> int4_succ n = SqlOk (n + 1).
Proof.
  intros Hn. unfold int4_succ.
  destruct (Z.leb_spec (n + 1) int4_max); [reflexivity | lia].
Qed.

(** A fresh window is created at count 1 whatever the quota is. *)
Lemma check_window_fresh quota key p_now tbl :
  tbl !! key = None ->
  check_window quota key p_now tbl =
    SqlOk (Some 1, <[key := {| request_count := 1; usage_updated_at := p_now |}]> tbl).
Proof.
  intros Hnone. destruct quota; simpl;
    unfold upsert_below_quota, upsert_unconditional; rewrite Hnone; reflexivity.
Qed.

(** An existing row below a finite quota is incremented. *)
Lemma upsert_below_quota_incr q key p_now tbl r :
  tbl !! key = Some r -> request_count r < q -> q <= int4_max ->
  upsert_below_quota q key p_now tbl =
    SqlOk (Some (request_count r + 1),
           <[key := {| request_count := request_count r + 1;
                       usage_updated_at := p_now |}]> tbl).
Proof.
  intros Hr Hlt Hq. unfold upsert_below_quota. rewrite Hr.
  destruct (Z.ltb_spec (request_count r) q); [| lia].
  rewrite int4_succ_ok by lia. reflexivity.
Qed.

(** An existing row at or above a finite quota is left alone. *)
Lemma upsert_below_quota_full q key p_now tbl r :
  tbl !! key = Some r -> q <= request_count r ->
  upsert_below_quota q key p_now tbl = SqlOk (None, tbl).
Proof.
  intros Hr Hge. unfold upsert_below_quota. rewrite Hr.
  destruct (Z.ltb_spec (request_count r) q); [lia | reflexivity].
Qed.

(** The statement of the [NULL]-quota branch always returns a row, so its
    target variable is never [NULL]: applying the [IS NULL] test of the
    finite-quota branch after either statement changes nothing. *)
Lemma upsert_unconditional_returns key p_now tbl tbl' :
  upsert_unconditional key p_now tbl <> SqlOk (None, tbl').
Proof.
  unfold upsert_unconditional, int4_succ. destruct (tbl !! key) as [r|]; [| discriminate].
  destruct (request_count r + 1 <=? int4_max); discriminate.
Qed.

(** When the check admits, the reported count is the stored one and is
    one more than the window stood at. *)
Lemma check_window_admit quota key p_now tbl c tbl' :
  check_window quota key p_now tbl = SqlOk (Some c, tbl') ->
  c = current_count key tbl + 1
  /\ select_request_count key tbl' = Some c
  /\ forall key', key' <> key -> tbl' !! key' = tbl !! key'.
Proof.
  unfold check_window, upsert_unconditional, upsert_below_quota,
    current_count, select_request_count, int4_succ.
  intros Hc. destruct (tbl !! key) as [r|] eqn:Hr; simpl.
  - assert (Hgen : (if request_count r + 1 <=? int4_max
                    then SqlOk (Some (request_count r + 1),
                                <[key := {| request_count := request_count r + 1;
                                            usage_updated_at := p_now |}]> tbl)
                    else SqlRaise "integer out of range") = SqlOk (Some c, tbl')).
    { destruct quota as [q|]; simpl in Hc.
      - destruct (request_count r <? q); [| discriminate].
        destruct (request_count r + 1 <=? int4_max); simpl in Hc; [exact Hc | discriminate].
      - destruct (request_count r + 1 <=? int4_max); simpl in Hc; [exact Hc | discriminate]. }
    destruct (request_count r + 1 <=? int4_max); [| discriminate].
    injection Hgen as <- <-. rewrite lookup_insert_eq. simpl.
    repeat split; try reflexivity.
    intros key' Hne. by rewrite lookup_insert_ne.
  - assert (Hgen : SqlOk (Some 1, <[key := {| request_count := 1;
                                              usage_updated_at := p_now |}]> tbl)
                   = SqlOk (Some c, tbl')).
    { destruct quota; exact Hc. }
    injection Hgen as <- <-. rewrite lookup_insert_eq. simpl.
    repeat split; try reflexivity.
    intros key' Hne. by rewrite lookup_insert_ne.
Qed.

(** When the check denies, nothing is written, the quota is finite and
    the row already stands at or above it. *)
Lemma check_window_deny quota key p_now tbl tbl' :
  check_window quota key p_now tbl = SqlOk (None, tbl') ->
  tbl' = tbl
  /\ exists q r, quota = Some q /\ tbl !! key = Some r /\ q <= request_count r.
Proof.
  unfold check_window, upsert_unconditional, upsert_below_quota, int4_succ.
  intros Hc. destruct (tbl !! key) as [r|] eqn:Hr.
  - destruct quota as [q|]; simpl in Hc.
    + destruct (Z.ltb_spec (request_count r) q).
      * destruct (request_count r + 1 <=? int4_max); simpl in Hc; discriminate.
      * injection Hc as <-. split; [reflexivity |]. exists q, r. auto.
    + destruct (request_count r + 1 <=? int4_max); simpl in Hc; discriminate.
  - destruct quota; discriminate.
Qed.

(** [n] calls on a window that already has a row within a finite quota:
    exactly the remaining capacity is admitted and the count stops at the
    quota. *)
Lemma window_calls_present q key p_now n :
  forall tbl r,
    tbl !! key = Some r -> request_count r <= q -> q <= int4_max ->
    fst (window_calls (Some q) key p_now n tbl)
      = Nat.min n (Z.to_nat (q - request_count r))
    /\ current_count key (snd (window_calls (Some q) key p_now n tbl))
      = Z.min q (request_count r + Z.of_nat n).
Proof.
  induction n as [|n IH]; intros tbl r Hr Hle Hq.
  - simpl. unfold current_count, select_request_count. rewrite Hr. simpl. lia.
  - cbn [window_calls check_window].
    destruct (Z.lt_ge_cases (request_count r) q) as [Hlt|Hge].
    + rewrite (upsert_below_quota_incr q key p_now tbl r Hr Hlt Hq).
      set (r' := {| request_count := request_count r + 1; usage_updated_at := p_now |}).
      destruct (IH (<[key := r']> tbl) r') as [IHa IHc];
        [apply lookup_insert_eq | simpl; lia | exact Hq |].
      destruct (window_calls (Some q) key p_now n (<[key := r']> tbl)) as [a t].
      subst r'. cbn [fst snd request_count] in *. subst a. rewrite IHc. lia.
    + rewrite (upsert_below_quota_full q key p_now tbl r Hr Hge).
      destruct (IH tbl r Hr Hle Hq) as [IHa IHc].
      rewrite IHa, IHc. lia.
Qed.

(** [n] calls on a fresh window with a positive finite quota [q]: exactly
    [min n q] are admitted and the count never passes [q]. *)
Lemma window_calls_fresh q key p_now n tbl :
  tbl !! key = None -> 1 <= q -> q <= int4_max ->
  fst (window_calls (Some q) key p_now n tbl) = Nat.min n (Z.to_nat q)
  /\ current_count key (snd (window_calls (Some q) key p_now n tbl))
    = Z.min q (Z.of_nat n).
Proof.
  intros Hnone Hpos Hq. destruct n as [|n].
  - simpl. unfold current_count, select_request_count. rewrite Hnone. simpl. lia.
  - cbn [window_calls]. rewrite (check_window_fresh _ _ _ _ Hnone).
    set (r' := {| request_count := 1; usage_updated_at := p_now |}).
    destruct (window_calls_present q key p_now n (<[key := r']> tbl) r')
      as [Ha Hc]; [apply lookup_insert_eq | simpl; lia | exact Hq |].
    destruct (window_calls (Some q) key p_now n (<[key := r']> tbl)) as [a t].
    subst r'. cbn [fst snd request_count] in *. subst a. rewrite Hc. lia.
Qed.

(** With quota 0 the row-creating call is still admitted: one call of any
    positive number gets through and the window stands at 1. *)
Lemma window_calls_zero_quota key p_now n tbl :
  tbl !! key = None ->
  fst (window_calls (Some 0) key p_now (S n) tbl) = 1%nat
  /\ current_count key (snd (window_calls (Some 0) key p_now (S n) tbl)) = 1.
Proof.
  intros Hnone. cbn [window_calls]. rewrite (check_window_fresh _ _ _ _ Hnone).
  set (r' := {| request_count := 1; usage_updated_at := p_now |}).
  assert (Hstay : forall m, window_calls (Some 0) key p_now m (<[key := r']> tbl)
                            = (0%nat, <[key := r']> tbl)).
  { induction m as [|m IHm]; [reflexivity |].
    cbn [window_calls check_window].
    rewrite (upsert_below_quota_full 0 key p_now _ r');
      [exact IHm | apply lookup_insert_eq | simpl; lia]. }
  rewrite Hstay. simpl. unfold current_count, select_request_count.
  rewrite lookup_insert_eq. split; reflexivity.
Qed.

Lemma current_count_present key tbl r :
  tbl !! key = Some r -> current_count key tbl = request_count r.
Proof. intros Hr. unfold current_count, select_request_count. by rewrite Hr. Qed.

Lemma current_count_absent key tbl :
  tbl !! key = None -> current_count key tbl = 0.
Proof. intros Hr. unfold current_count, select_request_count. by rewrite Hr. Qed.

(** One check against a positive finite quota, by the count the window
    stands at (an absent row counting as 0). *)
Lemma check_window_positive q key p_now tbl :
  1 <= q -> q <= int4_max ->
  check_window (Some q) key p_now tbl
  = if current_count key tbl <? q
    then SqlOk (Some (current_count key tbl + 1),
                <[key := {| request_count := current_count key tbl + 1;
                            usage_updated_at := p_now |}]> tbl)
    else SqlOk (None, tbl).
Proof.
  intros Hpos Hq. destruct (tbl !! key) as [r|] eqn:Hr.
  - rewrite (current_count_present key tbl r Hr). cbn [check_window].
    destruct (Z.ltb_spec (request_count r) q).
    + by apply upsert_below_quota_incr.
    + by apply (upsert_below_quota_full q _ _ _ r).
  - rewrite (current_count_absent key tbl Hr), (check_window_fresh (Some q) _ _ _ Hr).
    destruct (Z.ltb_spec 0 q); [reflexivity | lia].
Qed.

(** One check without quota, as long as the count fits an [integer]. *)
Lemma check_window_unlimited key p_now tbl :
  current_count key tbl + 1 <= int4_max ->
  check_window None key p_now tbl
  = SqlOk (Some (current_count key tbl + 1),
           <[key := {| request_count := current_count key tbl + 1;
                       usage_updated_at := p_now |}]> tbl).
Proof.
  destruct (tbl !! key) as [r|] eqn:Hr.
  - rewrite (current_count_present key tbl r Hr). intros Hfits.
    cbn [check_window]. unfold upsert_unconditional. rewrite Hr.
    rewrite int4_succ_ok by exact Hfits. reflexivity.
  - rewrite (current_count_absent key tbl Hr). intros _.
    by rewrite (check_window_fresh None _ _ _ Hr).
Qed.

(** A single check never takes a window within a positive quota past it. *)
Lemma check_window_bounded q key p_now tbl v tbl' :
  1 <= q ->
  current_count key tbl <= q ->
  check_window (Some q) key p_now tbl = SqlOk (v, tbl') ->
  current_count key tbl' <= q.
Proof.
  intros Hpos Hle Hcall. destruct v as [c|].
  - destruct (check_window_admit _ _ _ _ _ _ Hcall) as (Hc & Hstored & _).
    unfold current_count at 1. rewrite Hstored. cbn.
    cbn [check_window] in Hcall. unfold upsert_below_quota in Hcall.
    destruct (tbl !! key) as [r|] eqn:Hr.
    + rewrite (current_count_present key tbl r Hr) in Hc.
      destruct (Z.ltb_spec (request_count r) q); [lia | discriminate].
    + rewrite (current_count_absent key tbl Hr) in Hc. lia.
  - by destruct (check_window_deny _ _ _ _ _ Hcall) as [-> _].
Qed.
End Counter.

Lemma status_active_eqb k : status k = "active" -> String.eqb (status k) "active" = true.
Proof. intros ->. reflexivity. Qed.

Lemma status_inactive_eqb k : status k <> "active" -> String.eqb (status k) "active" = false.
Proof. intros Hne. by apply String.eqb_neq. Qed.

(** The steps of [consume_mcp_api_request] for an active key, one
    equation per exit. *)
Lemma consume_minute_denied now h p_now db k mtbl :
  select_key_by_hash h (mcp_api_keys db) = Some k ->
  status k = "active" ->
  check_window (per_minute_quota k) (id k, date_trunc_minute p_now) p_now
    (mcp_api_usage_minute db) = SqlOk (None, mtbl) ->
  consume_mcp_api_request now h p_now db =
    SqlOk ({| allowed := false; reason := "minute_limit_exceeded";
              api_key_id := Some (id k); r_key_name := key_name k;
              r_tier := Some (tier k);
              r_daily_quota := daily_quota k; daily_count := None;
              r_per_minute_quota := per_minute_quota k;
              minute_count :=
                select_request_count (id k, date_trunc_minute p_now)
                  (mcp_api_usage_minute db) |}, db).
Proof.
  intros Hsel Hact Hmin. unfold consume_mcp_api_request.
  rewrite Hsel, (status_active_eqb k Hact). cbn [negb].
  rewrite Hmin. destruct (check_window_deny _ _ _ _ _ Hmin) as [-> _].
  cbn. destruct db; reflexivity.
Qed.

Lemma consume_daily_denied now h p_now db k mc mtbl dtbl :
  select_key_by_hash h (mcp_api_keys db) = Some k ->
  status k = "active" ->
  check_window (per_minute_quota k) (id k, date_trunc_minute p_now) p_now
    (mcp_api_usage_minute db) = SqlOk (Some mc, mtbl) ->
  check_window (daily_quota k) (id k, utc_date p_now) p_now
    (mcp_api_usage_daily db) = SqlOk (None, dtbl) ->
  consume_mcp_api_request now h p_now db =
    SqlOk ({| allowed := false; reason := "daily_limit_exceeded";
              api_key_id := Some (id k); r_key_name := key_name k;
              r_tier := Some (tier k);
              r_daily_quota := daily_quota k;
              daily_count :=
                select_request_count (id k, utc_date p_now) (mcp_api_usage_daily db);
              r_per_minute_quota := per_minute_quota k;
              minute_count := Some mc |}, with_minute mtbl db).
Proof.
  intros Hsel Hact Hmin Hday. unfold consume_mcp_api_request.
  rewrite Hsel, (status_active_eqb k Hact). cbn [negb].
  rewrite Hmin. cbn. rewrite Hday.
  destruct (check_window_deny _ _ _ _ _ Hday) as [-> _].
  cbn. destruct db; reflexivity.
Qed.

Lemma consume_admitted now h p_now db k mc mtbl dc dtbl :
  select_key_by_hash h (mcp_api_keys db) = Some k ->
  status k = "active" ->
  check_window (per_minute_quota k) (id k, date_trunc_minute p_now) p_now
    (mcp_api_usage_minute db) = SqlOk (Some mc, mtbl) ->
  check_window (daily_quota k) (id k, utc_date p_now) p_now
    (mcp_api_usage_daily db) = SqlOk (Some dc, dtbl) ->
  consume_mcp_api_request now h p_now db =
    SqlOk ({| allowed := true; reason := "ok";
              api_key_id := Some (id k); r_key_name := key_name k;
              r_tier := Some (tier k);
              r_daily_quota := daily_quota k; daily_count := Some dc;
              r_per_minute_quota := per_minute_quota k;
              minute_count := Some mc |},
           {| mcp_api_keys :=
                update_keys now (fun k' => String.eqb (id k') (id k))
                  (set_last_used_at p_now) (mcp_api_keys db);
              mcp_api_usage_daily := dtbl;
              mcp_api_usage_minute := mtbl |}).
Proof.
  intros Hsel Hact Hmin Hday. unfold consume_mcp_api_request.
  rewrite Hsel, (status_active_eqb k Hact). cbn [negb].
  rewrite Hmin. cbn. rewrite Hday. reflexivity.
Qed.

Lemma consume_minute_raise now h p_now db k e :
  select_key_by_hash h (mcp_api_keys db) = Some k ->
  status k = "active" ->
  check_window (per_minute_quota k) (id k, date_trunc_minute p_now) p_now
    (mcp_api_usage_minute db) = SqlRaise e ->
  consume_mcp_api_request now h p_now db = SqlRaise e.
Proof.
  intros Hsel Hact Hmin. unfold consume_mcp_api_request.
  rewrite Hsel, (status_active_eqb k Hact). cbn [negb].
  rewrite Hmin. reflexivity.
Qed.

Lemma consume_daily_raise now h p_now db k mc mtbl e :
  select_key_by_hash h (mcp_api_keys db) = Some k ->
  status k = "active" ->
  check_window (per_minute_quota k) (id k, date_trunc_minute p_now) p_now
    (mcp_api_usage_minute db) = SqlOk (Some mc, mtbl) ->
  check_window (daily_quota k) (id k, utc_date p_now) p_now
    (mcp_api_usage_daily db) = SqlRaise e ->
  consume_mcp_api_request now h p_now db = SqlRaise e.
Proof.
  intros Hsel Hact Hmin Hday. unfold consume_mcp_api_request.
  rewrite Hsel, (status_active_eqb k Hact). cbn [negb].
  rewrite Hmin. cbn. rewrite Hday. reflexivity.
Qed.

(** *** A run of calls within one minute window *)

(** Touching [last_used_at] does not change which row a hash selects. *)
Lemma select_key_by_hash_touch h now p_now kid (tbl : list mcp_api_keys_row) :
  select_key_by_hash h
    (update_keys now (fun k => String.eqb (id k) kid) (set_last_used_at p_now) tbl)
  = (fun k => if String.eqb (id k) kid
              then set_mcp_api_keys_updated_at now (set_last_used_at p_now k) else k)
      <$> select_key_by_hash h tbl.
Proof.
  unfold select_key_by_hash, update_keys. induction tbl as [|k tbl IH]; [reflexivity |].
  cbn. destruct (String.eqb (id k) kid) eqn:Hid; cbn;
    destruct (String.eqb (key_hash k) h); cbn; rewrite ?Hid; auto.
Qed.

Lemma selects_active_touch h kid qm qd now p_now kid' db dtbl mtbl :
  selects_active h kid qm qd db ->
  selects_active h kid qm qd
    {| mcp_api_keys :=
         update_keys now (fun k => String.eqb (id k) kid') (set_last_used_at p_now)
           (mcp_api_keys db);
       mcp_api_usage_daily := dtbl;
       mcp_api_usage_minute := mtbl |}.
Proof.
  intros (k & Hsel & Hid & Hst & Hqm & Hqd). unfold selects_active.
  cbn [mcp_api_keys]. rewrite select_key_by_hash_touch, Hsel.
  eexists. split; [reflexivity |].
  destruct (String.eqb (id k) kid'); cbn; auto.
Qed.

(** A call below a positive per-minute quota, with no daily quota, is
    admitted and moves both windows up by one. *)
Lemma consume_below_minute_quota now h p_now db kid Q :
  selects_active h kid (Some Q) None db ->
  1 <= Q -> Q <= int4_max ->
  current_count (kid, date_trunc_minute p_now) (mcp_api_usage_minute db) < Q ->
  current_count (kid, utc_date p_now) (mcp_api_usage_daily db) + 1 <= int4_max ->
  exists row db',
    consume_mcp_api_request now h p_now db = SqlOk (row, db')
    /\ allowed row = true
    /\ selects_active h kid (Some Q) None db'
    /\ current_count (kid, date_trunc_minute p_now) (mcp_api_usage_minute db')
       = current_count (kid, date_trunc_minute p_now) (mcp_api_usage_minute db) + 1
    /\ current_count (kid, utc_date p_now) (mcp_api_usage_daily db')
       = current_count (kid, utc_date p_now) (mcp_api_usage_daily db) + 1.
Proof.
  intros Hkey HQ1 HQmax Hlt Hfits.
  pose proof Hkey as (k & Hsel & <- & Hst & Hqm & Hqd).
  pose proof (check_window_positive Q (id k, date_trunc_minute p_now) p_now
                (mcp_api_usage_minute db) HQ1 HQmax) as Hmin.
  destruct (Z.ltb_spec (current_count (id k, date_trunc_minute p_now)
                          (mcp_api_usage_minute db)) Q); [| lia].
  pose proof (check_window_unlimited (id k, utc_date p_now) p_now
                (mcp_api_usage_daily db) Hfits) as Hday.
  rewrite <- Hqm in Hmin.
  assert (Hday' : check_window (daily_quota k) (id k, utc_date p_now) p_now
                    (mcp_api_usage_daily db)
                  = SqlOk (Some (current_count (id k, utc_date p_now)
                                   (mcp_api_usage_daily db) + 1),
                           <[(id k, utc_date p_now) :=
                               {| request_count :=
                                    current_count (id k, utc_date p_now)
                                      (mcp_api_usage_daily db) + 1;
                                  usage_updated_at := p_now |}]>
                             (mcp_api_usage_daily db)))
    by (rewrite Hqd; exact Hday).
  rewrite (consume_admitted _ _ _ _ _ _ _ _ _ Hsel Hst Hmin Hday').
  eexists _, _. split; [reflexivity |]. split; [reflexivity |].
  split; [by apply selects_active_touch |].
  cbn [mcp_api_usage_minute mcp_api_usage_daily].
  split; (erewrite current_count_present by apply lookup_insert_eq; reflexivity).
Qed.

(** A call at or above the per-minute quota is denied and changes nothing. *)
Lemma consume_at_minute_quota now h p_now db kid Q qd :
  selects_active h kid (Some Q) qd db ->
  1 <= Q -> Q <= int4_max ->
  Q <= current_count (kid, date_trunc_minute p_now) (mcp_api_usage_minute db) ->
  exists row,
    consume_mcp_api_request now h p_now db = SqlOk (row, db)
    /\ allowed row = false
    /\ reason row = "minute_limit_exceeded".
Proof.
  intros (k & Hsel & <- & Hst & Hqm & Hqd) HQ1 HQmax Hge.
  pose proof (check_window_positive Q (id k, date_trunc_minute p_now) p_now
                (mcp_api_usage_minute db) HQ1 HQmax) as Hmin.
  destruct (Z.ltb_spec (current_count (id k, date_trunc_minute p_now)
                          (mcp_api_usage_minute db)) Q); [lia |].
  rewrite <- Hqm in Hmin.
  rewrite (consume_minute_denied _ _ _ _ _ _ Hsel Hst Hmin).
  eexists. split; [reflexivity |]. split; reflexivity.
Qed.

(** X7: for a positive per-minute quota [Q] and no daily quota: of the
    calls made with one key within one minute window, exactly as many are
    admitted as the window has room for, and the window never passes [Q].
    On a fresh window that is [min n Q] of [n] calls. *)
Lemma consume_all_minute_quota h kid Q m d calls :
  forall db,
    calls_in_window h m d calls ->
    selects_active h kid (Some Q) None db ->
    1 <= Q -> Q <= int4_max ->
    current_count (kid, m) (mcp_api_usage_minute db) <= Q ->
    current_count (kid, d) (mcp_api_usage_daily db) + Z.of_nat (length calls)
      <= int4_max ->
    count_admitted (fst (consume_all calls db))
    = Nat.min (length calls)
        (Z.to_nat (Q - current_count (kid, m) (mcp_api_usage_minute db)))
    /\ current_count (kid, m) (mcp_api_usage_minute (snd (consume_all calls db)))
      = Z.min Q (current_count (kid, m) (mcp_api_usage_minute db)
                 + Z.of_nat (length calls)).
Proof.
  induction calls as [|[[now h'] p_now] calls IH]; intros db Hcalls Hkey HQ1 HQmax Hle Hfits.
  - cbn. lia.
  - apply Forall_cons in Hcalls as [(-> & <- & <-) Hcalls].
    cbn [consume_all length] in *.
    destruct (Z.lt_ge_cases
                (current_count (kid, date_trunc_minute p_now) (mcp_api_usage_minute db)) Q)
      as [Hlt|Hge].
    + destruct (consume_below_minute_quota now h p_now db kid Q Hkey HQ1 HQmax Hlt)
        as (row & db' & Hcall & Hallowed & Hkey' & Hmin' & Hday'); [lia |].
      rewrite Hcall.
      destruct (IH db' Hcalls Hkey' HQ1 HQmax) as [IHn IHc]; [lia | lia |].
      destruct (consume_all calls db') as [rows db''].
      cbn [fst snd] in *. unfold count_admitted in *. cbn [List.filter admitted].
      rewrite Hallowed. cbn [length]. rewrite IHn, IHc, Hmin'. lia.
    + destruct (consume_at_minute_quota now h p_now db kid Q None Hkey HQ1 HQmax Hge)
        as (row & Hcall & Hdenied & _).
      rewrite Hcall.
      destruct (IH db Hcalls Hkey HQ1 HQmax) as [IHn IHc]; [lia | lia |].
      destruct (consume_all calls db) as [rows db''].
      cbn [fst snd] in *. unfold count_admitted in *. cbn [List.filter admitted].
      rewrite Hdenied. rewrite IHn, IHc. lia.
Qed.

Example three_of_five_in_one_minute :
  count_admitted
    (fst (consume_all
            [(t0, "5e88", t0); (t0 + 1, "5e88", t0 + 1); (t0 + 2, "5e88", t0 + 2);
             (t0 + 3, "5e88", t0 + 3); (t0 + 4, "5e88", t0 + 4)]
            (sample_db None (Some 3) "active" [] []))) = 3%nat.
Proof. vm_compute. reflexivity. Qed.

(** C1, at the input where the code departs from it: a key that meets
    the table constraints, whose per-minute quota is 0 and whose minute
    window has no row yet. The call is admitted, the reported and the
    stored minute count are 1, above the quota of 0; of this one call, one
    is admitted, not [min 1 0 = 0]. For a quota of at least 1
    [window_calls_fresh] gives the bound and the count [min n q]. *)
Theorem consume_zero_minute_quota_admits :
  exists row db',
    keys_row_check (sample_key (Some 100) (Some 0) "active")
    /\ consume_mcp_api_request t0 "5e88" t0 (sample_db (Some 100) (Some 0) "active" [] [])
       = SqlOk (row, db')
    /\ r_per_minute_quota row = Some 0
    /\ allowed row = true
    /\ minute_count row = Some 1
    /\ select_request_count ("7d0c", date_trunc_minute t0) (mcp_api_usage_minute db')
       = Some 1
    /\ count_admitted
         (fst (consume_all [(t0, "5e88", t0)]
                 (sample_db (Some 100) (Some 0) "active" [] []))) = 1%nat.
Proof.
  eexists _, _. split; [| split; [reflexivity |]].
  - unfold keys_row_check, quota_check. simpl. repeat split; auto; lia.
  - vm_compute. repeat split; reflexivity.
Qed.

(** Counterexample to C2 as stated, where the minute check denies first: the daily
    window stands at its quota (2 of 2), yet the reason is
    [minute_limit_exceeded] and no daily count is reported. *)
Lemma daily_at_quota_but_minute_denies :
  let db := sample_db (Some 2) (Some 1) "active"
              [("7d0c", utc_date t0, 2)] [("7d0c", date_trunc_minute t0, 1)] in
  select_request_count ("7d0c", utc_date t0) (mcp_api_usage_daily db) = Some 2
  /\ exists row db',
       consume_mcp_api_request t0 "5e88" t0 db = SqlOk (row, db')
       /\ reason row = "minute_limit_exceeded"
       /\ reason row <> "daily_limit_exceeded"
       /\ daily_count row = None
       /\ daily_count row <> Some 2.
Proof.
  split; [reflexivity |].
  eexists _, _. split; [reflexivity |]. vm_compute.
  repeat split; try reflexivity; discriminate.
Qed.

(** C2, amended: for an active key with finite daily quota [Q] and an
    existing daily row at count [c]: (i) whatever the minute check does,
    a call changes the daily table only if [c < Q], and then it is allowed
    and reports [c + 1]; (ii) when the minute check admits the call,
    [c < Q] gives an allowed decision with daily count [c + 1] stored and
    reported, and [c >= Q] (so [c = Q]) gives a denial with reason
    [daily_limit_exceeded], the unchanged [c] reported and the daily table
    untouched; (iii) with daily quota 2 and no minute quota, three calls
    on one day are admitted at 1, admitted at 2 and denied at 2. *)
Theorem consume_daily_window now h p_now db k Q r :
  select_key_by_hash h (mcp_api_keys db) = Some k ->
  status k = "active" ->
  daily_quota k = Some Q ->
  Q <= int4_max ->
  mcp_api_usage_daily db !! (id k, utc_date p_now) = Some r ->
  (forall row db',
     consume_mcp_api_request now h p_now db = SqlOk (row, db') ->
     mcp_api_usage_daily db' <> mcp_api_usage_daily db ->
     request_count r < Q
     /\ allowed row = true
     /\ daily_count row = Some (request_count r + 1)
     /\ select_request_count (id k, utc_date p_now) (mcp_api_usage_daily db')
        = Some (request_count r + 1))
  /\ (forall mc mtbl,
        check_window (per_minute_quota k) (id k, date_trunc_minute p_now) p_now
          (mcp_api_usage_minute db) = SqlOk (Some mc, mtbl) ->
        (request_count r < Q ->
         exists row db',
           consume_mcp_api_request now h p_now db = SqlOk (row, db')
           /\ allowed row = true /\ reason row = "ok"
           /\ daily_count row = Some (request_count r + 1)
           /\ select_request_count (id k, utc_date p_now) (mcp_api_usage_daily db')
              = Some (request_count r + 1))
        /\ (Q <= request_count r ->
            exists row db',
              consume_mcp_api_request now h p_now db = SqlOk (row, db')
              /\ allowed row = false /\ reason row = "daily_limit_exceeded"
              /\ daily_count row = Some (request_count r)
              /\ mcp_api_usage_daily db' = mcp_api_usage_daily db))
  /\ decisions
       (fst (consume_all [(t0, "5e88", t0); (t0 + 1, "5e88", t0 + 1);
                          (t0 + usec_per_minute, "5e88", t0 + usec_per_minute)]
               (sample_db (Some 2) None "active" [] [])))
     = [Some (true, "ok", Some 1); Some (true, "ok", Some 2);
        Some (false, "daily_limit_exceeded", Some 2)].
Proof.
  intros Hsel Hact HQ Hmax Hr.
  assert (Hincr : request_count r < Q ->
            check_window (daily_quota k) (id k, utc_date p_now) p_now
              (mcp_api_usage_daily db)
            = SqlOk (Some (request_count r + 1),
                     <[(id k, utc_date p_now) :=
                         {| request_count := request_count r + 1;
                            usage_updated_at := p_now |}]> (mcp_api_usage_daily db))).
  { intros Hlt. rewrite HQ. cbn [check_window].
    by apply upsert_below_quota_incr. }
  assert (Hfull : Q <= request_count r ->
            check_window (daily_quota k) (id k, utc_date p_now) p_now
              (mcp_api_usage_daily db) = SqlOk (None, mcp_api_usage_daily db)).
  { intros Hge. rewrite HQ. cbn [check_window].
    by apply (upsert_below_quota_full Q _ _ _ r). }
  split; [| split].
  - intros row db' Hcall Hchanged.
    destruct (check_window (per_minute_quota k) (id k, date_trunc_minute p_now) p_now
                (mcp_api_usage_minute db)) as [[[mc|] mtbl]|e] eqn:Hmin.
    + destruct (Z.lt_ge_cases (request_count r) Q) as [Hlt|Hge].
      * rewrite (consume_admitted _ _ _ _ _ _ _ _ _ Hsel Hact Hmin (Hincr Hlt)) in Hcall.
        injection Hcall as <- <-. cbn.
        unfold select_request_count. rewrite lookup_insert_eq. auto.
      * rewrite (consume_daily_denied _ _ _ _ _ _ _ _ Hsel Hact Hmin (Hfull Hge)) in Hcall.
        injection Hcall as <- <-. contradiction Hchanged. reflexivity.
    + rewrite (consume_minute_denied _ _ _ _ _ _ Hsel Hact Hmin) in Hcall.
      injection Hcall as <- <-. contradiction Hchanged. reflexivity.
    + rewrite (consume_minute_raise _ _ _ _ _ _ Hsel Hact Hmin) in Hcall. discriminate.
  - intros mc mtbl Hmin. split.
    + intros Hlt.
      rewrite (consume_admitted _ _ _ _ _ _ _ _ _ Hsel Hact Hmin (Hincr Hlt)).
      eexists _, _. split; [reflexivity |]. cbn.
      unfold select_request_count. rewrite lookup_insert_eq. auto.
    + intros Hge.
      rewrite (consume_daily_denied _ _ _ _ _ _ _ _ Hsel Hact Hmin (Hfull Hge)).
      eexists _, _. split; [reflexivity |]. cbn.
      unfold select_request_count. rewrite Hr. auto.
  - vm_compute. reflexivity.
Qed.

Lemma consume_daily_window_witness :
  exists row db',
    consume_mcp_api_request t0 "5e88" t0
      (sample_db (Some 2) None "active" [("7d0c", utc_date t0, 2)] [])
      = SqlOk (row, db')
    /\ allowed row = false /\ reason row = "daily_limit_exceeded"
    /\ daily_count row = Some 2
    /\ mcp_api_usage_daily db'
       = mcp_api_usage_daily
           (sample_db (Some 2) None "active" [("7d0c", utc_date t0, 2)] []).
Proof.
  destruct (consume_daily_window t0 "5e88" t0
              (sample_db (Some 2) None "active" [("7d0c", utc_date t0, 2)] [])
              (sample_key (Some 2) None "active") 2
              {| request_count := 2; usage_updated_at := 0 |})
    as (_ & Hadmit & _);
    [reflexivity | reflexivity | reflexivity | vm_compute; discriminate | reflexivity |].
  destruct (Hadmit 1 {[ ("7d0c", date_trunc_minute t0) :=
                          {| request_count := 1; usage_updated_at := t0 |} ]})
    as [_ Hdeny]; [reflexivity |].
  apply Hdeny. simpl. lia.
Defined.

(** C3: for an active key whose minute check admits and whose daily check
    denies (finite daily quota, daily row at or above it), the call is
    denied with reason [daily_limit_exceeded]; it reports the daily count
    as it stands and leaves the daily table and the key rows untouched; it
    reports the minute count the minute check produced, which is one more
    than the minute window stood at, and that count stays stored. *)
Theorem consume_daily_denial_keeps_minute_charge now h p_now db k mc mtbl Q r :
  select_key_by_hash h (mcp_api_keys db) = Some k ->
  status k = "active" ->
  check_window (per_minute_quota k) (id k, date_trunc_minute p_now) p_now
    (mcp_api_usage_minute db) = SqlOk (Some mc, mtbl) ->
  daily_quota k = Some Q ->
  mcp_api_usage_daily db !! (id k, utc_date p_now) = Some r ->
  Q <= request_count r ->
  exists row db',
    consume_mcp_api_request now h p_now db = SqlOk (row, db')
    /\ allowed row = false
    /\ reason row = "daily_limit_exceeded"
    /\ daily_count row = Some (request_count r)
    /\ mcp_api_usage_daily db' = mcp_api_usage_daily db
    /\ mcp_api_keys db' = mcp_api_keys db
    /\ minute_count row
       = Some (current_count (id k, date_trunc_minute p_now) (mcp_api_usage_minute db) + 1)
    /\ select_request_count (id k, date_trunc_minute p_now) (mcp_api_usage_minute db')
       = Some (current_count (id k, date_trunc_minute p_now) (mcp_api_usage_minute db) + 1).
Proof.
  intros Hsel Hact Hmin HQ Hr Hge.
  assert (Hday : check_window (daily_quota k) (id k, utc_date p_now) p_now
                   (mcp_api_usage_daily db) = SqlOk (None, mcp_api_usage_daily db)).
  { rewrite HQ. cbn [check_window]. by apply (upsert_below_quota_full Q _ _ _ r). }
  rewrite (consume_daily_denied _ _ _ _ _ _ _ _ Hsel Hact Hmin Hday).
  destruct (check_window_admit _ _ _ _ _ _ Hmin) as (Hmc & Hstored & _).
  eexists _, _. split; [reflexivity |]. cbn.
  unfold select_request_count at 1. rewrite Hr. cbn.
  rewrite Hstored, Hmc. repeat split; reflexivity.
Qed.

Lemma consume_daily_denial_keeps_minute_charge_witness :
  exists row db',
    consume_mcp_api_request t0 "5e88" t0
      (sample_db (Some 2) (Some 20) "active"
         [("7d0c", utc_date t0, 2)] [("7d0c", date_trunc_minute t0, 4)])
      = SqlOk (row, db')
    /\ allowed row = false
    /\ reason row = "daily_limit_exceeded"
    /\ daily_count row = Some 2
    /\ minute_count row = Some 5
    /\ select_request_count ("7d0c", date_trunc_minute t0) (mcp_api_usage_minute db')
       = Some 5.
Proof.
  destruct (consume_daily_denial_keeps_minute_charge t0 "5e88" t0
              (sample_db (Some 2) (Some 20) "active"
                 [("7d0c", utc_date t0, 2)] [("7d0c", date_trunc_minute t0, 4)])
              (sample_key (Some 2) (Some 20) "active") 5
              {[ ("7d0c", date_trunc_minute t0) :=
                   {| request_count := 5; usage_updated_at := t0 |} ]}
              2 {| request_count := 2; usage_updated_at := 0 |})
    as (row & db' & Hcall & Hall & Hreason & Hdc & _ & _ & Hmc & Hstored);
    [reflexivity | reflexivity | reflexivity | reflexivity | reflexivity
    | simpl; lia |].
  exists row, db'. repeat split; assumption.
Defined.

(** C5: for a key whose status is not [active], the call returns the
    [revoked_key] denial with the identity and both quotas of the row, both
    counts [NULL], and the database (key table and both usage tables) is
    exactly as before. *)
Theorem consume_revoked_key now h p_now db k :
  select_key_by_hash h (mcp_api_keys db) = Some k ->
  status k <> "active" ->
  consume_mcp_api_request now h p_now db =
    SqlOk ({| allowed := false; reason := "revoked_key";
              api_key_id := Some (id k); r_key_name := key_name k;
              r_tier := Some (tier k);
              r_daily_quota := daily_quota k; daily_count := None;
              r_per_minute_quota := per_minute_quota k;
              minute_count := None |}, db).
Proof.
  intros Hsel Hst. unfold consume_mcp_api_request.
  rewrite Hsel, (status_inactive_eqb k Hst). reflexivity.
Qed.

Lemma consume_revoked_key_witness :
  consume_mcp_api_request t0 "5e88" t0
    (sample_db (Some 100) (Some 20) "revoked" [("7d0c", utc_date t0, 7)] [])
  = SqlOk ({| allowed := false; reason := "revoked_key";
              api_key_id := Some "7d0c"; r_key_name := Some "claude-desktop";
              r_tier := Some "starter";
              r_daily_quota := Some 100; daily_count := None;
              r_per_minute_quota := Some 20; minute_count := None |},
           sample_db (Some 100) (Some 20) "revoked" [("7d0c", utc_date t0, 7)] []).
Proof.
  apply (consume_revoked_key t0 "5e88" t0
           (sample_db (Some 100) (Some 20) "revoked" [("7d0c", utc_date t0, 7)] [])
           (sample_key (Some 100) (Some 20) "revoked")).
  - reflexivity.
  - simpl. discriminate.
Defined.

(** ** [revoke_user_api_key] *)

Lemma update_keys_lookup now cond set (tbl : list mcp_api_keys_row) i :
  update_keys now cond set tbl !! i
  = (fun k => if cond k then set_mcp_api_keys_updated_at now (set k) else k)
      <$> tbl !! i.
Proof. unfold update_keys. apply list_lookup_fmap. Qed.

(** An [UPDATE] whose condition no row meets changes nothing and leaves
    [FOUND] false. *)
Lemma update_keys_no_match now cond set (tbl : list mcp_api_keys_row) :
  (forall k, k ∈ tbl -> cond k = false) ->
  update_keys now cond set tbl = tbl /\ update_found cond tbl = false.
Proof.
  unfold update_keys, update_found. induction tbl as [|k tbl IH]; intros Hno.
  - split; reflexivity.
  - destruct IH as [IHu IHf].
    { intros k' Hin. apply Hno. by apply list_elem_of_further. }
    cbn. rewrite (Hno k) by apply list_elem_of_here.
    rewrite IHu, IHf. split; reflexivity.
Qed.

Lemma update_found_match cond (tbl : list mcp_api_keys_row) i k :
  tbl !! i = Some k -> cond k = true -> update_found cond tbl = true.
Proof.
  intros Hk Hc. unfold update_found. apply existsb_exists.
  exists k. split; [| exact Hc].
  apply list_elem_of_In. by apply (list_elem_of_lookup_2 _ i).
Qed.

(** A revoked row never meets the condition of the revoking [UPDATE]. *)
Lemma revoke_cond_revoked kid u k :
  status k <> "active" -> revoke_cond kid u k = false.
Proof.
  intros Hst. unfold revoke_cond. rewrite (status_inactive_eqb k Hst).
  apply andb_false_r.
Qed.

Lemma revoke_cond_after now kid u k :
  revoke_cond kid u
    (if revoke_cond kid u k
     then set_mcp_api_keys_updated_at now (set_status "revoked" k)
     else k) = false.
Proof.
  destruct (revoke_cond kid u k) eqn:Hc; [| exact Hc].
  apply revoke_cond_revoked. simpl. discriminate.
Qed.

(** C7: revoking an active key of the caller returns true and rewrites
    that row with status [revoked]; a second call on the resulting
    database returns false and changes nothing; so does any call on a key
    none of whose rows is active; and no call, by anybody on any key,
    touches a row whose status is [revoked]. *)
Theorem revoke_user_api_key_idempotent u now kid db i k :
  mcp_api_keys db !! i = Some k ->
  id k = kid ->
  user_id k = Some u ->
  status k = "active" ->
  (exists db1,
     revoke_user_api_key (Some u) now kid db = SqlOk (true, db1)
     /\ mcp_api_keys db1 !! i
        = Some (set_mcp_api_keys_updated_at now (set_status "revoked" k))
     /\ forall now2, revoke_user_api_key (Some u) now2 kid db1 = SqlOk (false, db1))
  /\ (forall caller now' kid' d,
        (forall k', k' ∈ mcp_api_keys d -> id k' = kid' -> status k' = "revoked") ->
        revoke_user_api_key (Some caller) now' kid' d = SqlOk (false, d))
  /\ (forall auth_uid now' kid' d b d' j kr,
        revoke_user_api_key auth_uid now' kid' d = SqlOk (b, d') ->
        mcp_api_keys d !! j = Some kr ->
        status kr = "revoked" ->
        mcp_api_keys d' !! j = Some kr).
Proof.
  intros Hk Hid Hu Hst.
  assert (Hcond : revoke_cond kid u k = true).
  { unfold revoke_cond. rewrite Hid, Hu, Hst, !String.eqb_refl. reflexivity. }
  split; [| split].
  - eexists. split; [| split].
    + unfold revoke_user_api_key.
      rewrite (update_found_match _ _ i k Hk Hcond). reflexivity.
    + cbn. rewrite update_keys_lookup, Hk. cbn. rewrite Hcond. reflexivity.
    + intros now2. unfold revoke_user_api_key. cbn [mcp_api_keys with_keys].
      destruct (update_keys_no_match now2 (revoke_cond kid u) (set_status "revoked")
                  (update_keys now (revoke_cond kid u) (set_status "revoked")
                     (mcp_api_keys db))) as [Hsame Hfound].
      { intros k' Hin. unfold update_keys in Hin.
        apply list_elem_of_fmap in Hin as (k0 & -> & _).
        apply revoke_cond_after. }
      rewrite Hfound. unfold with_keys at 1. cbn. rewrite Hsame. reflexivity.
  - intros caller now' kid' d Hrev. unfold revoke_user_api_key.
    destruct (update_keys_no_match now' (revoke_cond kid' caller) (set_status "revoked")
                (mcp_api_keys d)) as [Hsame Hfound].
    { intros k' Hin. unfold revoke_cond.
      destruct (String.eqb_spec (id k') kid') as [Hid'|]; [| reflexivity].
      rewrite (Hrev k' Hin Hid'). apply andb_false_r. }
    rewrite Hfound, Hsame. destruct d; reflexivity.
  - intros auth_uid now' kid' d b d' j kr Hcall Hj Hrev.
    unfold revoke_user_api_key in Hcall.
    destruct auth_uid as [caller|]; [| discriminate].
    injection Hcall as _ <-. cbn. rewrite update_keys_lookup, Hj. cbn.
    rewrite revoke_cond_revoked; [reflexivity |]. rewrite Hrev. discriminate.
Qed.

Lemma revoke_user_api_key_idempotent_witness :
  exists db1,
    revoke_user_api_key (Some "u-1") t0 "7d0c" (sample_db (Some 100) (Some 20) "active" [] [])
      = SqlOk (true, db1)
    /\ (status <$> mcp_api_keys db1 !! 0%nat) = Some "revoked"
    /\ revoke_user_api_key (Some "u-1") (t0 + 5) "7d0c" db1 = SqlOk (false, db1).
Proof.
  destruct (revoke_user_api_key_idempotent "u-1" t0 "7d0c"
              (sample_db (Some 100) (Some 20) "active" [] []) 0
              (sample_key (Some 100) (Some 20) "active"))
    as ((db1 & Hfirst & Hrow & Hsecond) & _ & _);
    [reflexivity | reflexivity | reflexivity | reflexivity |].
  exists db1. split; [exact Hfirst |]. split; [| exact (Hsecond (t0 + 5))].
  rewrite Hrow. reflexivity.
Defined.

End SqlFacts.

(** ** [authorizeApiKey] *)

Module AuthFacts.
Import Auth Samples.

Section WithHash.
Variable hashApiKey : string -> string.

(** The three exits of the database branch. *)
Lemma authorize_rejected supabase nowIso apiKey allowEnvFallback envKeys row rows :
  error (supabase (hashApiKey apiKey) nowIso) = None ->
  data (supabase (hashApiKey apiKey) nowIso) = Some (row :: rows) ->
  allowed row = false ->
  authorizeApiKey hashApiKey supabase nowIso apiKey true allowEnvFallback envKeys
  = AuthErr (mapRpcRejection (reason row)).
Proof.
  intros Herr Hdata Hdenied. unfold authorizeApiKey.
  rewrite Herr, Hdata. cbn. rewrite Hdenied. reflexivity.
Qed.

Lemma authorize_backend_fault supabase nowIso apiKey allowEnvFallback envKeys err :
  error (supabase (hashApiKey apiKey) nowIso) = Some err ->
  allowEnvFallback && isRpcMissing (Js.or_default (error_message err) "") = false ->
  authorizeApiKey hashApiKey supabase nowIso apiKey true allowEnvFallback envKeys
  = AuthErr backend_unavailable.
Proof.
  intros Herr Hno. unfold authorizeApiKey. rewrite Herr.
  apply andb_false_iff in Hno as [-> | ->]; [reflexivity |].
  rewrite orb_true_r. reflexivity.
Qed.

Lemma authorize_rpc_missing supabase nowIso apiKey envKeys err :
  error (supabase (hashApiKey apiKey) nowIso) = Some err ->
  isRpcMissing (Js.or_default (error_message err) "") = true ->
  authorizeApiKey hashApiKey supabase nowIso apiKey true true envKeys
  = envFallback hashApiKey apiKey true envKeys.
Proof.
  intros Herr Hmissing. unfold authorizeApiKey. rewrite Herr, Hmissing. reflexivity.
Qed.

(** Whatever admits, the context carries the fingerprint of the presented
    key and remaining values computed from its quotas and counts. *)
Lemma authorize_ok_context supabase nowIso apiKey useDbKeys allowEnvFallback envKeys ctx :
  authorizeApiKey hashApiKey supabase nowIso apiKey useDbKeys allowEnvFallback envKeys
  = AuthOk ctx ->
  fingerprint ctx = keyFingerprint hashApiKey apiKey
  /\ dailyRemaining ctx = remaining (dailyQuota ctx) (dailyCount ctx)
  /\ minuteRemaining ctx = remaining (minuteQuota ctx) (minuteCount ctx).
Proof.
  assert (Henv : envFallback hashApiKey apiKey allowEnvFallback envKeys = AuthOk ctx ->
                 fingerprint ctx = keyFingerprint hashApiKey apiKey
                 /\ dailyRemaining ctx = remaining (dailyQuota ctx) (dailyCount ctx)
                 /\ minuteRemaining ctx = remaining (minuteQuota ctx) (minuteCount ctx)).
  { unfold envFallback.
    destruct (allowEnvFallback && isApiKeyAllowed apiKey envKeys); [| discriminate].
    intros [= <-]. repeat split; reflexivity. }
  unfold authorizeApiKey. destruct useDbKeys; [| exact Henv].
  destruct (error (supabase (hashApiKey apiKey) nowIso)) as [err|].
  - destruct (negb allowEnvFallback
              || negb (isRpcMissing (Js.or_default (error_message err) "")));
      [discriminate | exact Henv].
  - destruct (match data (supabase (hashApiKey apiKey) nowIso) with
              | Some rows => head rows
              | None => None
              end) as [row|]; [| discriminate].
    destruct (negb (allowed row)); [discriminate |].
    intros [= <-]. repeat split; reflexivity.
Qed.
End WithHash.

(** C4: when the consume RPC comes back with an error, the env-key match
    decides the result exactly when the fallback is enabled and the error
    message has the not-provisioned signature of [isRpcMissing]; in every
    other case the result is the backend-unavailable denial, HTTP 500. *)
Theorem authorize_backend_error hashApiKey supabase nowIso apiKey allowEnvFallback
    envKeys err :
  error (supabase (hashApiKey apiKey) nowIso) = Some err ->
  authorizeApiKey hashApiKey supabase nowIso apiKey true allowEnvFallback envKeys
  = (if allowEnvFallback && isRpcMissing (Js.or_default (error_message err) "")
     then if isApiKeyAllowed apiKey envKeys
          then AuthOk (buildEnvContext hashApiKey apiKey)
          else AuthErr invalid_api_key
     else AuthErr backend_unavailable)
  /\ httpStatus backend_unavailable = 500.
Proof.
  intros Herr. split; [| reflexivity].
  destruct (allowEnvFallback && isRpcMissing (Js.or_default (error_message err) ""))
    eqn:Hgate.
  - apply andb_true_iff in Hgate as [-> Hmissing].
    rewrite (authorize_rpc_missing _ _ _ _ _ _ Herr Hmissing).
    unfold envFallback. reflexivity.
  - by apply authorize_backend_fault with err.
Qed.

(** A generic fault with the fallback enabled and a matching env key: 500. *)
Lemma authorize_backend_error_witness :
  authorizeApiKey sample_hash (failing_backend "connection refused") "2026-02-19T09:40:00.000Z"
    "nlt_tenant_a_0123456789" true true ["nlt_tenant_a_0123456789"]
  = AuthErr backend_unavailable
  /\ httpStatus backend_unavailable = 500.
Proof.
  exact (authorize_backend_error sample_hash (failing_backend "connection refused")
           "2026-02-19T09:40:00.000Z" "nlt_tenant_a_0123456789" true
           ["nlt_tenant_a_0123456789"] {| error_message := Some "connection refused" |}
           eq_refl).
Defined.

(** C6: a row with [allowed = false] is turned into [mapRpcRejection] of
    its reason, that is 403 without retry hint for [invalid_key] and
    [revoked_key], 429 with 60 s for [minute_limit_exceeded], 429 with
    3600 s for [daily_limit_exceeded]; a backend error outside the
    not-provisioned signature is turned into 500 without retry hint. *)
Theorem authorize_rejection_mapping hashApiKey supabase nowIso apiKey allowEnvFallback
    envKeys :
  (forall row rows,
     error (supabase (hashApiKey apiKey) nowIso) = None ->
     data (supabase (hashApiKey apiKey) nowIso) = Some (row :: rows) ->
     allowed row = false ->
     exists e,
       authorizeApiKey hashApiKey supabase nowIso apiKey true allowEnvFallback envKeys
       = AuthErr e
       /\ (reason row = "invalid_key" \/ reason row = "revoked_key" ->
           httpStatus e = 403 /\ retryAfterSec e = None)
       /\ (reason row = "minute_limit_exceeded" ->
           httpStatus e = 429 /\ retryAfterSec e = Some 60)
       /\ (reason row = "daily_limit_exceeded" ->
           httpStatus e = 429 /\ retryAfterSec e = Some 3600))
  /\ (forall err,
        error (supabase (hashApiKey apiKey) nowIso) = Some err ->
        isRpcMissing (Js.or_default (error_message err) "") = false ->
        exists e,
          authorizeApiKey hashApiKey supabase nowIso apiKey true allowEnvFallback envKeys
          = AuthErr e
          /\ httpStatus e = 500 /\ retryAfterSec e = None).
Proof.
  split.
  - intros row rows Herr Hdata Hdenied.
    exists (mapRpcRejection (reason row)).
    split; [by apply authorize_rejected with rows |].
    split; [| split]; intros Hreason.
    + destruct Hreason as [-> | ->]; split; reflexivity.
    + rewrite Hreason. split; reflexivity.
    + rewrite Hreason. split; reflexivity.
  - intros err Herr Hgeneric. exists backend_unavailable.
    split; [| split; reflexivity].
    apply authorize_backend_fault with err; [exact Herr |].
    rewrite Hgeneric. apply andb_false_r.
Qed.

Lemma authorize_rejection_mapping_witness :
  (exists e,
     authorizeApiKey sample_hash
       (answering_backend
          (sample_rpc_row false "daily_limit_exceeded" (Some 2) (Some 2) None (Some 1)))
       "2026-02-19T09:40:00.000Z" "nlt_tenant_a_0123456789" true true []
     = AuthErr e
     /\ httpStatus e = 429 /\ retryAfterSec e = Some 3600)
  /\ (exists e,
        authorizeApiKey sample_hash (failing_backend "connection refused")
          "2026-02-19T09:40:00.000Z" "nlt_tenant_a_0123456789" true true []
        = AuthErr e
        /\ httpStatus e = 500 /\ retryAfterSec e = None).
Proof.
  split.
  - destruct (authorize_rejection_mapping sample_hash
                (answering_backend
                   (sample_rpc_row false "daily_limit_exceeded" (Some 2) (Some 2) None
                      (Some 1)))
                "2026-02-19T09:40:00.000Z" "nlt_tenant_a_0123456789" true [])
      as [Hrow _].
    destruct (Hrow (sample_rpc_row false "daily_limit_exceeded" (Some 2) (Some 2) None
                      (Some 1)) [] eq_refl eq_refl eq_refl)
      as (e & Hcall & _ & _ & Hdaily).
    exists e. split; [exact Hcall |]. apply Hdaily. reflexivity.
  - destruct (authorize_rejection_mapping sample_hash (failing_backend "connection refused")
                "2026-02-19T09:40:00.000Z" "nlt_tenant_a_0123456789" true [])
      as [_ Hfault].
    exact (Hfault {| error_message := Some "connection refused" |} eq_refl eq_refl).
Defined.

(** C10: every reason other than the two rate-limit reasons, so
    [invalid_key], [revoked_key] and any reason the switch does not know,
    is mapped to one and the same error value: 403, -32003,
    "Invalid API key.", no retry hint. *)
Theorem mapRpcRejection_fails_closed reason1 reason2 :
  reason1 <> "minute_limit_exceeded" -> reason1 <> "daily_limit_exceeded" ->
  reason2 <> "minute_limit_exceeded" -> reason2 <> "daily_limit_exceeded" ->
  mapRpcRejection reason1 = mapRpcRejection reason2
  /\ mapRpcRejection reason1
     = {| httpStatus := 403; jsonRpcCode := -32003;
          message := "Invalid API key."; retryAfterSec := None |}
  /\ mapRpcRejection "invalid_key" = mapRpcRejection "revoked_key".
Proof.
  assert (Hone : forall r, r <> "minute_limit_exceeded" -> r <> "daily_limit_exceeded" ->
                 mapRpcRejection r
                 = {| httpStatus := 403; jsonRpcCode := -32003;
                      message := "Invalid API key."; retryAfterSec := None |}).
  { intros r Hm Hd. unfold mapRpcRejection.
    apply String.eqb_neq in Hm, Hd. rewrite Hm, Hd.
    destruct (String.eqb r "invalid_key" || String.eqb r "revoked_key"); reflexivity. }
  intros H1m H1d H2m H2d.
  rewrite (Hone reason1 H1m H1d), (Hone reason2 H2m H2d).
  repeat split; reflexivity.
Qed.

Lemma mapRpcRejection_fails_closed_witness :
  mapRpcRejection "invalid_key" = mapRpcRejection "key_suspended"
  /\ mapRpcRejection "invalid_key"
     = {| httpStatus := 403; jsonRpcCode := -32003;
          message := "Invalid API key."; retryAfterSec := None |}
  /\ mapRpcRejection "invalid_key" = mapRpcRejection "revoked_key".
Proof.
  apply (mapRpcRejection_fails_closed "invalid_key" "key_suspended"); discriminate.
Defined.

End AuthFacts.

(** ** The [/mcp] routes *)

Module HttpFacts.
Import Http Samples.

Lemma get_header_admission context :
  get_header "X-RateLimit-Daily-Limit" (admission_headers context)
    = Js.string_of_number <$> Auth.dailyQuota context
  /\ get_header "X-RateLimit-Daily-Remaining" (admission_headers context)
    = Js.string_of_number <$> Auth.dailyRemaining context
  /\ get_header "X-RateLimit-Minute-Limit" (admission_headers context)
    = Js.string_of_number <$> Auth.minuteQuota context
  /\ get_header "X-RateLimit-Minute-Remaining" (admission_headers context)
    = Js.string_of_number <$> Auth.minuteRemaining context.
Proof.
  unfold admission_headers.
  destruct (Auth.dailyQuota context), (Auth.dailyRemaining context),
    (Auth.minuteQuota context), (Auth.minuteRemaining context);
    repeat split; reflexivity.
Qed.

(** What the middleware did when it let a request through with
    enforcement on. *)
Lemma mcp_auth_next hashApiKey config supabase nowIso req req' hs :
  mcpHttpRequireApiKey config = true ->
  mcp_auth hashApiKey config supabase nowIso req = inr (req', hs) ->
  exists key context,
    credential req = Some key
    /\ Auth.authorizeApiKey hashApiKey supabase nowIso key (mcpHttpUseDbKeys config)
         (mcpHttpAllowEnvKeyFallback config) (mcpHttpApiKeys config)
       = Auth.AuthOk context
    /\ hs = admission_headers context
    /\ apiKeyFingerprint req' = Some (Auth.fingerprint context).
Proof.
  intros Hreq. unfold mcp_auth. rewrite Hreq. cbn [negb].
  destruct (credential req) as [key|]; [| discriminate].
  destruct (negb (Js.truthy key)); [discriminate |].
  destruct (Auth.authorizeApiKey _ _ _ _ _ _ _) as [context|err] eqn:Hauth;
    [| discriminate].
  intros [= <- <-]. exists key, context. auto.
Qed.

(** C9: on an admitted request, for each window: with an unlimited quota
    neither the limit nor the remaining header is set; with a finite
    quota [q] the limit header is [q], and when the count [c] is present
    the remaining header is [max 0 (q - c)] over the integers, which is
    never negative. *)
Theorem admission_remaining_headers hashApiKey config supabase nowIso req req' hs :
  mcpHttpRequireApiKey config = true ->
  mcp_auth hashApiKey config supabase nowIso req = inr (req', hs) ->
  exists key context,
    credential req = Some key
    /\ Auth.authorizeApiKey hashApiKey supabase nowIso key (mcpHttpUseDbKeys config)
         (mcpHttpAllowEnvKeyFallback config) (mcpHttpApiKeys config)
       = Auth.AuthOk context
    /\ hs = admission_headers context
    /\ match Auth.dailyQuota context with
       | None =>
           get_header "X-RateLimit-Daily-Limit" hs = None
           /\ get_header "X-RateLimit-Daily-Remaining" hs = None
       | Some q =>
           get_header "X-RateLimit-Daily-Limit" hs = Some (Js.string_of_number q)
           /\ match Auth.dailyCount context with
              | Some c =>
                  get_header "X-RateLimit-Daily-Remaining" hs
                    = Some (Js.string_of_number (Z.max 0 (q - c)))
                  /\ 0 <= Z.max 0 (q - c)
              | None => get_header "X-RateLimit-Daily-Remaining" hs = None
              end
       end
    /\ match Auth.minuteQuota context with
       | None =>
           get_header "X-RateLimit-Minute-Limit" hs = None
           /\ get_header "X-RateLimit-Minute-Remaining" hs = None
       | Some q =>
           get_header "X-RateLimit-Minute-Limit" hs = Some (Js.string_of_number q)
           /\ match Auth.minuteCount context with
              | Some c =>
                  get_header "X-RateLimit-Minute-Remaining" hs
                    = Some (Js.string_of_number (Z.max 0 (q - c)))
                  /\ 0 <= Z.max 0 (q - c)
              | None => get_header "X-RateLimit-Minute-Remaining" hs = None
              end
       end.
Proof.
  intros Hreq Hnext.
  destruct (mcp_auth_next _ _ _ _ _ _ _ Hreq Hnext)
    as (key & context & Hcred & Hauth & -> & _).
  destruct (AuthFacts.authorize_ok_context _ _ _ _ _ _ _ _ Hauth) as (_ & Hday & Hmin).
  destruct (get_header_admission context) as (Hdl & Hdr & Hml & Hmr).
  exists key, context. do 3 (split; [done |]).
  rewrite Hdl, Hdr, Hml, Hmr, Hday, Hmin. unfold Auth.remaining.
  split.
  - destruct (Auth.dailyQuota context) as [q|]; [| split; reflexivity].
    split; [reflexivity |].
    destruct (Auth.dailyCount context) as [c|]; [| reflexivity].
    split; [reflexivity | lia].
  - destruct (Auth.minuteQuota context) as [q|]; [| split; reflexivity].
    split; [reflexivity |].
    destruct (Auth.minuteCount context) as [c|]; [| reflexivity].
    split; [reflexivity | lia].
Qed.

(** An admitted call reported at daily count 3 of 100 and at minute count
    1 of a per-minute quota of 0: 97 remain for the day, 0 for the minute. *)
Lemma admission_remaining_headers_witness :
  exists req' hs,
    mcp_auth sample_hash sample_config
      (answering_backend (sample_rpc_row true "ok" (Some 100) (Some 3) (Some 0) (Some 1)))
      "2026-02-19T09:40:00.000Z" (sample_request POST "nlt_tenant_a_0123456789" None)
    = inr (req', hs)
    /\ get_header "X-RateLimit-Daily-Limit" hs = Some "100"
    /\ get_header "X-RateLimit-Daily-Remaining" hs = Some "97"
    /\ get_header "X-RateLimit-Minute-Remaining" hs = Some "0".
Proof.
  eexists _, _. split; [reflexivity |].
  destruct (admission_remaining_headers sample_hash sample_config
              (answering_backend
                 (sample_rpc_row true "ok" (Some 100) (Some 3) (Some 0) (Some 1)))
              "2026-02-19T09:40:00.000Z"
              (sample_request POST "nlt_tenant_a_0123456789" None) _ _ eq_refl eq_refl)
    as (key & context & Hcred & Hauth & _ & Hday & Hminute).
  injection Hcred as <-. vm_compute in Hauth. injection Hauth as <-.
  cbn in Hday, Hminute.
  destruct Hday as [Hlimit [Hremaining _]]. destruct Hminute as [_ [Hminute _]].
  repeat split; assumption.
Defined.

(** The first twelve characters of a 64-character digest are a non-empty,
    hence truthy, string. *)
Lemma keyFingerprint_truthy hashApiKey key :
  String.length (hashApiKey key) = 64%nat ->
  Js.truthy (Auth.keyFingerprint hashApiKey key) = true.
Proof.
  unfold Auth.keyFingerprint, Js.slice0. intros Hlen.
  destruct (hashApiKey key); [discriminate | reflexivity].
Qed.

Lemma fingerprint_mismatch_spec config session req f :
  mcpHttpRequireApiKey config = true ->
  apiKeyFingerprint req = Some f ->
  Js.truthy f = true ->
  fingerprint_mismatch config session req
  = negb (String.eqb (s_apiKeyFingerprint session) f).
Proof.
  intros Hreq Hf Htruthy. unfold fingerprint_mismatch.
  rewrite Hreq, Hf, Htruthy. reflexivity.
Qed.

(** The route of each method, once the session id is there. *)
Lemma route_on_session config sessions req sid :
  getSessionId req = Some sid ->
  match method req with
  | POST => post_mcp config sessions req
  | GET => get_mcp config sessions req
  | DELETE => delete_mcp config sessions req
  end = on_session config sessions sid req.
Proof.
  intros Hsid. unfold delete_mcp, post_mcp, get_mcp. rewrite Hsid.
  destruct (method req); reflexivity.
Qed.

(** C8: with API-key auth required and SHA-256 digests of 64 hexadecimal
    characters, take a request (POST, GET or DELETE) that the auth
    middleware lets through with fingerprint [f'] and that carries the id
    of an open session. If the session is bound to another fingerprint the
    answer is 403 "Session not valid for this API key." and the transport
    is not called; if it is bound to [f'] the request is handed to the
    session's transport. A session is bound, when it is initialized, to
    the fingerprint of the request that opened it. *)
Theorem session_fingerprint_binding hashApiKey config supabase nowIso sessions req
    req' hs f' sid session :
  (forall k, String.length (hashApiKey k) = 64%nat) ->
  mcpHttpRequireApiKey config = true ->
  mcp_auth hashApiKey config supabase nowIso req = inr (req', hs) ->
  apiKeyFingerprint req' = Some f' ->
  getSessionId req = Some sid ->
  sessions !! sid = Some session ->
  (s_apiKeyFingerprint session <> f' ->
   outcome (serve_mcp hashApiKey config supabase nowIso sessions req)
   = SendJsonRpcError 403 (-32003) "Session not valid for this API key.")
  /\ (s_apiKeyFingerprint session = f' ->
      outcome (serve_mcp hashApiKey config supabase nowIso sessions req)
      = TransportHandleRequest sid session)
  /\ (forall srv tr now newSessionId,
        s_apiKeyFingerprint
          <$> onsessioninitialized req' srv tr now newSessionId sessions !! newSessionId
        = Some f').
Proof.
  intros Hdigest Hreq Hnext Hf' Hsid Hsession.
  destruct (mcp_auth_next _ _ _ _ _ _ _ Hreq Hnext)
    as (key & context & Hcred & Hauth & _ & Hfp').
  rewrite Hf' in Hfp'. injection Hfp' as ->.
  destruct (AuthFacts.authorize_ok_context _ _ _ _ _ _ _ _ Hauth) as (Hfp & _ & _).
  assert (Htruthy : Js.truthy (Auth.fingerprint context) = true).
  { rewrite Hfp. apply keyFingerprint_truthy, Hdigest. }
  assert (Hsame : getSessionId req' = getSessionId req /\ method req' = method req).
  { revert Hnext. unfold mcp_auth. rewrite Hreq, Hcred. cbn [negb].
    destruct (negb (Js.truthy key)); [discriminate |]. rewrite Hauth.
    intros [= <- _]. split; reflexivity. }
  destruct Hsame as [Hsid' Hmethod].
  assert (Hserve :
            outcome (serve_mcp hashApiKey config supabase nowIso sessions req)
            = if negb (String.eqb (s_apiKeyFingerprint session) (Auth.fingerprint context))
              then SendJsonRpcError 403 (-32003) "Session not valid for this API key."
              else TransportHandleRequest sid session).
  { unfold serve_mcp. rewrite Hnext. cbn [outcome].
    rewrite (route_on_session config sessions req' sid) by (by rewrite Hsid').
    unfold on_session. rewrite Hsession.
    by rewrite (fingerprint_mismatch_spec config session req' (Auth.fingerprint context)). }
  rewrite Hserve. split; [| split].
  - intros Hne. apply String.eqb_neq in Hne. rewrite Hne. reflexivity.
  - intros Heq. apply String.eqb_eq in Heq. rewrite Heq. reflexivity.
  - intros srv tr now newSessionId. unfold onsessioninitialized.
    rewrite lookup_insert_eq. cbn. rewrite Hf'. cbn. rewrite Htruthy. reflexivity.
Qed.

Lemma sample_hash_length k : String.length (sample_hash k) = 64%nat.
Proof. unfold sample_hash. destruct (String.eqb k _); reflexivity. Qed.

(** Tenant B presents its own valid key on the session tenant A opened. *)
Lemma session_fingerprint_binding_witness :
  outcome
    (serve_mcp sample_hash sample_config
       (answering_backend (sample_rpc_row true "ok" (Some 100) (Some 3) (Some 20) (Some 1)))
       "2026-02-19T09:40:00.000Z"
       {[ "session-1" := sample_session "a1a1a1a1a1a1" ]}
       (sample_request POST "nlt_tenant_b_9876543210" (Some "session-1")))
  = SendJsonRpcError 403 (-32003) "Session not valid for this API key.".
Proof.
  refine (proj1 (session_fingerprint_binding sample_hash sample_config
                   (answering_backend
                      (sample_rpc_row true "ok" (Some 100) (Some 3) (Some 20) (Some 1)))
                   "2026-02-19T09:40:00.000Z"
                   {[ "session-1" := sample_session "a1a1a1a1a1a1" ]}
                   (sample_request POST "nlt_tenant_b_9876543210" (Some "session-1"))
                   _ _ "b2b2b2b2b2b2" "session-1" (sample_session "a1a1a1a1a1a1")
                   sample_hash_length eq_refl eq_refl eq_refl eq_refl eq_refl) _).
  simpl. discriminate.
Defined.

End HttpFacts.

(** ** Further properties of [consume_mcp_api_request] and [revoke_user_api_key] *)

Module SqlMore.
Import Sql Samples SqlFacts.

(** The exits of [consume_mcp_api_request], read backwards from a
    returned row. *)
Lemma consume_cases now h p_now db row db' :
  consume_mcp_api_request now h p_now db = SqlOk (row, db') ->
  (select_key_by_hash h (mcp_api_keys db) = None
   /\ db' = db /\ allowed row = false /\ reason row = "invalid_key"
   /\ api_key_id row = None /\ daily_count row = None /\ minute_count row = None)
  \/ (exists k,
        select_key_by_hash h (mcp_api_keys db) = Some k
        /\ api_key_id row = Some (id k)
        /\ ((status k <> "active"
             /\ db' = db /\ allowed row = false /\ reason row = "revoked_key"
             /\ daily_count row = None /\ minute_count row = None)
            \/ (status k = "active"
                /\ check_window (per_minute_quota k) (id k, date_trunc_minute p_now) p_now
                     (mcp_api_usage_minute db) = SqlOk (None, mcp_api_usage_minute db)
                /\ db' = db /\ allowed row = false
                /\ reason row = "minute_limit_exceeded"
                /\ daily_count row = None
                /\ minute_count row
                   = select_request_count (id k, date_trunc_minute p_now)
                       (mcp_api_usage_minute db))
            \/ (exists mc mtbl,
                  status k = "active"
                  /\ check_window (per_minute_quota k) (id k, date_trunc_minute p_now)
                       p_now (mcp_api_usage_minute db) = SqlOk (Some mc, mtbl)
                  /\ check_window (daily_quota k) (id k, utc_date p_now) p_now
                       (mcp_api_usage_daily db) = SqlOk (None, mcp_api_usage_daily db)
                  /\ db' = with_minute mtbl db /\ allowed row = false
                  /\ reason row = "daily_limit_exceeded"
                  /\ daily_count row
                     = select_request_count (id k, utc_date p_now)
                         (mcp_api_usage_daily db)
                  /\ minute_count row = Some mc)
            \/ (exists mc mtbl dc dtbl,
                  status k = "active"
                  /\ check_window (per_minute_quota k) (id k, date_trunc_minute p_now)
                       p_now (mcp_api_usage_minute db) = SqlOk (Some mc, mtbl)
                  /\ check_window (daily_quota k) (id k, utc_date p_now) p_now
                       (mcp_api_usage_daily db) = SqlOk (Some dc, dtbl)
                  /\ db' = {| mcp_api_keys :=
                                update_keys now (fun k' => String.eqb (id k') (id k))
                                  (set_last_used_at p_now) (mcp_api_keys db);
                              mcp_api_usage_daily := dtbl;
                              mcp_api_usage_minute := mtbl |}
                  /\ allowed row = true /\ reason row = "ok"
                  /\ daily_count row = Some dc /\ minute_count row = Some mc))).
Proof.
  intros Hcall.
  destruct (select_key_by_hash h (mcp_api_keys db)) as [k|] eqn:Hsel.
  - right. exists k. split; [reflexivity |].
    destruct (String.eqb_spec (status k) "active") as [Hact|Hina].
    + destruct (check_window (per_minute_quota k) (id k, date_trunc_minute p_now) p_now
                  (mcp_api_usage_minute db)) as [[[mc|] mtbl]|e] eqn:Hmin.
      * destruct (check_window (daily_quota k) (id k, utc_date p_now) p_now
                    (mcp_api_usage_daily db)) as [[[dc|] dtbl]|e] eqn:Hday.
        -- rewrite (consume_admitted _ _ _ _ _ _ _ _ _ Hsel Hact Hmin Hday) in Hcall.
           injection Hcall as <- <-. split; [reflexivity |].
           right. right. right. exists mc, mtbl, dc, dtbl. repeat split; auto.
        -- rewrite (consume_daily_denied _ _ _ _ _ _ _ _ Hsel Hact Hmin Hday) in Hcall.
           injection Hcall as <- <-. split; [reflexivity |].
           destruct (check_window_deny _ _ _ _ _ Hday) as [-> _].
           right. right. left. exists mc, mtbl. repeat split; auto.
        -- rewrite (consume_daily_raise _ _ _ _ _ _ _ _ Hsel Hact Hmin Hday) in Hcall.
           discriminate.
      * rewrite (consume_minute_denied _ _ _ _ _ _ Hsel Hact Hmin) in Hcall.
        injection Hcall as <- <-. split; [reflexivity |].
        destruct (check_window_deny _ _ _ _ _ Hmin) as [-> _].
        right. left. repeat split; auto.
      * rewrite (consume_minute_raise _ _ _ _ _ _ Hsel Hact Hmin) in Hcall. discriminate.
    + unfold consume_mcp_api_request in Hcall.
      rewrite Hsel, (status_inactive_eqb k Hina) in Hcall.
      injection Hcall as <- <-. split; [reflexivity |].
      left. repeat split; auto.
  - left. unfold consume_mcp_api_request in Hcall. rewrite Hsel in Hcall.
    injection Hcall as <- <-. repeat split; auto.
Qed.

(** The exit for a key that is not active (shared with the later facts). *)
Lemma consume_revoked_key_row now h p_now db k :
  select_key_by_hash h (mcp_api_keys db) = Some k ->
  status k <> "active" ->
  consume_mcp_api_request now h p_now db =
    SqlOk ({| allowed := false; reason := "revoked_key";
              api_key_id := Some (id k); r_key_name := key_name k;
              r_tier := Some (tier k);
              r_daily_quota := daily_quota k; daily_count := None;
              r_per_minute_quota := per_minute_quota k;
              minute_count := None |}, db).
Proof.
  intros Hsel Hst. unfold consume_mcp_api_request.
  rewrite Hsel, (status_inactive_eqb k Hst). reflexivity.
Qed.

(** X1: a call that is not allowed never touches the key table (so
    [last_used_at] moves only on admitted calls) nor the daily usage
    table; unless the reason is [daily_limit_exceeded] it leaves the whole
    database as it was. *)
Theorem consume_denied_charges now h p_now db row db' :
  consume_mcp_api_request now h p_now db = SqlOk (row, db') ->
  allowed row = false ->
  mcp_api_keys db' = mcp_api_keys db
  /\ mcp_api_usage_daily db' = mcp_api_usage_daily db
  /\ (reason row <> "daily_limit_exceeded" -> db' = db).
Proof.
  intros Hcall Hdenied.
  destruct (consume_cases _ _ _ _ _ _ Hcall)
    as [(_ & -> & _)
       | (k & _ & _ & [(_ & -> & _)
                      | [(_ & _ & -> & _)
                        | [(mc & mtbl & _ & _ & _ & -> & _ & Hreason & _)
                          | (mc & mtbl & dc & dtbl & _ & _ & _ & _ & Hallowed & _)]]])].
  - auto.
  - auto.
  - auto.
  - repeat split; try reflexivity. intros Hne. contradiction.
  - congruence.
Qed.

Lemma consume_denied_charges_witness :
  exists row db',
    consume_mcp_api_request t0 "5e88" t0
      (sample_db (Some 2) (Some 1) "active" [] [("7d0c", date_trunc_minute t0, 1)])
    = SqlOk (row, db')
    /\ reason row = "minute_limit_exceeded"
    /\ db' = sample_db (Some 2) (Some 1) "active" [] [("7d0c", date_trunc_minute t0, 1)].
Proof.
  eexists _, _. split; [reflexivity |]. split; [reflexivity |].
  refine (proj2 (proj2 (consume_denied_charges t0 "5e88" t0
                          (sample_db (Some 2) (Some 1) "active" []
                             [("7d0c", date_trunc_minute t0, 1)])
                          _ _ eq_refl eq_refl)) _).
  discriminate.
Defined.

(** X2: the decision record is well formed: the reason is one of the five
    known ones, the call is allowed exactly when the reason is [ok], the
    key id is missing exactly for [invalid_key], an allowed call reports
    both counts, and a minute-limit denial reports no daily count. *)
Theorem consume_decision_record now h p_now db row db' :
  consume_mcp_api_request now h p_now db = SqlOk (row, db') ->
  In (reason row)
    ["ok"; "invalid_key"; "revoked_key"; "minute_limit_exceeded"; "daily_limit_exceeded"]
  /\ (allowed row = true <-> reason row = "ok")
  /\ (api_key_id row = None <-> reason row = "invalid_key")
  /\ (allowed row = true -> is_Some (daily_count row) /\ is_Some (minute_count row))
  /\ (reason row = "minute_limit_exceeded" -> daily_count row = None).
Proof.
  intros Hcall.
  destruct (consume_cases _ _ _ _ _ _ Hcall)
    as [(_ & _ & Ha & Hr & Hid & Hd & Hm)
       | (k & _ & Hid & [(_ & _ & Ha & Hr & Hd & Hm)
                        | [(_ & _ & _ & Ha & Hr & Hd & Hm)
                          | [(mc & mtbl & _ & _ & _ & _ & Ha & Hr & Hd & Hm)
                            | (mc & mtbl & dc & dtbl & _ & _ & _ & _ & Ha & Hr & Hd & Hm)]]])];
    rewrite Ha, Hr, Hid, ?Hd, ?Hm; cbn [In];
    (split; [tauto |]);
    (split; [split; intros; congruence |]);
    (split; [split; intros; congruence |]);
    (split; [intros; try discriminate; split; eexists; reflexivity |]);
    intros; try discriminate; try reflexivity.
Qed.

Lemma consume_decision_record_witness :
  exists row db',
    consume_mcp_api_request t0 "5e88" t0 (sample_db (Some 2) (Some 1) "active" [] [])
    = SqlOk (row, db')
    /\ (allowed row = true <-> reason row = "ok")
    /\ (api_key_id row = None <-> reason row = "invalid_key").
Proof.
  eexists _, _. split; [reflexivity |].
  destruct (consume_decision_record t0 "5e88" t0
              (sample_db (Some 2) (Some 1) "active" [] []) _ _ eq_refl)
    as (_ & Hok & Hid & _).
  split; assumption.
Defined.

Lemma update_keys_touch_lookup now p_now kid (tbl : list mcp_api_keys_row) i k :
  tbl !! i = Some k ->
  exists k',
    update_keys now (fun k0 => String.eqb (id k0) kid) (set_last_used_at p_now) tbl !! i
    = Some k'
    /\ id k' = id k /\ key_hash k' = key_hash k /\ status k' = status k
    /\ tier k' = tier k /\ daily_quota k' = daily_quota k
    /\ per_minute_quota k' = per_minute_quota k /\ user_id k' = user_id k.
Proof.
  intros Hk. rewrite update_keys_lookup, Hk. cbn.
  destruct (String.eqb (id k) kid); eexists; (split; [reflexivity |]);
    repeat split; reflexivity.
Qed.

(** X3: whatever a call returns, the key table keeps its rows in place
    with their id, hash, status, tier, quotas and owner, and the only usage
    rows that can differ afterwards are the current minute and the current
    day of the key the call reports. *)
Theorem consume_frame now h p_now db row db' :
  consume_mcp_api_request now h p_now db = SqlOk (row, db') ->
  (forall i k,
     mcp_api_keys db !! i = Some k ->
     exists k',
       mcp_api_keys db' !! i = Some k'
       /\ id k' = id k /\ key_hash k' = key_hash k /\ status k' = status k
       /\ tier k' = tier k /\ daily_quota k' = daily_quota k
       /\ per_minute_quota k' = per_minute_quota k /\ user_id k' = user_id k)
  /\ (forall u w,
        mcp_api_usage_minute db' !! (u, w) <> mcp_api_usage_minute db !! (u, w) ->
        api_key_id row = Some u /\ w = date_trunc_minute p_now)
  /\ (forall u w,
        mcp_api_usage_daily db' !! (u, w) <> mcp_api_usage_daily db !! (u, w) ->
        api_key_id row = Some u /\ w = utc_date p_now).
Proof.
  intros Hcall.
  assert (Hsame : forall i k, mcp_api_keys db !! i = Some k ->
            exists k',
              mcp_api_keys db !! i = Some k'
              /\ id k' = id k /\ key_hash k' = key_hash k /\ status k' = status k
              /\ tier k' = tier k /\ daily_quota k' = daily_quota k
              /\ per_minute_quota k' = per_minute_quota k /\ user_id k' = user_id k).
  { intros i k Hk. exists k. repeat split; auto. }
  assert (Hchanged : forall (W : Type) `{Countable W} quota (key : uuid * W) p c
                       (tbl tbl' : gmap (uuid * W) usage_row) u w,
            check_window quota key p tbl = SqlOk (Some c, tbl') ->
            tbl' !! (u, w) <> tbl !! (u, w) -> (u, w) = key).
  { intros W ? ? quota key p c tbl tbl' u w Hcheck Hne.
    destruct (check_window_admit _ _ _ _ _ _ Hcheck) as (_ & _ & Hother).
    destruct (decide ((u, w) = key)) as [Heq|Hneq]; [exact Heq |].
    contradiction Hne. by apply Hother. }
  destruct (consume_cases _ _ _ _ _ _ Hcall)
    as [(_ & -> & _)
       | (k & _ & Hid & [(_ & -> & _)
                        | [(_ & _ & -> & _)
                          | [(mc & mtbl & _ & Hmin & _ & -> & _)
                            | (mc & mtbl & dc & dtbl & _ & Hmin & Hday & -> & _)]]])].
  - split; [exact Hsame |]. split; intros u w Hne; contradiction Hne; reflexivity.
  - split; [exact Hsame |]. split; intros u w Hne; contradiction Hne; reflexivity.
  - split; [exact Hsame |]. split; intros u w Hne; contradiction Hne; reflexivity.
  - split; [exact Hsame |]. split; intros u w Hne.
    + cbn in Hne. pose proof (Hchanged _ _ _ _ _ _ _ _ _ u w Hmin Hne) as [= -> ->].
      split; [exact Hid | reflexivity].
    + contradiction Hne; reflexivity.
  - split; [| split].
    + intros i k0 Hk0. cbn. by apply update_keys_touch_lookup.
    + intros u w Hne. cbn in Hne.
      pose proof (Hchanged _ _ _ _ _ _ _ _ _ u w Hmin Hne) as [= -> ->].
      split; [exact Hid | reflexivity].
    + intros u w Hne. cbn in Hne.
      pose proof (Hchanged _ _ _ _ _ _ _ _ _ u w Hday Hne) as [= -> ->].
      split; [exact Hid | reflexivity].
Qed.

Lemma consume_frame_witness :
  exists row db',
    consume_mcp_api_request t0 "5e88" t0
      (sample_db (Some 2) (Some 5) "active" [] [("7d0c", date_trunc_minute t0 - 60000000, 5)])
    = SqlOk (row, db')
    /\ ~ (mcp_api_usage_minute db' !! ("7d0c", date_trunc_minute t0 - 60000000)
          <> mcp_api_usage_minute
               (sample_db (Some 2) (Some 5) "active" []
                  [("7d0c", date_trunc_minute t0 - 60000000, 5)])
             !! ("7d0c", date_trunc_minute t0 - 60000000)).
Proof.
  eexists _, _. split; [reflexivity |].
  intros Hne.
  destruct (consume_frame t0 "5e88" t0
              (sample_db (Some 2) (Some 5) "active" []
                 [("7d0c", date_trunc_minute t0 - 60000000, 5)]) _ _ eq_refl)
    as (_ & Hminute & _).
  destruct (Hminute _ _ Hne) as [_ Hw]. vm_compute in Hw. discriminate.
Defined.

(** X4: a call on an active key whose minute window stands at or above a
    finite per-minute quota is denied with [minute_limit_exceeded]; it
    reports the count as it stands and no daily count, and the database,
    daily window included, is exactly as before. *)
Theorem consume_minute_limit now h p_now db k Q r :
  select_key_by_hash h (mcp_api_keys db) = Some k ->
  status k = "active" ->
  per_minute_quota k = Some Q ->
  mcp_api_usage_minute db !! (id k, date_trunc_minute p_now) = Some r ->
  Q <= request_count r ->
  consume_mcp_api_request now h p_now db
  = SqlOk ({| allowed := false; reason := "minute_limit_exceeded";
              api_key_id := Some (id k); r_key_name := key_name k;
              r_tier := Some (tier k);
              r_daily_quota := daily_quota k; daily_count := None;
              r_per_minute_quota := Some Q;
              minute_count := Some (request_count r) |}, db).
Proof.
  intros Hsel Hact HQ Hr Hge.
  rewrite (consume_minute_denied now h p_now db k (mcp_api_usage_minute db) Hsel Hact).
  - unfold select_request_count. rewrite Hr, HQ. reflexivity.
  - rewrite HQ. cbn [check_window]. by apply (upsert_below_quota_full Q _ _ _ r).
Qed.

Lemma consume_minute_limit_witness :
  consume_mcp_api_request t0 "5e88" t0
    (sample_db (Some 100) (Some 5) "active"
       [("7d0c", utc_date t0, 40)] [("7d0c", date_trunc_minute t0, 5)])
  = SqlOk ({| allowed := false; reason := "minute_limit_exceeded";
              api_key_id := Some "7d0c"; r_key_name := Some "claude-desktop";
              r_tier := Some "starter";
              r_daily_quota := Some 100; daily_count := None;
              r_per_minute_quota := Some 5; minute_count := Some 5 |},
           sample_db (Some 100) (Some 5) "active"
             [("7d0c", utc_date t0, 40)] [("7d0c", date_trunc_minute t0, 5)]).
Proof.
  apply (consume_minute_limit t0 "5e88" t0
           (sample_db (Some 100) (Some 5) "active"
              [("7d0c", utc_date t0, 40)] [("7d0c", date_trunc_minute t0, 5)])
           (sample_key (Some 100) (Some 5) "active") 5
           {| request_count := 5; usage_updated_at := 0 |});
    try reflexivity.
Defined.

(** X5: windows do not carry over. When the current minute has no row
    yet, the minute check admits the call and reports count 1 whatever the
    earlier minutes stand at, and no row of another minute is changed. *)
Theorem consume_new_minute_window now h p_now db k row db' :
  select_key_by_hash h (mcp_api_keys db) = Some k ->
  status k = "active" ->
  mcp_api_usage_minute db !! (id k, date_trunc_minute p_now) = None ->
  consume_mcp_api_request now h p_now db = SqlOk (row, db') ->
  reason row <> "minute_limit_exceeded"
  /\ minute_count row = Some 1
  /\ select_request_count (id k, date_trunc_minute p_now) (mcp_api_usage_minute db')
     = Some 1
  /\ forall w, w <> date_trunc_minute p_now ->
       mcp_api_usage_minute db' !! (id k, w) = mcp_api_usage_minute db !! (id k, w).
Proof.
  intros Hsel Hact Hnone Hcall.
  pose proof (check_window_fresh (per_minute_quota k) (id k, date_trunc_minute p_now)
                p_now (mcp_api_usage_minute db) Hnone) as Hfresh.
  assert (Hother : forall w, w <> date_trunc_minute p_now ->
            <[(id k, date_trunc_minute p_now) :=
                {| request_count := 1; usage_updated_at := p_now |}]>
              (mcp_api_usage_minute db) !! (id k, w)
            = mcp_api_usage_minute db !! (id k, w)).
  { intros w Hw. apply lookup_insert_ne. congruence. }
  destruct (consume_cases _ _ _ _ _ _ Hcall)
    as [(Hsel' & _) | (k' & Hsel' & _ & Hcase)]; [congruence |].
  rewrite Hsel in Hsel'. injection Hsel' as <-.
  destruct Hcase
    as [(Hina & _)
       | [(_ & Hmin & _)
         | [(mc & mtbl & _ & Hmin & _ & -> & _ & Hreason & _ & Hmc)
           | (mc & mtbl & dc & dtbl & _ & Hmin & _ & -> & _ & Hreason & _ & Hmc)]]].
  - contradiction.
  - rewrite Hfresh in Hmin. discriminate.
  - rewrite Hfresh in Hmin. injection Hmin as <- <-.
    rewrite Hreason, Hmc. cbn. unfold select_request_count.
    rewrite lookup_insert_eq. repeat split; [discriminate | exact Hother].
  - rewrite Hfresh in Hmin. injection Hmin as <- <-.
    rewrite Hreason, Hmc. cbn. unfold select_request_count.
    rewrite lookup_insert_eq. repeat split; [discriminate | exact Hother].
Qed.

Lemma consume_new_minute_window_witness :
  exists row db',
    consume_mcp_api_request (t0 + 60000000) "5e88" (t0 + 60000000)
      (sample_db (Some 100) (Some 5) "active"
         [("7d0c", utc_date t0, 40)] [("7d0c", date_trunc_minute t0, 5)])
    = SqlOk (row, db')
    /\ allowed row = true
    /\ minute_count row = Some 1.
Proof.
  eexists _, _. split; [reflexivity |]. split; [reflexivity |].
  exact (proj1 (proj2 (consume_new_minute_window (t0 + 60000000) "5e88" (t0 + 60000000)
                         (sample_db (Some 100) (Some 5) "active"
                            [("7d0c", utc_date t0, 40)] [("7d0c", date_trunc_minute t0, 5)])
                         (sample_key (Some 100) (Some 5) "active") _ _
                         eq_refl eq_refl eq_refl eq_refl))).
Defined.

(** X6: a window whose quota is [NULL] never rate-limits: with no
    per-minute quota the reason is never [minute_limit_exceeded], with no
    daily quota never [daily_limit_exceeded]; with neither, and counts
    that still fit an [integer], every call on an active key is allowed
    and moves both windows up by one. *)
Theorem consume_unlimited now h p_now db k :
  select_key_by_hash h (mcp_api_keys db) = Some k ->
  status k = "active" ->
  (forall row db',
     consume_mcp_api_request now h p_now db = SqlOk (row, db') ->
     (per_minute_quota k = None -> reason row <> "minute_limit_exceeded")
     /\ (daily_quota k = None -> reason row <> "daily_limit_exceeded"))
  /\ (per_minute_quota k = None -> daily_quota k = None ->
      current_count (id k, date_trunc_minute p_now) (mcp_api_usage_minute db) + 1
        <= int4_max ->
      current_count (id k, utc_date p_now) (mcp_api_usage_daily db) + 1 <= int4_max ->
      exists row db',
        consume_mcp_api_request now h p_now db = SqlOk (row, db')
        /\ allowed row = true
        /\ minute_count row
           = Some (current_count (id k, date_trunc_minute p_now)
                     (mcp_api_usage_minute db) + 1)
        /\ daily_count row
           = Some (current_count (id k, utc_date p_now) (mcp_api_usage_daily db) + 1)).
Proof.
  intros Hsel Hact. split.
  - intros row db' Hcall.
    destruct (consume_cases _ _ _ _ _ _ Hcall)
      as [(Hsel' & _) | (k' & Hsel' & _ & Hcase)]; [congruence |].
    rewrite Hsel in Hsel'. injection Hsel' as <-.
    destruct Hcase
      as [(_ & _ & _ & Hreason & _)
         | [(_ & Hmin & _ & _ & Hreason & _)
           | [(mc & mtbl & _ & _ & Hday & _ & _ & Hreason & _)
             | (mc & mtbl & dc & dtbl & _ & _ & _ & _ & _ & Hreason & _)]]];
      rewrite Hreason; split; intros Hq; try discriminate.
    + rewrite Hq in Hmin. by apply upsert_unconditional_returns in Hmin.
    + rewrite Hq in Hday. by apply upsert_unconditional_returns in Hday.
  - intros Hqm Hqd Hfm Hfd.
    pose proof (check_window_unlimited _ p_now _ Hfm) as Hmin.
    pose proof (check_window_unlimited _ p_now _ Hfd) as Hday.
    rewrite <- Hqm in Hmin at 1.
    assert (Hday' := Hday). rewrite <- Hqd in Hday' at 1.
    rewrite (consume_admitted now h p_now db k _ _ _ _ Hsel Hact Hmin Hday').
    eexists _, _. split; [reflexivity |]. repeat split; reflexivity.
Qed.

Lemma consume_unlimited_witness :
  exists row db',
    consume_mcp_api_request t0 "5e88" t0
      (sample_db None None "active"
         [("7d0c", utc_date t0, 100000)] [("7d0c", date_trunc_minute t0, 5000)])
    = SqlOk (row, db')
    /\ allowed row = true
    /\ minute_count row = Some 5001
    /\ daily_count row = Some 100001.
Proof.
  refine (proj2 (consume_unlimited t0 "5e88" t0
                   (sample_db None None "active"
                      [("7d0c", utc_date t0, 100000)] [("7d0c", date_trunc_minute t0, 5000)])
                   (sample_key None None "active") eq_refl eq_refl)
            eq_refl eq_refl _ _); vm_compute; discriminate.
Defined.

Lemma consume_all_minute_quota_witness :
  count_admitted
    (fst (consume_all
            [(t0, "5e88", t0); (t0 + 1, "5e88", t0 + 1); (t0 + 2, "5e88", t0 + 2)]
            (sample_db None (Some 2) "active" [] [])))
  = Nat.min 3 (Z.to_nat (2 - 0)).
Proof.
  refine (proj1 (consume_all_minute_quota "5e88" "7d0c" 2 (date_trunc_minute t0)
                   (utc_date t0)
                   [(t0, "5e88", t0); (t0 + 1, "5e88", t0 + 1); (t0 + 2, "5e88", t0 + 2)]
                   (sample_db None (Some 2) "active" [] []) _ _ _ _ _ _)).
  - repeat constructor.
  - exists (sample_key None (Some 2) "active"). repeat split; reflexivity.
  - lia.
  - vm_compute. discriminate.
  - vm_compute. discriminate.
  - vm_compute. discriminate.
Defined.

End SqlMore.

(** ** Strings and credential extraction *)

Module ApiKeysFacts.
Import ApiKeys.

Lemma trimStart_clean_front s : clean_front (Js.trimStart s).
Proof.
  induction s as [|c t IH]; cbn; [exact I |].
  destruct (Js.is_white_space c) eqn:Hc; [exact IH | exact Hc].
Qed.

Lemma trimStart_of_clean_front s : clean_front s -> Js.trimStart s = s.
Proof. destruct s as [|c t]; cbn; [reflexivity |]. intros ->. reflexivity. Qed.

Lemma trimEnd_clean_front s : clean_front s -> clean_front (Js.trimEnd s).
Proof.
  destruct s as [|c t]; cbn; [auto |]. intros Hc.
  destruct (Js.trimEnd t); rewrite ?Hc; exact Hc.
Qed.

Lemma trimEnd_cons c t :
  Js.trimEnd (String c t)
  = match Js.trimEnd t with
    | EmptyString => if Js.is_white_space c then EmptyString else String c EmptyString
    | t' => String c t'
    end.
Proof. reflexivity. Qed.

Lemma trimEnd_idempotent s : Js.trimEnd (Js.trimEnd s) = Js.trimEnd s.
Proof.
  induction s as [|c t IH]; [reflexivity |]. rewrite trimEnd_cons.
  destruct (Js.trimEnd t) as [|d u] eqn:Ht.
  - destruct (Js.is_white_space c) eqn:Hc; [reflexivity |].
    rewrite trimEnd_cons. cbn. rewrite Hc. reflexivity.
  - rewrite trimEnd_cons, IH. reflexivity.
Qed.

Lemma trim_idempotent s : Js.trim (Js.trim s) = Js.trim s.
Proof.
  unfold Js.trim.
  rewrite (trimStart_of_clean_front (Js.trimEnd (Js.trimStart s))).
  - apply trimEnd_idempotent.
  - apply trimEnd_clean_front, trimStart_clean_front.
Qed.

Lemma truthy_length s : Js.truthy s = (0 <? String.length s)%nat.
Proof. destruct s; reflexivity. Qed.

Lemma truthy_nonempty s : Js.truthy s = true <-> s <> "".
Proof. destruct s; cbn; split; congruence. Qed.

(** What [headerValue] returns is trimmed and not empty. *)
Lemma headerValue_trimmed raw v :
  headerValue raw = Some v -> Js.truthy v = true /\ Js.trim v = v.
Proof.
  destruct raw as [s|items|]; unfold headerValue; [| | discriminate].
  - rewrite <- truthy_length.
    destruct (Js.truthy (Js.trim s)) eqn:Ht; [| discriminate].
    intros [= <-]. split; [exact Ht | apply trim_idempotent].
  - destruct (find _ items) as [[first|]|] eqn:Hfind; try discriminate.
    intros [= <-]. apply find_some in Hfind as [_ Hlen].
    rewrite <- truthy_length in Hlen. split; [exact Hlen | apply trim_idempotent].
Qed.

Lemma extractApiKeyFromHeaders_truthy headers key :
  extractApiKeyFromHeaders headers = Some key -> Js.truthy key = true.
Proof.
  unfold extractApiKeyFromHeaders.
  destruct (headerValue (default HdrOther (headers !! "x-api-key"))) as [k|] eqn:Hx.
  - destruct (headerValue_trimmed _ _ Hx) as [Ht _]. rewrite Ht. by intros [= <-].
  - destruct (headerValue (default HdrOther (headers !! "authorization"))) as [a|];
      [| discriminate].
    destruct (negb (Js.truthy a)); [discriminate |].
    destruct (bearer_exec a) as [g|]; [| discriminate].
    destruct (Js.truthy (Js.trim g)) eqn:Ht; [| discriminate].
    by intros [= <-].
Qed.

(** X8: the credential taken from the headers is never empty and never
    carries white space at either end, whichever header it comes from. *)
Theorem extractApiKeyFromHeaders_trimmed headers key :
  extractApiKeyFromHeaders headers = Some key ->
  key <> "" /\ Js.trim key = key.
Proof.
  unfold extractApiKeyFromHeaders.
  destruct (headerValue (default HdrOther (headers !! "x-api-key"))) as [k|] eqn:Hx.
  - destruct (headerValue_trimmed _ _ Hx) as [Ht Htrim]. rewrite Ht.
    intros [= <-]. split; [by apply truthy_nonempty | exact Htrim].
  - destruct (headerValue (default HdrOther (headers !! "authorization"))) as [a|];
      [| discriminate].
    destruct (negb (Js.truthy a)); [discriminate |].
    destruct (bearer_exec a) as [g|]; [| discriminate].
    destruct (Js.truthy (Js.trim g)) eqn:Ht; [| discriminate].
    intros [= <-]. split; [by apply truthy_nonempty | apply trim_idempotent].
Qed.

Lemma extractApiKeyFromHeaders_trimmed_witness :
  extractApiKeyFromHeaders {[ "authorization" := HdrString "  bearer   nlt_abc  " ]}
  = Some "nlt_abc"
  /\ "nlt_abc" <> "" /\ Js.trim "nlt_abc" = "nlt_abc".
Proof.
  split; [reflexivity |].
  exact (extractApiKeyFromHeaders_trimmed
           {[ "authorization" := HdrString "  bearer   nlt_abc  " ]} "nlt_abc" eq_refl).
Defined.

Lemma line_terminator_is_white_space c :
  is_line_terminator c = true -> Js.is_white_space c = true.
Proof.
  unfold is_line_terminator, Js.is_white_space.
  destruct (Nat.eqb_spec (nat_of_ascii c) 10) as [->|]; [reflexivity |].
  destruct (Nat.eqb_spec (nat_of_ascii c) 13) as [->|]; [reflexivity | discriminate].
Qed.

Lemma no_white_space_no_line_terminator s :
  no_white_space s = true -> no_line_terminator s = true.
Proof.
  induction s as [|c t IH]; [reflexivity |]. cbn.
  intros [Hc Ht]%andb_true_iff. rewrite (IH Ht), andb_true_r.
  destruct (is_line_terminator c) eqn:Hlt; [| reflexivity].
  by rewrite (line_terminator_is_white_space c Hlt) in Hc.
Qed.

Lemma trimEnd_no_white_space s : no_white_space s = true -> Js.trimEnd s = s.
Proof.
  induction s as [|c t IH]; [reflexivity |]. cbn [no_white_space].
  intros [Hc Ht]%andb_true_iff. rewrite trimEnd_cons, (IH Ht).
  apply negb_true_iff in Hc. rewrite Hc. destruct t; reflexivity.
Qed.

Lemma append_cons c x t : String c x ++ t = String c (x ++ t).
Proof. reflexivity. Qed.

Lemma append_empty t : "" ++ t = t.
Proof. reflexivity. Qed.

Lemma trimEnd_app x t :
  t <> "" -> Js.trimEnd t = t -> Js.trimEnd (x ++ t) = x ++ t.
Proof.
  intros Hne Ht. induction x as [|c x IH]; [exact Ht |].
  rewrite append_cons, trimEnd_cons, IH.
  destruct (x ++ t) eqn:Hx; [| reflexivity].
  destruct x; [rewrite append_empty in Hx; congruence | discriminate].
Qed.

Lemma trimStart_all_white_space w s :
  all_white_space w = true -> Js.trimStart (w ++ s) = Js.trimStart s.
Proof.
  induction w as [|c w IH]; [reflexivity |]. rewrite append_cons. cbn.
  intros [Hc Hw]%andb_true_iff. rewrite Hc. by apply IH.
Qed.

Lemma match_ci_prefix_app pat :
  forall scheme rest,
    match_ci_prefix pat scheme = Some "" ->
    match_ci_prefix pat (scheme ++ rest) = Some rest.
Proof.
  induction pat as [|p pat IH]; intros scheme rest; cbn.
  - intros [= ->]. reflexivity.
  - destruct scheme as [|c scheme]; [discriminate |]. rewrite append_cons.
    destruct (Ascii.eqb (upper_ascii c) (upper_ascii p)); [apply IH | discriminate].
Qed.

Lemma dot_plus_end_spec t g :
  dot_plus_end t = Some g -> t = g /\ g <> "" /\ no_line_terminator g = true.
Proof.
  unfold dot_plus_end.
  destruct (Js.truthy t && no_line_terminator t) eqn:Hd; [| discriminate].
  intros [= <-]. apply andb_true_iff in Hd as [Ht Hl].
  split; [reflexivity |]. split; [by apply truthy_nonempty | exact Hl].
Qed.

(** What the greedy [\s+] leaves to the group: the input is white space
    followed by the group, and the group has no line terminator. *)
Lemma spaces_then_group_spec s :
  forall g,
    spaces_then_group s = Some g ->
    exists w, s = w ++ g /\ all_white_space w = true
              /\ g <> "" /\ no_line_terminator g = true.
Proof.
  induction s as [|c t IH]; intros g; [discriminate |].
  cbn [spaces_then_group].
  assert (Hhere : dot_plus_end (String c t) = Some g ->
            exists w, String c t = w ++ g /\ all_white_space w = true
                      /\ g <> "" /\ no_line_terminator g = true).
  { intros Hd. destruct (dot_plus_end_spec _ _ Hd) as (<- & Hne & Hl).
    exists "". auto. }
  destruct (Js.is_white_space c) eqn:Hc; [| exact Hhere].
  destruct (spaces_then_group t) as [g'|] eqn:Hrec; [| exact Hhere].
  intros [= <-]. destruct (IH g' eq_refl) as (w & -> & Hw & Hg).
  exists (String c w). rewrite append_cons. cbn. rewrite Hc, Hw. auto.
Qed.

Lemma spaces_then_group_token w token :
  all_white_space w = true ->
  token <> "" -> no_white_space token = true ->
  spaces_then_group (w ++ token) = Some token.
Proof.
  intros Hw Hne Htok. induction w as [|c w IH]; rewrite ?append_cons, ?append_empty.
  - destruct token as [|c t]; [congruence |].
    cbn [spaces_then_group]. cbn in Htok.
    apply andb_true_iff in Htok as [Hc Ht]. apply negb_true_iff in Hc.
    rewrite Hc. unfold dot_plus_end.
    rewrite (no_white_space_no_line_terminator (String c t)); [reflexivity |].
    cbn. by rewrite Hc, Ht.
  - cbn in Hw. apply andb_true_iff in Hw as [Hc Hw].
    cbn [spaces_then_group]. rewrite Hc, (IH Hw). reflexivity.
Qed.

Lemma no_line_terminator_trim g :
  no_line_terminator g = true -> no_line_terminator (Js.trim g) = true.
Proof.
  assert (Hstart : forall s, no_line_terminator s = true ->
                             no_line_terminator (Js.trimStart s) = true).
  { induction s as [|c t IH]; [reflexivity |]. cbn.
    intros [Hc Ht]%andb_true_iff. destruct (Js.is_white_space c); [by apply IH |].
    cbn. by rewrite Hc, Ht. }
  assert (Hend : forall s, no_line_terminator s = true ->
                           no_line_terminator (Js.trimEnd s) = true).
  { induction s as [|c t IH]; [reflexivity |]. cbn [no_line_terminator].
    intros [Hc Ht]%andb_true_iff. rewrite trimEnd_cons.
    specialize (IH Ht). destruct (Js.trimEnd t) as [|a s0].
    - destruct (Js.is_white_space c); [reflexivity |]. cbn. by rewrite Hc.
    - change (negb (is_line_terminator c) && no_line_terminator (String a s0) = true).
      by rewrite Hc, IH. }
  intros Hg. unfold Js.trim. by apply Hend, Hstart.
Qed.

Lemma bearer_scheme_clean_front c s rest :
  match_ci_prefix "Bearer" (String c s) = Some rest ->
  clean_front (String c s).
Proof.
  cbn [match_ci_prefix clean_front].
  destruct (Ascii.eqb (upper_ascii c) (upper_ascii "B")) eqn:Hc; [| discriminate].
  intros _. apply Ascii.eqb_eq in Hc.
  destruct c as [[] [] [] [] [] [] [] []]; try reflexivity;
    vm_compute in Hc; discriminate.
Qed.

(** X9: a token without white space, sent as [Bearer], any run of white
    space and the token, in any letter case of the scheme, comes back
    unchanged when no [x-api-key] header gives a value. *)
Theorem extractApiKeyFromHeaders_bearer headers scheme spaces token :
  headerValue (default HdrOther (headers !! "x-api-key")) = None ->
  headers !! "authorization" = Some (HdrString (scheme ++ spaces ++ token)) ->
  match_ci_prefix "Bearer" scheme = Some "" ->
  spaces <> "" -> all_white_space spaces = true ->
  token <> "" -> no_white_space token = true ->
  extractApiKeyFromHeaders headers = Some token.
Proof.
  intros Hx Hauth Hscheme Hsp Hws Htok Hnows.
  assert (Htrim : Js.trim (scheme ++ spaces ++ token) = scheme ++ spaces ++ token).
  { unfold Js.trim. rewrite trimStart_of_clean_front.
    - apply trimEnd_app.
      + destruct spaces; [congruence | discriminate].
      + apply trimEnd_app; [exact Htok |]. by apply trimEnd_no_white_space.
    - destruct scheme as [|c scheme]; [discriminate |].
      rewrite append_cons. by apply (bearer_scheme_clean_front c scheme ""). }
  assert (Hnonempty : Js.truthy (scheme ++ spaces ++ token) = true).
  { destruct scheme; [discriminate | reflexivity]. }
  assert (Hvalue : headerValue (default HdrOther (headers !! "authorization"))
                   = Some (scheme ++ spaces ++ token)).
  { rewrite Hauth.
    change (headerValue (HdrString (scheme ++ spaces ++ token))
            = Some (scheme ++ spaces ++ token)).
    unfold headerValue. cbv zeta. by rewrite Htrim, <- truthy_length, Hnonempty. }
  unfold extractApiKeyFromHeaders. rewrite Hx, Hvalue, Hnonempty. cbn [negb].
  unfold bearer_exec. rewrite (match_ci_prefix_app "Bearer" scheme _ Hscheme).
  destruct spaces as [|c w]; [congruence |]. rewrite append_cons.
  cbn in Hws. apply andb_true_iff in Hws as [Hc Hw]. rewrite Hc.
  rewrite (spaces_then_group_token w token Hw Htok Hnows).
  unfold Js.trim. rewrite trimStart_of_clean_front.
  - rewrite (trimEnd_no_white_space token Hnows).
    apply truthy_nonempty in Htok. rewrite Htok. reflexivity.
  - destruct token as [|d t]; [exact I |]. cbn in Hnows |- *.
    apply andb_true_iff in Hnows as [Hd _]. by apply negb_true_iff.
Qed.

Lemma extractApiKeyFromHeaders_bearer_witness :
  extractApiKeyFromHeaders
    {[ "authorization" := HdrString ("BEARER" ++ "  " ++ "nlt_tenant_a_0123456789") ]}
  = Some "nlt_tenant_a_0123456789".
Proof.
  apply (extractApiKeyFromHeaders_bearer _ "BEARER" "  " "nlt_tenant_a_0123456789");
    try reflexivity; discriminate.
Defined.

(** X10: without a value under [x-api-key], a credential is found only
    in an [Authorization] header of the form [Bearer] (in any letter
    case), white space, rest; the credential is then that rest, trimmed,
    and contains no line terminator. Any other scheme gives no credential. *)
Theorem extractApiKeyFromHeaders_authorization headers key :
  headerValue (default HdrOther (headers !! "x-api-key")) = None ->
  extractApiKeyFromHeaders headers = Some key ->
  exists authHeader c rest,
    headerValue (default HdrOther (headers !! "authorization")) = Some authHeader
    /\ match_ci_prefix "Bearer" authHeader = Some (String c rest)
    /\ Js.is_white_space c = true
    /\ key = Js.trim rest
    /\ no_line_terminator key = true.
Proof.
  intros Hx. unfold extractApiKeyFromHeaders. rewrite Hx.
  destruct (headerValue (default HdrOther (headers !! "authorization"))) as [a|];
    [| discriminate].
  destruct (negb (Js.truthy a)); [discriminate |].
  unfold bearer_exec.
  destruct (match_ci_prefix "Bearer" a) as [[|c rest]|] eqn:Hscheme; try discriminate.
  destruct (Js.is_white_space c) eqn:Hc; [| discriminate].
  destruct (spaces_then_group rest) as [g|] eqn:Hgroup; [| discriminate].
  destruct (Js.truthy (Js.trim g)); [| discriminate].
  intros [= <-].
  destruct (spaces_then_group_spec rest g Hgroup) as (w & -> & Hw & _ & Hlt).
  exists a, c, (w ++ g). repeat split; auto.
  - unfold Js.trim. by rewrite trimStart_all_white_space.
  - by apply no_line_terminator_trim.
Qed.

Lemma extractApiKeyFromHeaders_authorization_witness :
  exists authHeader c rest,
    headerValue
      (default HdrOther
         (({[ "authorization" := HdrString "Bearer   nlt_abc" ]} : gmap string JsHeader)
            !! "authorization"))
    = Some authHeader
    /\ match_ci_prefix "Bearer" authHeader = Some (String c rest)
    /\ Js.is_white_space c = true
    /\ "nlt_abc" = Js.trim rest
    /\ no_line_terminator "nlt_abc" = true.
Proof.
  exact (extractApiKeyFromHeaders_authorization
           {[ "authorization" := HdrString "Bearer   nlt_abc" ]} "nlt_abc"
           eq_refl eq_refl).
Defined.

(** X11: a non-blank [x-api-key] header wins: its trimmed value is the
    credential whatever the [Authorization] header holds. *)
Theorem extractApiKeyFromHeaders_x_api_key headers s :
  headers !! "x-api-key" = Some (HdrString s) ->
  Js.trim s <> "" ->
  extractApiKeyFromHeaders headers = Some (Js.trim s).
Proof.
  intros Hx Hne. apply truthy_nonempty in Hne.
  assert (Hvalue : headerValue (default HdrOther (headers !! "x-api-key"))
                   = Some (Js.trim s)).
  { rewrite Hx. change (headerValue (HdrString s) = Some (Js.trim s)).
    unfold headerValue. cbv zeta. by rewrite <- truthy_length, Hne. }
  unfold extractApiKeyFromHeaders. rewrite Hvalue, Hne. reflexivity.
Qed.

Lemma extractApiKeyFromHeaders_x_api_key_witness :
  extractApiKeyFromHeaders
    {[ "x-api-key" := HdrString " nlt_tenant_a_0123456789 ";
       "authorization" := HdrString "Bearer nlt_tenant_b_9876543210" ]}
  = Some "nlt_tenant_a_0123456789".
Proof.
  apply (extractApiKeyFromHeaders_x_api_key
           {[ "x-api-key" := HdrString " nlt_tenant_a_0123456789 ";
              "authorization" := HdrString "Bearer nlt_tenant_b_9876543210" ]}
           " nlt_tenant_a_0123456789 ").
  - reflexivity.
  - discriminate.
Defined.

End ApiKeysFacts.

(** ** Further properties of [authorizeApiKey] and its helpers *)

Module AuthMore.
Import Auth Samples.

Lemma timingSafeEqual_acc_spec a :
  forall b diff,
    String.length a = String.length b ->
    timingSafeEqual_acc a b diff = negb diff && String.eqb a b.
Proof.
  induction a as [|x a IH]; intros [|y b] diff Hlen; try discriminate.
  - cbn. by rewrite andb_true_r.
  - cbn in Hlen |- *. rewrite IH by congruence.
    destruct diff, (Ascii.eqb x y); reflexivity.
Qed.

Lemma isApiKeyAllowed_In candidate allowedKeys :
  isApiKeyAllowed candidate allowedKeys = true <-> In candidate allowedKeys.
Proof.
  unfold isApiKeyAllowed. rewrite existsb_exists. split.
  - intros (key & Hin & Hmatch).
    destruct (Nat.eqb_spec (String.length key) (String.length candidate)) as [Hlen|];
      [| discriminate].
    cbn [negb] in Hmatch. unfold timingSafeEqual in Hmatch.
    rewrite timingSafeEqual_acc_spec in Hmatch by congruence.
    cbn in Hmatch. apply String.eqb_eq in Hmatch. by subst key.
  - intros Hin. exists candidate. split; [exact Hin |].
    rewrite Nat.eqb_refl. cbn [negb]. unfold timingSafeEqual.
    rewrite timingSafeEqual_acc_spec by reflexivity.
    cbn. apply String.eqb_refl.
Qed.

(** X12: the constant-time comparison decides equality on buffers of one
    length, and [isApiKeyAllowed] decides membership: a candidate is
    allowed exactly when it is, character for character, one of the
    configured keys. *)
Theorem isApiKeyAllowed_iff candidate allowedKeys :
  (forall key,
     String.length key = String.length candidate ->
     timingSafeEqual candidate key = String.eqb candidate key)
  /\ (isApiKeyAllowed candidate allowedKeys = true <-> In candidate allowedKeys).
Proof.
  split; [| apply isApiKeyAllowed_In].
  intros key Hlen. unfold timingSafeEqual.
  by rewrite timingSafeEqual_acc_spec.
Qed.

(** X13: no admission without evidence. An admitted context from the
    database comes from a call the backend answered without error and
    with a first row that says allowed; an admitted context from the
    environment needs the fallback enabled, the key among the configured
    ones, and either the database switched off or an error with the
    not-provisioned signature. *)
Theorem authorizeApiKey_sound hashApiKey supabase nowIso apiKey useDbKeys
    allowEnvFallback envKeys ctx :
  authorizeApiKey hashApiKey supabase nowIso apiKey useDbKeys allowEnvFallback envKeys
  = AuthOk ctx ->
  (source ctx = db
   /\ useDbKeys = true
   /\ error (supabase (hashApiKey apiKey) nowIso) = None
   /\ exists row rows,
        data (supabase (hashApiKey apiKey) nowIso) = Some (row :: rows)
        /\ allowed row = true)
  \/ (source ctx = env
      /\ allowEnvFallback = true
      /\ In apiKey envKeys
      /\ (useDbKeys = false
          \/ exists err,
               error (supabase (hashApiKey apiKey) nowIso) = Some err
               /\ isRpcMissing (Js.or_default (error_message err) "") = true)).
Proof.
  assert (Henv : envFallback hashApiKey apiKey allowEnvFallback envKeys = AuthOk ctx ->
                 source ctx = env /\ allowEnvFallback = true /\ In apiKey envKeys).
  { unfold envFallback. destruct allowEnvFallback; [| discriminate]. cbn [andb].
    destruct (isApiKeyAllowed apiKey envKeys) eqn:Hin; [| discriminate].
    intros [= <-]. apply isApiKeyAllowed_In in Hin. auto. }
  unfold authorizeApiKey. destruct useDbKeys.
  - destruct (error (supabase (hashApiKey apiKey) nowIso)) as [err|].
    + destruct allowEnvFallback; [| discriminate]. cbn [negb orb].
      destruct (isRpcMissing (Js.or_default (error_message err) "")) eqn:Hmiss;
        [| discriminate].
      cbn [negb]. intros Hok. destruct (Henv Hok) as (Hs & Ha & Hin).
      right. repeat split; auto. right. exists err. auto.
    + destruct (data (supabase (hashApiKey apiKey) nowIso)) as [[|row rows]|];
        try discriminate.
      cbn [head]. destruct (allowed row) eqn:Hallowed; [| discriminate].
      cbn [negb]. intros [= <-]. left. repeat split; auto. exists row, rows. auto.
  - intros Hok. destruct (Henv Hok) as (Hs & Ha & Hin). right. repeat split; auto.
Qed.

Lemma authorizeApiKey_sound_witness :
  exists ctx,
    authorizeApiKey sample_hash
      (failing_backend "Could not find the function public.consume_mcp_api_request")
      "2026-02-19T09:40:00.000Z" "nlt_tenant_a_0123456789" true true
      ["nlt_tenant_a_0123456789"]
    = AuthOk ctx
    /\ source ctx = env
    /\ In "nlt_tenant_a_0123456789" ["nlt_tenant_a_0123456789"].
Proof.
  eexists. split; [reflexivity |].
  destruct (authorizeApiKey_sound sample_hash
              (failing_backend "Could not find the function public.consume_mcp_api_request")
              "2026-02-19T09:40:00.000Z" "nlt_tenant_a_0123456789" true true
              ["nlt_tenant_a_0123456789"] _ eq_refl)
    as [(Hsource & _) | (Hsource & _ & Hin & _)].
  - discriminate Hsource.
  - split; [exact Hsource | exact Hin].
Defined.

(** X14: an answer of the database is final. When the RPC comes back
    without error, the result does not depend on the fallback switch or
    on the configured environment keys: a key the database denies, or
    does not answer for, is not rescued by the environment list. *)
Theorem authorizeApiKey_db_answer_final hashApiKey supabase nowIso apiKey
    allowEnvFallback envKeys allowEnvFallback' envKeys' :
  error (supabase (hashApiKey apiKey) nowIso) = None ->
  authorizeApiKey hashApiKey supabase nowIso apiKey true allowEnvFallback envKeys
  = authorizeApiKey hashApiKey supabase nowIso apiKey true allowEnvFallback' envKeys'.
Proof. intros Herr. unfold authorizeApiKey. rewrite Herr. reflexivity. Qed.

Lemma authorizeApiKey_db_answer_final_witness :
  authorizeApiKey sample_hash
    (answering_backend (sample_rpc_row false "revoked_key" (Some 100) None (Some 20) None))
    "2026-02-19T09:40:00.000Z" "nlt_tenant_a_0123456789" true true
    ["nlt_tenant_a_0123456789"]
  = AuthErr invalid_api_key.
Proof.
  rewrite (authorizeApiKey_db_answer_final sample_hash
             (answering_backend
                (sample_rpc_row false "revoked_key" (Some 100) None (Some 20) None))
             "2026-02-19T09:40:00.000Z" "nlt_tenant_a_0123456789" true
             ["nlt_tenant_a_0123456789"] false [] eq_refl).
  reflexivity.
Defined.

(** X15: with the database switched off the backend is never consulted:
    the key is admitted, as the environment identity without quotas,
    exactly when the fallback is enabled and the key is configured, and
    is denied with 403 otherwise, so with both switches off every key is
    denied. *)
Theorem authorizeApiKey_without_db hashApiKey supabase nowIso apiKey allowEnvFallback
    envKeys :
  (allowEnvFallback = true /\ In apiKey envKeys ->
   authorizeApiKey hashApiKey supabase nowIso apiKey false allowEnvFallback envKeys
   = AuthOk (buildEnvContext hashApiKey apiKey))
  /\ (~ (allowEnvFallback = true /\ In apiKey envKeys) ->
      authorizeApiKey hashApiKey supabase nowIso apiKey false allowEnvFallback envKeys
      = AuthErr invalid_api_key).
Proof.
  unfold authorizeApiKey, envFallback. split.
  - intros [-> Hin]. apply isApiKeyAllowed_In in Hin. rewrite Hin. reflexivity.
  - intros Hno. destruct allowEnvFallback; [| reflexivity]. cbn [andb].
    destruct (isApiKeyAllowed apiKey envKeys) eqn:Hin; [| reflexivity].
    contradiction Hno. split; [reflexivity | by apply isApiKeyAllowed_In].
Qed.

Lemma authorizeApiKey_without_db_witness :
  authorizeApiKey sample_hash (failing_backend "unused") "2026-02-19T09:40:00.000Z"
    "nlt_tenant_a_0123456789" false false ["nlt_tenant_a_0123456789"]
  = AuthErr invalid_api_key.
Proof.
  apply (authorizeApiKey_without_db sample_hash (failing_backend "unused")
           "2026-02-19T09:40:00.000Z" "nlt_tenant_a_0123456789" false
           ["nlt_tenant_a_0123456789"]).
  intros [Hallow _]. discriminate Hallow.
Defined.

Lemma isApiKeyAllowed_iff_witness :
  timingSafeEqual "nlt_tenant_a_0123456789" "nlt_tenant_b_9876543210" = false
  /\ isApiKeyAllowed "nlt_tenant_a_0123456789"
       ["nlt_other"; "nlt_tenant_a_0123456789"] = true.
Proof.
  destruct (isApiKeyAllowed_iff "nlt_tenant_a_0123456789"
              ["nlt_other"; "nlt_tenant_a_0123456789"]) as [Heq Hin].
  split.
  - exact (Heq "nlt_tenant_b_9876543210" eq_refl).
  - apply Hin. right. left. reflexivity.
Defined.

Lemma lower_char_idempotent c : Js.lower_char (Js.lower_char c) = Js.lower_char c.
Proof. destruct c as [[] [] [] [] [] [] [] []]; reflexivity. Qed.

Lemma lower_char_white_space c :
  Js.is_white_space (Js.lower_char c) = Js.is_white_space c.
Proof. destruct c as [[] [] [] [] [] [] [] []]; reflexivity. Qed.

Lemma toLowerCase_idempotent s : Js.toLowerCase (Js.toLowerCase s) = Js.toLowerCase s.
Proof.
  induction s as [|c t IH]; [reflexivity |]. cbn. by rewrite lower_char_idempotent, IH.
Qed.

Lemma toLowerCase_trimStart s :
  Js.toLowerCase (Js.trimStart s) = Js.trimStart (Js.toLowerCase s).
Proof.
  induction s as [|c t IH]; [reflexivity |]. cbn. rewrite lower_char_white_space.
  destruct (Js.is_white_space c); [exact IH | reflexivity].
Qed.

Lemma toLowerCase_trimEnd s :
  Js.toLowerCase (Js.trimEnd s) = Js.trimEnd (Js.toLowerCase s).
Proof.
  induction s as [|c t IH]; [reflexivity |].
  change (Js.toLowerCase (String c t))
    with (String (Js.lower_char c) (Js.toLowerCase t)).
  rewrite !ApiKeysFacts.trimEnd_cons, <- IH, lower_char_white_space.
  destruct (Js.trimEnd t); [destruct (Js.is_white_space c) |]; reflexivity.
Qed.

Lemma toLowerCase_trim s : Js.toLowerCase (Js.trim s) = Js.trim (Js.toLowerCase s).
Proof. unfold Js.trim. by rewrite toLowerCase_trimEnd, toLowerCase_trimStart. Qed.

(** X16: the tier label of an admitted context is never empty, is stable
    under normalizing it again, and a missing or blank tier reads [free]. *)
Theorem normalizeTier_stable value :
  normalizeTier value <> ""
  /\ normalizeTier (Some (normalizeTier value)) = normalizeTier value
  /\ (Js.trim (Js.or_default value "") = "" -> normalizeTier value = "free").
Proof.
  unfold normalizeTier.
  set (raw := Js.toLowerCase (Js.trim (Js.or_default value ""))).
  assert (Hraw : Js.toLowerCase (Js.trim raw) = raw).
  { unfold raw. rewrite <- toLowerCase_trim, ApiKeysFacts.trim_idempotent.
    apply toLowerCase_idempotent. }
  destruct (Js.truthy raw) eqn:Ht; cbn [negb].
  - split; [by apply ApiKeysFacts.truthy_nonempty |]. split.
    + cbn [Js.or_default]. rewrite Ht, Hraw, Ht. reflexivity.
    + intros Hblank. unfold raw in Ht. rewrite Hblank in Ht. discriminate.
  - split; [discriminate |]. split; [reflexivity | reflexivity].
Qed.

Lemma normalizeTier_stable_witness :
  normalizeTier (Some "  Enterprise ") = "enterprise"
  /\ normalizeTier (Some (normalizeTier (Some "  Enterprise ")))
     = normalizeTier (Some "  Enterprise ")
  /\ normalizeTier (Some "   ") = "free".
Proof.
  destruct (normalizeTier_stable (Some "  Enterprise ")) as (_ & Hstable & _).
  destruct (normalizeTier_stable (Some "   ")) as (_ & _ & Hblank).
  split; [reflexivity |]. split; [exact Hstable |]. apply Hblank. reflexivity.
Defined.

End AuthMore.

(** ** Further properties of the [/mcp] routes *)

Module HttpMore.
Import Http Server Samples.

(** The middleware hands on the request with its method, session header
    and body flag as they came. *)
Lemma mcp_auth_passes hashApiKey config supabase nowIso req req' hs :
  mcp_auth hashApiKey config supabase nowIso req = inr (req', hs) ->
  method req' = method req
  /\ session_header req' = session_header req
  /\ isInitializeRequestBody req' = isInitializeRequestBody req.
Proof.
  unfold mcp_auth. destruct (negb (mcpHttpRequireApiKey config)).
  - intros [= <- _]. auto.
  - destruct (credential req) as [key|]; [| discriminate].
    destruct (negb (Js.truthy key)); [discriminate |].
    destruct (Auth.authorizeApiKey _ _ _ _ _ _ _); [| discriminate].
    intros [= <- _]. auto.
Qed.

Lemma getSessionId_header req req' :
  session_header req' = session_header req -> getSessionId req' = getSessionId req.
Proof. unfold getSessionId. by intros ->. Qed.

(** When the middleware answers itself, the answer is an error. *)
Lemma mcp_auth_answers hashApiKey config supabase nowIso req resp :
  mcp_auth hashApiKey config supabase nowIso req = inl resp ->
  exists status code message, outcome resp = SendJsonRpcError status code message.
Proof.
  unfold mcp_auth. destruct (negb (mcpHttpRequireApiKey config)); [discriminate |].
  destruct (credential req) as [key|].
  - destruct (negb (Js.truthy key)).
    + intros [= <-]. eauto.
    + destruct (Auth.authorizeApiKey _ _ _ _ _ _ _); [discriminate |].
      intros [= <-]. eauto.
  - intros [= <-]. eauto.
Qed.

(** The routes forward only to a session of the table, under its own id. *)
Lemma route_forwards config sessions req sid session :
  match method req with
  | POST => post_mcp config sessions req
  | GET => get_mcp config sessions req
  | DELETE => delete_mcp config sessions req
  end = TransportHandleRequest sid session ->
  getSessionId req = Some sid
  /\ sessions !! sid = Some session
  /\ fingerprint_mismatch config session req = false.
Proof.
  assert (Hon : forall sid0,
            on_session config sessions sid0 req = TransportHandleRequest sid session ->
            sid0 = sid /\ sessions !! sid = Some session
            /\ fingerprint_mismatch config session req = false).
  { intros sid0. unfold on_session.
    destruct (sessions !! sid0) as [s0|] eqn:Hs; [| discriminate].
    destruct (fingerprint_mismatch config s0 req) eqn:Hfp; [discriminate |].
    intros [= -> ->]. auto. }
  unfold delete_mcp, post_mcp, get_mcp.
  destruct (getSessionId req) as [sid0|]; destruct (method req);
    try discriminate; try (destruct (negb (isInitializeRequestBody req)); discriminate);
    intros Hr; destruct (Hon sid0 Hr) as (-> & Hs & Hfp); auto.
Qed.

(** X17: a request reaches a session's transport only if it names that
    session by its id and the session is in the table; and with API-key
    auth required (digests of 64 characters) only if its credential
    authorizes and has the fingerprint the session is bound to. *)
Theorem serve_mcp_forward_sound hashApiKey config supabase nowIso sessions req sid
    session :
  outcome (serve_mcp hashApiKey config supabase nowIso sessions req)
  = TransportHandleRequest sid session ->
  getSessionId req = Some sid
  /\ sessions !! sid = Some session
  /\ (mcpHttpRequireApiKey config = true ->
      (forall k, String.length (hashApiKey k) = 64%nat) ->
      exists key context,
        credential req = Some key
        /\ Auth.authorizeApiKey hashApiKey supabase nowIso key (mcpHttpUseDbKeys config)
             (mcpHttpAllowEnvKeyFallback config) (mcpHttpApiKeys config)
           = Auth.AuthOk context
        /\ s_apiKeyFingerprint session = Auth.fingerprint context).
Proof.
  unfold serve_mcp.
  destruct (mcp_auth hashApiKey config supabase nowIso req) as [resp|[req' hs]] eqn:Hauth.
  - destruct (mcp_auth_answers _ _ _ _ _ _ Hauth) as (st & code & msg & ->). discriminate.
  - cbn [outcome]. intros Hroute.
    destruct (route_forwards _ _ _ _ _ Hroute) as (Hsid & Hsession & Hfp).
    destruct (mcp_auth_passes _ _ _ _ _ _ _ Hauth) as (_ & Hheader & _).
    rewrite (getSessionId_header req req' Hheader) in Hsid.
    split; [exact Hsid |]. split; [exact Hsession |].
    intros Hreq Hdigest.
    destruct (HttpFacts.mcp_auth_next _ _ _ _ _ _ _ Hreq Hauth)
      as (key & context & Hcred & Hok & _ & Hfp').
    exists key, context. split; [exact Hcred |]. split; [exact Hok |].
    destruct (AuthFacts.authorize_ok_context _ _ _ _ _ _ _ _ Hok) as (Hctx & _ & _).
    assert (Htruthy : Js.truthy (Auth.fingerprint context) = true).
    { rewrite Hctx. apply HttpFacts.keyFingerprint_truthy, Hdigest. }
    rewrite (HttpFacts.fingerprint_mismatch_spec config session req'
               (Auth.fingerprint context) Hreq Hfp' Htruthy) in Hfp.
    apply negb_false_iff, String.eqb_eq in Hfp. exact Hfp.
Qed.

Lemma serve_mcp_forward_sound_witness :
  getSessionId (sample_request GET "nlt_tenant_a_0123456789" (Some "session-1"))
  = Some "session-1"
  /\ ({[ "session-1" := sample_session "a1a1a1a1a1a1" ]} : gmap string SessionContext)
     !! "session-1" = Some (sample_session "a1a1a1a1a1a1").
Proof.
  assert (Hforward :
            outcome
              (serve_mcp sample_hash sample_config
                 (answering_backend
                    (sample_rpc_row true "ok" (Some 100) (Some 3) (Some 20) (Some 1)))
                 "2026-02-19T09:40:00.000Z"
                 {[ "session-1" := sample_session "a1a1a1a1a1a1" ]}
                 (sample_request GET "nlt_tenant_a_0123456789" (Some "session-1")))
            = TransportHandleRequest "session-1" (sample_session "a1a1a1a1a1a1"))
    by reflexivity.
  destruct (serve_mcp_forward_sound _ _ _ _ _ _ _ _ Hforward) as (Hsid & Hsession & _).
  split; assumption.
Defined.

(** The answer of the middleware to a credential the backend denies. *)
Lemma mcp_auth_denied hashApiKey config supabase nowIso req key err :
  mcpHttpRequireApiKey config = true ->
  credential req = Some key ->
  key <> "" ->
  Auth.authorizeApiKey hashApiKey supabase nowIso key (mcpHttpUseDbKeys config)
    (mcpHttpAllowEnvKeyFallback config) (mcpHttpApiKeys config)
  = Auth.AuthErr err ->
  mcp_auth hashApiKey config supabase nowIso req
  = inl {| headers :=
             match Auth.retryAfterSec err with
             | Some n => if negb (n =? 0) then [("Retry-After", Js.string_of_number n)]
                         else []
             | None => []
             end;
           outcome :=
             SendJsonRpcError (Auth.httpStatus err) (Auth.jsonRpcCode err)
               (Auth.message err) |}.
Proof.
  intros Hreq Hcred Hkey Herr. unfold mcp_auth. rewrite Hreq, Hcred. cbn [negb].
  apply ApiKeysFacts.truthy_nonempty in Hkey. rewrite Hkey, Herr. reflexivity.
Qed.

(** X18: a credential the database denies gets, through the middleware:
    429 with [Retry-After: 60] for a minute limit, 429 with
    [Retry-After: 3600] for a daily limit, and for every other reason
    403 "Invalid API key." with no header at all; the routes are not
    reached. *)
Theorem serve_mcp_rate_limited hashApiKey config supabase nowIso sessions req key
    row rows :
  mcpHttpRequireApiKey config = true ->
  mcpHttpUseDbKeys config = true ->
  credential req = Some key ->
  key <> "" ->
  Auth.error (supabase (hashApiKey key) nowIso) = None ->
  Auth.data (supabase (hashApiKey key) nowIso) = Some (row :: rows) ->
  Auth.allowed row = false ->
  (Auth.reason row = "minute_limit_exceeded" ->
   serve_mcp hashApiKey config supabase nowIso sessions req
   = {| headers := [("Retry-After", "60")];
        outcome := SendJsonRpcError 429 (-32029) "Per-minute rate limit exceeded." |})
  /\ (Auth.reason row = "daily_limit_exceeded" ->
      serve_mcp hashApiKey config supabase nowIso sessions req
      = {| headers := [("Retry-After", "3600")];
           outcome := SendJsonRpcError 429 (-32029) "Daily API quota exceeded." |})
  /\ (Auth.reason row <> "minute_limit_exceeded" ->
      Auth.reason row <> "daily_limit_exceeded" ->
      serve_mcp hashApiKey config supabase nowIso sessions req
      = {| headers := [];
           outcome := SendJsonRpcError 403 (-32003) "Invalid API key." |}).
Proof.
  intros Hreq Hdb Hcred Hkey Herr Hdata Hdenied.
  assert (Hserve :
            serve_mcp hashApiKey config supabase nowIso sessions req
            = {| headers :=
                   match Auth.retryAfterSec (Auth.mapRpcRejection (Auth.reason row)) with
                   | Some n =>
                       if negb (n =? 0) then [("Retry-After", Js.string_of_number n)]
                       else []
                   | None => []
                   end;
                 outcome :=
                   SendJsonRpcError
                     (Auth.httpStatus (Auth.mapRpcRejection (Auth.reason row)))
                     (Auth.jsonRpcCode (Auth.mapRpcRejection (Auth.reason row)))
                     (Auth.message (Auth.mapRpcRejection (Auth.reason row))) |}).
  { unfold serve_mcp.
    rewrite (mcp_auth_denied hashApiKey config supabase nowIso req key
               (Auth.mapRpcRejection (Auth.reason row)) Hreq Hcred Hkey); [reflexivity |].
    rewrite Hdb. by apply AuthFacts.authorize_rejected with rows. }
  rewrite Hserve. split; [| split].
  - intros ->. reflexivity.
  - intros ->. reflexivity.
  - intros Hm Hd. unfold Auth.mapRpcRejection.
    apply String.eqb_neq in Hm, Hd. rewrite Hm, Hd.
    destruct (String.eqb (Auth.reason row) "invalid_key"
              || String.eqb (Auth.reason row) "revoked_key"); reflexivity.
Qed.

Lemma serve_mcp_rate_limited_witness :
  serve_mcp sample_hash sample_config
    (answering_backend
       (sample_rpc_row false "minute_limit_exceeded" (Some 100) None (Some 20) (Some 20)))
    "2026-02-19T09:40:00.000Z" ∅
    (sample_request POST "nlt_tenant_a_0123456789" None)
  = {| headers := [("Retry-After", "60")];
       outcome := SendJsonRpcError 429 (-32029) "Per-minute rate limit exceeded." |}.
Proof.
  apply (serve_mcp_rate_limited sample_hash sample_config
           (answering_backend
              (sample_rpc_row false "minute_limit_exceeded" (Some 100) None (Some 20)
                 (Some 20)))
           "2026-02-19T09:40:00.000Z" ∅
           (sample_request POST "nlt_tenant_a_0123456789" None)
           "nlt_tenant_a_0123456789"
           (sample_rpc_row false "minute_limit_exceeded" (Some 100) None (Some 20) (Some 20))
           []); try reflexivity.
  discriminate.
Defined.

(** X19: closing a session forgets it and nothing else: afterwards every
    request that names its id gets 404 "Unknown session ID." on each
    route, the other sessions are as before, closing twice equals closing
    once, and closing a session right after it was opened under a free id
    gives back the table as it was. *)
Theorem cleanupSession_forgets config sessions sid :
  (forall req,
     getSessionId req = Some sid ->
     post_mcp config (cleanupSession sid sessions) req
     = SendJsonRpcError 404 (-32004) "Unknown session ID."
     /\ get_mcp config (cleanupSession sid sessions) req
        = SendJsonRpcError 404 (-32004) "Unknown session ID."
     /\ delete_mcp config (cleanupSession sid sessions) req
        = SendJsonRpcError 404 (-32004) "Unknown session ID.")
  /\ (forall other, other <> sid -> cleanupSession sid sessions !! other = sessions !! other)
  /\ cleanupSession sid (cleanupSession sid sessions) = cleanupSession sid sessions
  /\ (forall req srv tr now,
        sessions !! sid = None ->
        cleanupSession sid (onsessioninitialized req srv tr now sid sessions) = sessions).
Proof.
  assert (Hdel : cleanupSession sid sessions = delete sid sessions).
  { unfold cleanupSession. destruct (sessions !! sid) eqn:Hs; [reflexivity |].
    symmetry. by apply delete_id. }
  split; [| split; [| split]].
  - intros req Hsid. unfold delete_mcp, post_mcp, get_mcp, on_session.
    rewrite Hsid, Hdel, lookup_delete_eq. auto.
  - intros other Hne. rewrite Hdel. by apply lookup_delete_ne.
  - unfold cleanupSession at 1. rewrite Hdel, lookup_delete_eq. reflexivity.
  - intros req srv tr now Hfree. unfold cleanupSession, onsessioninitialized.
    rewrite lookup_insert_eq, delete_insert_eq. by apply delete_id.
Qed.

Lemma cleanupSession_forgets_witness :
  post_mcp sample_config
    (cleanupSession "session-1" {[ "session-1" := sample_session "a1a1a1a1a1a1" ]})
    (sample_request POST "nlt_tenant_a_0123456789" (Some "session-1"))
  = SendJsonRpcError 404 (-32004) "Unknown session ID.".
Proof.
  destruct (cleanupSession_forgets sample_config
              {[ "session-1" := sample_session "a1a1a1a1a1a1" ]} "session-1")
    as (Hroutes & _).
  exact (proj1 (Hroutes (sample_request POST "nlt_tenant_a_0123456789" (Some "session-1"))
                  eq_refl)).
Defined.

Lemma mapRpcRejection_status r :
  Auth.httpStatus (Auth.mapRpcRejection r) = 403
  \/ Auth.httpStatus (Auth.mapRpcRejection r) = 429.
Proof.
  unfold Auth.mapRpcRejection.
  destruct (String.eqb r "invalid_key" || String.eqb r "revoked_key"); [by left |].
  destruct (String.eqb r "minute_limit_exceeded"); [by right |].
  destruct (String.eqb r "daily_limit_exceeded"); [by right | by left].
Qed.

(** An authorization error is a 403, a 429 or a 500. *)
Lemma authorize_error_status hashApiKey supabase nowIso key useDbKeys allowEnvFallback
    envKeys err :
  Auth.authorizeApiKey hashApiKey supabase nowIso key useDbKeys allowEnvFallback envKeys
  = Auth.AuthErr err ->
  Auth.httpStatus err = 403 \/ Auth.httpStatus err = 429 \/ Auth.httpStatus err = 500.
Proof.
  assert (Henv : Auth.envFallback hashApiKey key allowEnvFallback envKeys = Auth.AuthErr err ->
                 Auth.httpStatus err = 403).
  { unfold Auth.envFallback.
    destruct (allowEnvFallback && Auth.isApiKeyAllowed key envKeys); [discriminate |].
    by intros [= <-]. }
  unfold Auth.authorizeApiKey. destruct useDbKeys; [| intros H; left; by apply Henv].
  destruct (Auth.error (supabase (hashApiKey key) nowIso)) as [e|].
  - destruct (negb allowEnvFallback
              || negb (Auth.isRpcMissing (Js.or_default (Auth.error_message e) ""))).
    + intros [= <-]. right. by right.
    + intros H. left. by apply Henv.
  - destruct (match Auth.data (supabase (hashApiKey key) nowIso) with
              | Some rows => head rows
              | None => None
              end) as [row|].
    + destruct (negb (Auth.allowed row)); [| discriminate].
      intros [= <-]. destruct (mapRpcRejection_status (Auth.reason row)); auto.
    + intros [= <-]. by left.
Qed.

(** The routes answer with 400, 403 or 404 when they answer themselves. *)
Lemma route_error_status config sessions req status code message :
  match method req with
  | POST => post_mcp config sessions req
  | GET => get_mcp config sessions req
  | DELETE => delete_mcp config sessions req
  end = SendJsonRpcError status code message ->
  status = 400 \/ status = 403 \/ status = 404.
Proof.
  unfold delete_mcp, post_mcp, get_mcp, on_session.
  destruct (method req); destruct (getSessionId req) as [sid|];
    try (destruct (sessions !! sid) as [s|];
         [destruct (fingerprint_mismatch config s req) |]);
    try destruct (negb (isInitializeRequestBody req));
    intros [= <- _ _] || discriminate; auto.
Qed.

(** X20: with API-key auth required, the answer to a request is the 401
    challenge ([WWW-Authenticate: Bearer], "API key required.") exactly
    when its headers yield no credential; a request that carries one is
    never answered with 401. *)
Theorem serve_mcp_credential_required hashApiKey config supabase nowIso sessions m
    headers session isInitialize :
  mcpHttpRequireApiKey config = true ->
  (ApiKeys.extractApiKeyFromHeaders headers = None ->
   serve_mcp hashApiKey config supabase nowIso sessions
     (incoming m headers session isInitialize)
   = {| headers := [("WWW-Authenticate", "Bearer")];
        outcome := SendJsonRpcError 401 (-32001) "API key required." |})
  /\ (forall key code message,
        ApiKeys.extractApiKeyFromHeaders headers = Some key ->
        outcome (serve_mcp hashApiKey config supabase nowIso sessions
                   (incoming m headers session isInitialize))
        <> SendJsonRpcError 401 code message).
Proof.
  intros Hreq. split.
  - intros Hnone. unfold serve_mcp, mcp_auth, incoming. cbn [credential].
    rewrite Hreq, Hnone. reflexivity.
  - intros key code message Hsome Hout.
    pose proof (ApiKeysFacts.extractApiKeyFromHeaders_truthy _ _ Hsome) as Hkey.
    unfold serve_mcp in Hout.
    destruct (mcp_auth hashApiKey config supabase nowIso
                (incoming m headers session isInitialize)) as [resp|[req' hs]] eqn:Hauth.
    + unfold mcp_auth, incoming in Hauth. cbn [credential] in Hauth.
      rewrite Hreq, Hsome, Hkey in Hauth. cbn [negb] in Hauth.
      destruct (Auth.authorizeApiKey _ _ _ _ _ _ _) as [ctx|err] eqn:Hcall;
        [discriminate |].
      injection Hauth as <-. cbn [outcome] in Hout. injection Hout as Hstatus _ _.
      destruct (authorize_error_status _ _ _ _ _ _ _ _ Hcall) as [H|[H|H]];
        rewrite H in Hstatus; discriminate.
    + cbn [outcome] in Hout.
      destruct (route_error_status _ _ _ _ _ _ Hout) as [H|[H|H]]; discriminate.
Qed.

Lemma serve_mcp_credential_required_witness :
  serve_mcp sample_hash sample_config (failing_backend "unused")
    "2026-02-19T09:40:00.000Z" ∅
    (incoming POST {[ "authorization" := ApiKeys.HdrString "Basic dXNlcjpwYXNz" ]} None true)
  = {| headers := [("WWW-Authenticate", "Bearer")];
       outcome := SendJsonRpcError 401 (-32001) "API key required." |}.
Proof.
  exact (proj1 (serve_mcp_credential_required sample_hash sample_config
                  (failing_backend "unused") "2026-02-19T09:40:00.000Z" ∅ POST
                  {[ "authorization" := ApiKeys.HdrString "Basic dXNlcjpwYXNz" ]}
                  None true eq_refl) eq_refl).
Defined.

(** X21: a configuration that requires API keys, switches the database
    off and disables the environment fallback passes the start-up check
    as soon as a key is configured, yet it locks everybody out: every
    request is answered with the 401 challenge or with 403
    "Invalid API key.", whatever key it presents. *)
Theorem serve_mcp_locked_out hashApiKey config supabase :
  mcpHttpRequireApiKey config = true ->
  mcpHttpUseDbKeys config = false ->
  mcpHttpAllowEnvKeyFallback config = false ->
  (mcpHttpApiKeys config <> [] -> startup_error config = None)
  /\ forall nowIso sessions req,
       outcome (serve_mcp hashApiKey config supabase nowIso sessions req)
       = SendJsonRpcError 401 (-32001) "API key required."
       \/ outcome (serve_mcp hashApiKey config supabase nowIso sessions req)
          = SendJsonRpcError 403 (-32003) "Invalid API key.".
Proof.
  intros Hreq Hdb Hfallback. split.
  - intros Hkeys. unfold startup_error. rewrite Hreq, Hdb.
    destruct (mcpHttpApiKeys config); [congruence | reflexivity].
  - intros nowIso sessions req. unfold serve_mcp, mcp_auth.
    rewrite Hreq, Hdb, Hfallback. cbn [negb].
    destruct (credential req) as [key|]; [| by left].
    destruct (negb (Js.truthy key)); [by left |]. right. reflexivity.
Qed.

Lemma serve_mcp_locked_out_witness :
  startup_error
    {| mcpHttpRequireApiKey := true; mcpHttpUseDbKeys := false;
       mcpHttpAllowEnvKeyFallback := false;
       mcpHttpApiKeys := ["nlt_tenant_a_0123456789"] |} = None
  /\ outcome
       (serve_mcp sample_hash
          {| mcpHttpRequireApiKey := true; mcpHttpUseDbKeys := false;
             mcpHttpAllowEnvKeyFallback := false;
             mcpHttpApiKeys := ["nlt_tenant_a_0123456789"] |}
          (failing_backend "unused") "2026-02-19T09:40:00.000Z" ∅
          (sample_request POST "nlt_tenant_a_0123456789" None))
     = SendJsonRpcError 403 (-32003) "Invalid API key.".
Proof.
  destruct (serve_mcp_locked_out sample_hash
              {| mcpHttpRequireApiKey := true; mcpHttpUseDbKeys := false;
                 mcpHttpAllowEnvKeyFallback := false;
                 mcpHttpApiKeys := ["nlt_tenant_a_0123456789"] |}
              (failing_backend "unused") eq_refl eq_refl eq_refl) as [Hstart Hall].
  split; [apply Hstart; discriminate |].
  destruct (Hall "2026-02-19T09:40:00.000Z" ∅
              (sample_request POST "nlt_tenant_a_0123456789" None)) as [H|H].
  - discriminate H.
  - exact H.
Defined.

End HttpMore.

(** ** Configuration and counters *)

Module ServerFacts.
Import Http Server Samples.

Lemma total_insert_fresh key n (record : gmap string Z) :
  record !! key = None -> total (<[key := n]> record) = n + total record.
Proof.
  intros Hfresh. unfold total. apply map_fold_insert_L; [| exact Hfresh].
  intros. lia.
Qed.

Lemma total_bump key (record : gmap string Z) : total (bump key record) = total record + 1.
Proof.
  unfold bump. destruct (record !! key) as [n|] eqn:Hkey.
  - replace (if n =? 0 then 0 else n) with n
      by (destruct (Z.eqb_spec n 0); congruence).
    rewrite <- insert_delete_eq, total_insert_fresh by apply lookup_delete_eq.
    unfold total.
    rewrite (map_fold_delete_L _ _ key n record); [lia | intros; lia | exact Hkey].
  - rewrite total_insert_fresh by exact Hkey. lia.
Qed.

Section Metrics.
Variable toUpperCase : string -> string.

Lemma recordHttpRequests_invariant reqs :
  forall c,
    total (byMethod c) = requests c ->
    total (byStatusClass c) = requests c ->
    requests (recordHttpRequests toUpperCase reqs c)
    = requests c + Z.of_nat (length reqs)
    /\ total (byMethod (recordHttpRequests toUpperCase reqs c))
       = requests (recordHttpRequests toUpperCase reqs c)
    /\ total (byStatusClass (recordHttpRequests toUpperCase reqs c))
       = requests (recordHttpRequests toUpperCase reqs c).
Proof.
  induction reqs as [|[m st] reqs IH]; intros c Hm Hs.
  - cbn. split; [lia | auto].
  - change (recordHttpRequests toUpperCase ((m, st) :: reqs) c)
      with (recordHttpRequests toUpperCase reqs (recordHttpRequest toUpperCase m st c)).
    destruct (IH (recordHttpRequest toUpperCase m st c)) as (Hn & Hm' & Hs').
    + cbn. rewrite total_bump. lia.
    + cbn. rewrite total_bump. lia.
    + split; [| auto]. rewrite Hn. cbn [requests recordHttpRequest length]. lia.
Qed.
End Metrics.

(** X22: the HTTP counters stay consistent: after any run of finished
    requests, counted from the start, the number of requests equals the
    length of the run, the sum of the per-method counts and the sum of
    the per-status-class counts. *)
Theorem recordHttpRequests_totals toUpperCase reqs :
  requests (recordHttpRequests toUpperCase reqs httpCounter_initial)
  = Z.of_nat (length reqs)
  /\ total (byMethod (recordHttpRequests toUpperCase reqs httpCounter_initial))
     = Z.of_nat (length reqs)
  /\ total (byStatusClass (recordHttpRequests toUpperCase reqs httpCounter_initial))
     = Z.of_nat (length reqs).
Proof.
  destruct (recordHttpRequests_invariant toUpperCase reqs httpCounter_initial)
    as (Hn & Hm & Hs); [reflexivity | reflexivity |].
  cbn [requests httpCounter_initial] in Hn. rewrite Hm, Hs, Hn. repeat split; lia.
Qed.

Lemma filter_nonempty_In (l : list string) k :
  In k (List.filter (fun v => (0 <? String.length v)%nat) l) <->
  In k l /\ k <> "".
Proof.
  rewrite filter_In, <- ApiKeysFacts.truthy_length.
  by rewrite ApiKeysFacts.truthy_nonempty.
Qed.

(** X23: every environment key the configuration ends up with is
    non-empty and trimmed, whatever [MCP_HTTP_API_KEYS] holds, so the
    empty credential never matches the fallback list; and with the
    variables unset, keys are required, looked up in the database, the
    fallback is allowed with no key listed, and the server starts. *)
Theorem loadConfig_keys env :
  (forall k, In k (mcpHttpApiKeys (loadConfig env)) -> k <> "" /\ Js.trim k = k)
  /\ Auth.isApiKeyAllowed "" (mcpHttpApiKeys (loadConfig env)) = false
  /\ (MCP_HTTP_REQUIRE_API_KEY env = None -> MCP_HTTP_USE_DB_KEYS env = None ->
      MCP_HTTP_ALLOW_ENV_KEY_FALLBACK env = None -> MCP_HTTP_API_KEYS env = None ->
      loadConfig env
      = {| mcpHttpRequireApiKey := true; mcpHttpUseDbKeys := true;
           mcpHttpAllowEnvKeyFallback := true; mcpHttpApiKeys := [] |}
      /\ startup_error (loadConfig env) = None).
Proof.
  assert (Hclean : forall k, In k (mcpHttpApiKeys (loadConfig env)) ->
                             k <> "" /\ Js.trim k = k).
  { intros k. cbn [loadConfig mcpHttpApiKeys]. unfold parse_api_keys.
    rewrite filter_nonempty_In, in_map_iff.
    intros [(raw & <- & _) Hne]. split; [exact Hne | apply ApiKeysFacts.trim_idempotent]. }
  split; [exact Hclean |]. split.
  - destruct (Auth.isApiKeyAllowed "" (mcpHttpApiKeys (loadConfig env))) eqn:Hin;
      [| reflexivity].
    apply AuthMore.isApiKeyAllowed_In in Hin. destruct (Hclean "" Hin) as [Hne _].
    congruence.
  - intros H1 H2 H3 H4. unfold loadConfig. rewrite H1, H2, H3, H4. split; reflexivity.
Qed.

Lemma loadConfig_keys_witness :
  mcpHttpApiKeys
    (loadConfig {| MCP_HTTP_REQUIRE_API_KEY := Some " FALSE ";
                   MCP_HTTP_USE_DB_KEYS := None;
                   MCP_HTTP_ALLOW_ENV_KEY_FALLBACK := None;
                   MCP_HTTP_API_KEYS := Some " nlt_a ,, nlt_b," |})
  = ["nlt_a"; "nlt_b"]
  /\ "nlt_b" <> "" /\ Js.trim "nlt_b" = "nlt_b".
Proof.
  split; [reflexivity |].
  apply (proj1 (loadConfig_keys
                  {| MCP_HTTP_REQUIRE_API_KEY := Some " FALSE ";
                     MCP_HTTP_USE_DB_KEYS := None;
                     MCP_HTTP_ALLOW_ENV_KEY_FALLBACK := None;
                     MCP_HTTP_API_KEYS := Some " nlt_a ,, nlt_b," |}) "nlt_b").
  right. left. reflexivity.
Defined.

End ServerFacts.

(** ** Key issuance and the life of a key *)

Module SqlKeysFacts.
Import Sql SqlKeys Samples SqlFacts.

Lemma byte_value_range b : 0 <= byte_value b < 256.
Proof. unfold byte_value. pose proof (nat_ascii_bounded b). lia. Qed.

(** Each of the 64 characters of the alphabet is no padding and is URL
    safe once [+] and [/] are replaced. *)
Lemma base64_char_url_safe i :
  0 <= i < 64 ->
  Ascii.eqb (base64_char i) "=" = false
  /\ is_url_safe (if Ascii.eqb (base64_char i) "+" then "-"%char
                  else if Ascii.eqb (base64_char i) "/" then "_"%char
                       else base64_char i) = true.
Proof.
  intros Hi. unfold base64_char.
  assert (Hn : (Z.to_nat i < 64)%nat) by lia.
  generalize dependent (Z.to_nat i). intros n Hn.
  do 64 (destruct n as [|n]; [split; reflexivity |]). lia.
Qed.

Lemma encode_base64_three b0 b1 b2 rest :
  encode_base64 (b0 :: b1 :: b2 :: rest)
  = String (base64_char (byte_value b0 / 4))
      (String (base64_char ((byte_value b0 mod 4) * 16 + byte_value b1 / 16))
         (String (base64_char ((byte_value b1 mod 16) * 4 + byte_value b2 / 64))
            (String (base64_char (byte_value b2 mod 64)) (encode_base64 rest)))).
Proof. reflexivity. Qed.

Lemma url_safe_char_step c t :
  Ascii.eqb c "=" = false ->
  is_url_safe (if Ascii.eqb c "+" then "-"%char
               else if Ascii.eqb c "/" then "_"%char else c) = true ->
  String.length (translate_url_safe (remove_padding (String c t)))
  = S (String.length (translate_url_safe (remove_padding t)))
  /\ all_url_safe (translate_url_safe (remove_padding (String c t)))
     = all_url_safe (translate_url_safe (remove_padding t)).
Proof.
  intros Hpad Hsafe. cbn [remove_padding]. rewrite Hpad.
  cbn [translate_url_safe String.length all_url_safe]. rewrite Hsafe. auto.
Qed.

(** Whole groups of three bytes give four URL-safe characters each and
    no padding. *)
Lemma encode_base64_groups n :
  forall bytes,
    length bytes = (3 * n)%nat ->
    String.length (translate_url_safe (remove_padding (encode_base64 bytes)))
    = (4 * n)%nat
    /\ all_url_safe (translate_url_safe (remove_padding (encode_base64 bytes))) = true.
Proof.
  induction n as [|n IH]; intros bytes Hlen.
  - destruct bytes; [split; reflexivity | discriminate].
  - destruct bytes as [|b0 [|b1 [|b2 rest]]]; try (cbn in Hlen; lia).
    destruct (IH rest) as [IHlen IHsafe]; [cbn in Hlen; lia |].
    pose proof (byte_value_range b0). pose proof (byte_value_range b1).
    pose proof (byte_value_range b2).
    rewrite encode_base64_three.
    destruct (base64_char_url_safe (byte_value b0 / 4)) as [P0 S0];
      [split; [apply Z.div_pos | apply Z.div_lt_upper_bound]; lia |].
    destruct (base64_char_url_safe ((byte_value b0 mod 4) * 16 + byte_value b1 / 16))
      as [P1 S1].
    { pose proof (Z.mod_pos_bound (byte_value b0) 4 ltac:(lia)).
      assert (0 <= byte_value b1 / 16 < 16)
        by (split; [apply Z.div_pos | apply Z.div_lt_upper_bound]; lia).
      lia. }
    destruct (base64_char_url_safe ((byte_value b1 mod 16) * 4 + byte_value b2 / 64))
      as [P2 S2].
    { pose proof (Z.mod_pos_bound (byte_value b1) 16 ltac:(lia)).
      assert (0 <= byte_value b2 / 64 < 4)
        by (split; [apply Z.div_pos | apply Z.div_lt_upper_bound]; lia).
      lia. }
    destruct (base64_char_url_safe (byte_value b2 mod 64)) as [P3 S3];
      [apply Z.mod_pos_bound; lia |].
    destruct (url_safe_char_step _ (encode_base64 rest) P3 S3) as [L3 A3].
    destruct (url_safe_char_step _ (String (base64_char (byte_value b2 mod 64))
                                      (encode_base64 rest)) P2 S2) as [L2 A2].
    destruct (url_safe_char_step _
                (String (base64_char ((byte_value b1 mod 16) * 4 + byte_value b2 / 64))
                   (String (base64_char (byte_value b2 mod 64)) (encode_base64 rest)))
                P1 S1) as [L1 A1].
    destruct (url_safe_char_step _
                (String (base64_char ((byte_value b0 mod 4) * 16 + byte_value b1 / 16))
                   (String (base64_char ((byte_value b1 mod 16) * 4 + byte_value b2 / 64))
                      (String (base64_char (byte_value b2 mod 64)) (encode_base64 rest))))
                P0 S0) as [L0 A0].
    rewrite L0, L1, L2, L3, A0, A1, A2, A3, IHlen, IHsafe. split; [lia | reflexivity].
Qed.

Lemma url_safe_not_white_space c : is_url_safe c = true -> Js.is_white_space c = false.
Proof. destruct c as [[] [] [] [] [] [] [] []]; vm_compute; congruence. Qed.

Lemma all_url_safe_no_white_space s :
  all_url_safe s = true -> ApiKeys.no_white_space s = true.
Proof.
  induction s as [|c t IH]; [reflexivity |]. cbn.
  intros [Hc Ht]%andb_true_iff.
  by rewrite (url_safe_not_white_space c Hc), (IH Ht).
Qed.

Lemma prefix_empty s : String.prefix "" s = true.
Proof. destruct s; reflexivity. Qed.

(** [left(s, n)] is a prefix of [s]. *)
Lemma prefix_left n : forall s, String.prefix (left s n) s = true.
Proof.
  unfold left. induction n as [|n IH]; intros [|c s]; try reflexivity.
  cbn. destruct (ascii_dec c c); [apply IH | congruence].
Qed.

(** X24: a key issued from 24 random bytes is [nlt_] followed by 32
    characters, 36 in all; every character is a letter, a digit, [-] or
    [_], so the key holds no white space and no padding; its stored
    prefix is the first 8 characters. *)
Theorem make_raw_key_format random_bytes :
  length random_bytes = 24%nat ->
  String.length (make_raw_key random_bytes) = 36%nat
  /\ String.prefix "nlt_" (make_raw_key random_bytes) = true
  /\ all_url_safe (make_raw_key random_bytes) = true
  /\ ApiKeys.no_white_space (make_raw_key random_bytes) = true
  /\ String.length (left (make_raw_key random_bytes) 8) = 8%nat
  /\ String.prefix (left (make_raw_key random_bytes) 8) (make_raw_key random_bytes) = true.
Proof.
  intros Hlen. destruct (encode_base64_groups 8 random_bytes Hlen) as [Hbody Hsafe].
  unfold make_raw_key.
  set (body := translate_url_safe (remove_padding (encode_base64 random_bytes))) in *.
  clearbody body.
  change ("nlt_" ++ body)
    with (String "n" (String "l" (String "t" (String "_" body)))).
  assert (Hall : all_url_safe (String "n" (String "l" (String "t" (String "_" body))))
                 = true) by (cbn; exact Hsafe).
  split; [cbn; lia |]. split; [cbn; apply prefix_empty |]. split; [exact Hall |].
  split; [by apply all_url_safe_no_white_space |].
  split; [| apply prefix_left].
  destruct body as [|c0 [|c1 [|c2 [|c3 body']]]]; try (cbn in Hbody; lia).
  unfold left. destruct body'; reflexivity.
Qed.

Lemma make_raw_key_format_witness :
  String.length (make_raw_key (repeat "000"%char 24)) = 36%nat
  /\ make_raw_key (repeat "255"%char 24) = "nlt_________________________________".
Proof.
  split; [| reflexivity].
  exact (proj1 (make_raw_key_format (repeat "000"%char 24) eq_refl)).
Defined.

(** *** At most three active keys per user *)






(** *** From issuance to revocation *)

Lemma select_key_by_hash_inserted row (tbl : list mcp_api_keys_row) :
  existsb (fun k => String.eqb (key_hash k) (key_hash row)) tbl = false ->
  select_key_by_hash (key_hash row) (tbl ++ [row]) = Some row.
Proof.
  unfold select_key_by_hash. induction tbl as [|k tbl IH]; cbn.
  - intros _. by rewrite String.eqb_refl.
  - intros [Hk Hrest]%orb_false_iff. rewrite Hk. by apply IH.
Qed.

(** X26: a key that [create_user_api_key] has just issued is admitted on
    its first use: presenting the digest of the raw key returned gives an
    allowed decision for the new key id with tier [free], quotas 100 per
    day and 20 per minute, and both counts at 1. *)
Theorem create_then_consume digest_hex u now new_id random_bytes p_key_name db created
    db1 now' p_now :
  create_user_api_key digest_hex (Some u) now new_id random_bytes p_key_name db
  = SqlOk (created, db1) ->
  (forall w, mcp_api_usage_minute db !! (new_id, w) = None) ->
  (forall w, mcp_api_usage_daily db !! (new_id, w) = None) ->
  exists db2,
    consume_mcp_api_request now' (digest_hex (c_raw_key created)) p_now db1
    = SqlOk ({| allowed := true; reason := "ok";
                api_key_id := Some (c_key_id created);
                r_key_name := Some (c_key_name created);
                r_tier := Some "free";
                r_daily_quota := Some 100; daily_count := Some 1;
                r_per_minute_quota := Some 20; minute_count := Some 1 |}, db2)
    /\ c_key_id created = new_id
    /\ c_key_name created <> "".
Proof.
  intros Hcreate Hminute Hdaily. unfold create_user_api_key in Hcreate.
  destruct (3 <=? count_active_keys u (mcp_api_keys db)); [discriminate |].
  unfold insert_key in Hcreate. cbn [id key_hash] in Hcreate.
  destruct (existsb (fun k => String.eqb (id k) new_id) (mcp_api_keys db));
    [discriminate |].
  destruct (existsb _ (mcp_api_keys db)) eqn:Hfresh; [discriminate |].
  injection Hcreate as <- <-. cbn [c_raw_key c_key_id c_key_name].
  set (row := {| id := new_id; key_name := Some (default_key_name p_key_name);
                 key_prefix := left (make_raw_key random_bytes) 8;
                 key_hash := digest_hex (make_raw_key random_bytes);
                 tier := "free"; status := "active";
                 daily_quota := Some 100; per_minute_quota := Some 20;
                 metadata := "{}"; created_at := now; updated_at := now;
                 last_used_at := None; user_id := Some u |}) in *.
  pose proof (select_key_by_hash_inserted row (mcp_api_keys db) Hfresh) as Hsel.
  eexists. split; [| split; [reflexivity |]].
  - eapply (consume_admitted now' _ p_now (with_keys (mcp_api_keys db ++ [row]) db) row).
    + exact Hsel.
    + reflexivity.
    + apply (check_window_fresh (Some 20)). apply Hminute.
    + apply (check_window_fresh (Some 100)). apply Hdaily.
  - unfold default_key_name. destruct p_key_name as [n|]; [| discriminate].
    destruct (String.eqb_spec (btrim n) ""); [discriminate | assumption].
Qed.

Lemma create_then_consume_witness :
  exists created db1 db2,
    create_user_api_key sample_hash (Some "u-2") t0 "9a1f" (repeat "007"%char 24)
      (Some "  ") (sample_db (Some 100) (Some 20) "active" [] [])
    = SqlOk (created, db1)
    /\ c_key_name created = "My API Key"
    /\ consume_mcp_api_request (t0 + 5) (sample_hash (c_raw_key created)) (t0 + 5) db1
       = SqlOk ({| allowed := true; reason := "ok";
                   api_key_id := Some "9a1f";
                   r_key_name := Some "My API Key";
                   r_tier := Some "free";
                   r_daily_quota := Some 100; daily_count := Some 1;
                   r_per_minute_quota := Some 20; minute_count := Some 1 |}, db2).
Proof.
  set (db := sample_db (Some 100) (Some 20) "active" [] []).
  set (created := {| c_key_id := "9a1f";
                     c_raw_key := make_raw_key (repeat "007"%char 24);
                     c_key_name := "My API Key";
                     c_key_prefix := left (make_raw_key (repeat "007"%char 24)) 8 |}).
  assert (Hcreate : exists db1,
             create_user_api_key sample_hash (Some "u-2") t0 "9a1f"
               (repeat "007"%char 24) (Some "  ") db = SqlOk (created, db1))
    by (eexists; vm_compute; reflexivity).
  destruct Hcreate as [db1 Hcreate].
  destruct (create_then_consume sample_hash "u-2" t0 "9a1f" (repeat "007"%char 24)
              (Some "  ") db created db1 (t0 + 5) (t0 + 5) Hcreate)
    as (db2 & Hcall & _ & _); [intros w; reflexivity | intros w; reflexivity |].
  exists created, db1, db2. split; [exact Hcreate |]. split; [reflexivity |]. exact Hcall.
Defined.

(** X27: only the owner revokes. A call without a signed-in user raises
    "Not authenticated"; a call by a user who owns no key with the given
    id returns false and leaves every row as it was, the key staying
    active for its owner. *)
Theorem revoke_requires_owner caller now kid db :
  revoke_user_api_key None now kid db = SqlRaise "Not authenticated"
  /\ ((forall k, k ∈ mcp_api_keys db -> id k = kid -> user_id k <> Some caller) ->
      revoke_user_api_key (Some caller) now kid db = SqlOk (false, db)).
Proof.
  split; [reflexivity |]. intros Hother. unfold revoke_user_api_key.
  destruct (update_keys_no_match now (revoke_cond kid caller) (set_status "revoked")
              (mcp_api_keys db)) as [Hsame Hfound].
  { intros k Hin. unfold revoke_cond.
    destruct (String.eqb_spec (id k) kid) as [Hid|]; [| reflexivity].
    specialize (Hother k Hin Hid).
    destruct (user_id k) as [o|]; [| reflexivity].
    destruct (String.eqb_spec o caller) as [->|]; [congruence | reflexivity]. }
  rewrite Hfound, Hsame. destruct db; reflexivity.
Qed.

Lemma revoke_requires_owner_witness :
  revoke_user_api_key (Some "u-2") t0 "7d0c" (sample_db (Some 100) (Some 20) "active" [] [])
  = SqlOk (false, sample_db (Some 100) (Some 20) "active" [] []).
Proof.
  apply (proj2 (revoke_requires_owner "u-2" t0 "7d0c"
                  (sample_db (Some 100) (Some 20) "active" [] []))).
  intros k Hin _. apply list_elem_of_singleton in Hin. subst k. discriminate.
Defined.

Lemma select_key_by_hash_update h now cond set (tbl : list mcp_api_keys_row) :
  (forall k, key_hash (set k) = key_hash k) ->
  select_key_by_hash h (update_keys now cond set tbl)
  = (fun k => if cond k then set_mcp_api_keys_updated_at now (set k) else k)
      <$> select_key_by_hash h tbl.
Proof.
  intros Hhash. unfold select_key_by_hash, update_keys.
  induction tbl as [|k tbl IH]; [reflexivity |].
  cbn [fmap list_fmap find].
  destruct (cond k) eqn:Hcond; cbn [key_hash set_mcp_api_keys_updated_at];
    rewrite ?Hhash; destruct (String.eqb (key_hash k) h); cbn; rewrite ?Hcond; auto.
Qed.

(** X28: revocation takes effect at once. After the owner has revoked
    the key a hash selects, every later call with that hash is denied
    with [revoked_key] and charges nothing. *)
Theorem revoke_then_consume h u now db k :
  select_key_by_hash h (mcp_api_keys db) = Some k ->
  user_id k = Some u ->
  status k = "active" ->
  exists db1,
    revoke_user_api_key (Some u) now (id k) db = SqlOk (true, db1)
    /\ forall now' p_now,
         exists row,
           consume_mcp_api_request now' h p_now db1 = SqlOk (row, db1)
           /\ allowed row = false
           /\ reason row = "revoked_key"
           /\ api_key_id row = Some (id k).
Proof.
  intros Hsel Hu Hst.
  assert (Hcond : revoke_cond (id k) u k = true).
  { unfold revoke_cond. rewrite Hu, Hst, !String.eqb_refl. reflexivity. }
  assert (Hfound : update_found (revoke_cond (id k) u) (mcp_api_keys db) = true).
  { unfold update_found. apply existsb_exists. exists k. split; [| exact Hcond].
    unfold select_key_by_hash in Hsel. by apply find_some in Hsel as [Hin _]. }
  unfold revoke_user_api_key. rewrite Hfound. eexists. split; [reflexivity |].
  intros now' p_now. eexists. split.
  - apply SqlMore.consume_revoked_key_row
      with (k := set_mcp_api_keys_updated_at now (set_status "revoked" k)).
    + cbn [mcp_api_keys with_keys]. rewrite select_key_by_hash_update by reflexivity.
      rewrite Hsel. cbn. by rewrite Hcond.
    + cbn. discriminate.
  - repeat split; reflexivity.
Qed.

Lemma revoke_then_consume_witness :
  exists db1,
    revoke_user_api_key (Some "u-1") t0 "7d0c"
      (sample_db (Some 100) (Some 20) "active" [] [])
    = SqlOk (true, db1)
    /\ exists row,
         consume_mcp_api_request (t0 + 9) "5e88" (t0 + 9) db1 = SqlOk (row, db1)
         /\ allowed row = false /\ reason row = "revoked_key".
Proof.
  destruct (revoke_then_consume "5e88" "u-1" t0
              (sample_db (Some 100) (Some 20) "active" [] [])
              (sample_key (Some 100) (Some 20) "active") eq_refl eq_refl eq_refl)
    as (db1 & Hrevoke & Hlater).
  exists db1. split; [exact Hrevoke |].
  destruct (Hlater (t0 + 9) (t0 + 9)) as (row & Hcall & Hdenied & Hreason & _).
  exists row. auto.
Defined.

End SqlKeysFacts.
